(** * SecuredCaptcha: the risk-scoring and challenge-lifecycle core

    A shallow embedding of the TypeScript service (src/services/botDetection.ts,
    src/services/ipIntelligence.ts, src/services/abuseDetection.ts,
    src/config/database.ts, src/routes/challenge.ts) and of the standalone
    variant (standalone-package/server.js), followed by the properties of the
    specification that were checked against it.

    Conventions of the embedding.
    - A JavaScript [number] that is a count, a score stored in the database
      or a time produced by [Date.now()] is a [Z].  The numbers of a
      behavioral sample (coordinates, time stamps, request timings) and the
      intermediate values of the scoring (confidences, averages, variances,
      the unrounded score) are rationals [Q], with [Math.round] as
      [Qfloor (q + 1/2)].  Every constant the scoring code adds is a multiple
      of 1/2 and every weighted sum it rounds is a multiple of 1/5, hence
      further than 1/10 from a rounding boundary: the double arithmetic of the
      source and the exact arithmetic here agree on the scores.  For the
      traces of at most 50 points that the widget sends, the double product
      [movements.length * 0.7] compares with an integer as the rational does
      (the shortest trace for which they differ has 90 points).
    - [Date.now()], [uuidv4()], [crypto.randomBytes] and [Math.random()] are
      inputs of the functions that call them.
    - Prisma tables with a unique key are finite maps over that key, the
      other tables are lists; queries are total (the [catch] blocks for a
      failing database are not modelled).  The in-memory replacement of Redis
      is a finite map from key strings to items, as in the source.
    - Libraries the service calls (ua-parser-js, geoip-lite, crypto, axios)
      and the process environment are the fields of the class [Platform]. *)

From Stdlib Require Import ZArith QArith Qabs Qround Qminmax Lqa.
From Stdlib Require Import String Ascii.
From stdpp Require Import base option list gmap strings pretty.

Local Open Scope string_scope.
Local Open Scope Z_scope.

(** ** JavaScript helpers *)

Module JS.

(** [Math.round]: to the nearest integer, halves towards plus infinity. *)
Definition Math_round (q : Q) : Z := Qfloor (q + (1 # 2))%Q.

Definition Qltb (a b : Q) : bool := negb (Qle_bool b a).
Definition Qgeb (a b : Q) : bool := Qle_bool b a.

(** Truthiness of an optional string ([undefined], [null] and [''] are
    falsy). *)
Definition truthy (s : option string) : bool :=
  match s with
  | Some s => negb (String.eqb s "")
  | None => false
  end.

(** [a || b] on optional strings. *)
Definition or_else (a : option string) (b : string) : string :=
  match a with
  | Some s => if String.eqb s "" then b else s
  | None => b
  end.

Definition toLowerCase_ascii (c : ascii) : ascii :=
  let n := nat_of_ascii c in
  if ((65 <=? n)%nat && (n <=? 90)%nat)%bool then ascii_of_nat (n + 32) else c.

Fixpoint toLowerCase (s : string) : string :=
  match s with
  | EmptyString => EmptyString
  | String c s' => String (toLowerCase_ascii c) (toLowerCase s')
  end.

Fixpoint includes (pat s : string) : bool :=
  String.prefix pat s ||
  match s with
  | EmptyString => false
  | String _ s' => includes pat s'
  end.

(** [/pat/i.test(s)] for a pattern that is a literal lower-case word. *)
Definition test_i (pat s : string) : bool := includes pat (toLowerCase s).

(** [s.length]: the number of UTF-16 code units of a string.  Strings are
    held as UTF-8 bytes: a continuation byte (10xxxxxx) adds nothing, and
    the lead byte of a four-byte sequence (11110xxx) stands for a surrogate
    pair. *)
Fixpoint length (s : string) : nat :=
  match s with
  | EmptyString => 0
  | String c s' =>
      let n := nat_of_ascii c in
      ((if (128 <=? n) && (n <? 192) then 0 else if 240 <=? n then 2 else 1)
       + length s')%nat
  end.

(** [Array.prototype.join]. *)
Fixpoint join (sep : string) (l : list string) : string :=
  match l with
  | [] => ""
  | [x] => x
  | x :: l' => x ++ sep ++ join sep l'
  end.

(** [a.reduce((x, y) => x + y, 0)]. *)
Definition sumQ (l : list Q) : Q := fold_left Qplus l 0%Q.

End JS.

(** ** Interfaces of the source *)

Inductive RiskLevel := low | medium | high | critical.

(** The Prisma enum of [riskLevel]; the same four upper-case tags are the
    [severity] of the abuse detector. *)
Inductive Level := LOW | MEDIUM | HIGH | CRITICAL.

Definition toUpperCase (r : RiskLevel) : Level :=
  match r with
  | low => LOW
  | medium => MEDIUM
  | high => HIGH
  | critical => CRITICAL
  end.

Record MousePoint := { mx : Q; my : Q; mtimestamp : Q }.
Record Keystroke := { key : string; ktimestamp : Q }.

Record BotAnalysis := {
  score : Z;
  signals : list string;
  riskLevel : RiskLevel;
  reasons : list string
}.

(** What the service reads of [new UAParser(ua).getResult()]. *)
Record UAResult := {
  browser_name : option string;
  browser_version : option string;
  os_name : option string
}.

Record IPAnalysis := {
  vpnDetected : bool;
  proxyDetected : bool;
  torDetected : bool;
  abuseScore : Z;
  country : option string;
  ip_riskLevel : RiskLevel;
  ip_reasons : list string
}.

(** The fields read of the IPQualityScore answer ([response.data]). *)
Record IPQSData := {
  ipqs_success : bool;
  ipqs_proxy : bool;
  ipqs_vpn : bool;
  ipqs_tor : bool;
  ipqs_fraud_score : Z
}.

(** The fields read of the IPInfo answer ([response.data.privacy]). *)
Record IPInfoPrivacy := {
  privacy_vpn : bool;
  privacy_proxy : bool;
  privacy_hosting : bool
}.

(** The libraries and the process environment the service depends on.
    [None] from an [axios] call stands for a call that throws. *)
Class Platform := {
  UAParser : string -> UAResult;
  parseFloat : string -> option Q;
  geoip_lookup : string -> option string;
  sha256_hex : string -> string;
  IPQUALITYSCORE_API_KEY : option string;
  IPINFO_TOKEN : option string;
  axios_get_ipqs : string -> option IPQSData;
  axios_get_ipinfo : string -> option (option IPInfoPrivacy);
  CHALLENGE_EXPIRY_SECONDS : option Z
}.

(** ** services/botDetection.ts *)

Module BotDetector.

Record FingerprintData := {
  fingerprint : option string;
  userAgent : option string;
  ipAddress : option string;
  acceptLanguage : option string;
  acceptEncoding : option string;
  screenResolution : option string;
  timezone : option Z;
  canvas : option string;
  webgl : option string;
  fonts : option (list string)
}.

Record UAVerdict := { isBot : bool; confidence : Q; type : string }.

Definition botPatterns : list string :=
  [ "bot"; "crawl"; "spider"; "scrape"; "curl"; "wget";
    "python"; "java"; "php"; "ruby"; "go-http";
    "headless"; "phantom"; "selenium"; "puppeteer" ].

Section WithPlatform.
Context `{Platform}.

Definition analyzeUserAgent (userAgent : string) : UAVerdict :=
  let result := UAParser userAgent in
  (* the loop over botPatterns, which breaks at the first match *)
  let v :=
    if existsb (fun pattern => JS.test_i pattern userAgent) botPatterns
    then {| isBot := true; confidence := 0.9; type := "Known bot signature" |}
    else {| isBot := false; confidence := 0; type := "" |} in
  let v :=
    if negb (JS.truthy (browser_name result)) || negb (JS.truthy (os_name result))
    then {| isBot := true;
            confidence := Qmax (confidence v) 0.7;
            type := "Incomplete user agent" |}
    else v in
  let v :=
    match browser_version result with
    | Some version =>
        if negb (String.eqb version "") then
          match parseFloat version with
          | Some f =>
              if JS.Qltb f 50
              then {| isBot := isBot v;
                      confidence := Qmax (confidence v) 0.6;
                      type := type v |}
              else v
          | None => v
          end
        else v
    | None => v
    end in
  v.

(** The pre-hash components, in the order of the source. *)
Definition components (data : FingerprintData) : list string :=
  [ JS.or_else (userAgent data) "";
    JS.or_else (acceptLanguage data) "";
    JS.or_else (acceptEncoding data) "";
    JS.or_else (screenResolution data) "";
    JS.or_else (pretty <$> timezone data) "";
    JS.or_else (canvas data) "";
    JS.or_else (webgl data) "";
    JS.or_else (JS.join "," <$> fonts data) "" ].

Definition prehash (data : FingerprintData) : string :=
  JS.join "|" (components data).

Definition generateFingerprint (data : FingerprintData) : string :=
  sha256_hex (prehash data).

(** [intervals[i-1] = t[i] - t[i-1]] for [i = 1 .. length-1]. *)
Fixpoint intervalsOf (t : list Q) : list Q :=
  match t with
  | a :: (b :: _) as rest => (b - a)%Q :: intervalsOf rest
  | _ => []
  end.

Definition lengthQ {A} (l : list A) : Q := inject_Z (Z.of_nat (length l)).

Definition average (intervals : list Q) : Q :=
  (JS.sumQ intervals / lengthQ intervals)%Q.

Definition varianceOf (intervals : list Q) : Q :=
  let avgInterval := average intervals in
  (fold_left (fun sum interval =>
                sum + (interval - avgInterval) * (interval - avgInterval))
             intervals 0 / lengthQ intervals)%Q.

Record TimingVerdict := { suspicious : bool; reason : string }.

(** [stdDev < 10] is stated on the variance: [Math.sqrt] is monotone. *)
Definition analyzeTimingPatterns (requestTimings : list Q) : TimingVerdict :=
  if (length requestTimings <? 3)%nat then
    {| suspicious := false; reason := "Insufficient data" |}
  else
    let intervals := intervalsOf requestTimings in
    let avgInterval := average intervals in
    let variance := varianceOf intervals in
    if JS.Qltb variance (10 * 10) && (5 <? length intervals)%nat then
      {| suspicious := true; reason := "Uniform timing pattern detected" |}
    else if JS.Qltb avgInterval 100 then
      {| suspicious := true; reason := "Requests too fast for human" |}
    else
      {| suspicious := false; reason := "Normal timing pattern" |}.

Record Input := {
  in_userAgent : string;
  in_fingerprint : string;
  in_ipAddress : string;
  mouseMovements : option (list MousePoint);
  keystrokes : option (list Keystroke);
  requestTimings : option (list Q);
  previousChallenges : option Z
}.

(** The three mutable locals of [analyzeBotBehavior]. *)
Record Acc := { acc_score : Q; acc_signals : list string; acc_reasons : list string }.

Definition bump (a : Acc) (points : Q) (signal : list string) (why : list string) : Acc :=
  {| acc_score := (acc_score a + points)%Q;
     acc_signals := acc_signals a ++ signal;
     acc_reasons := acc_reasons a ++ why |}.

(** Is the triple ending at [p2] collinear: [|dx1*dy2 - dy1*dx2| < 1]. *)
Definition collinear (p0 p1 p2 : MousePoint) : bool :=
  let dx1 := (mx p1 - mx p0)%Q in
  let dy1 := (my p1 - my p0)%Q in
  let dx2 := (mx p2 - mx p1)%Q in
  let dy2 := (my p2 - my p1)%Q in
  JS.Qltb (Qabs (dx1 * dy2 - dy1 * dx2)) 1.

(** The loop [for (i = 2; i < movements.length; i++)]. *)
Fixpoint straightLines (movements : list MousePoint) : Z :=
  match movements with
  | p0 :: (p1 :: p2 :: _) as rest =>
      (if collinear p0 p1 p2 then 1 else 0) + straightLines rest
  | _ => 0
  end.

(* 1. User Agent Analysis *)
Definition userAgentStep (data : Input) (a : Acc) : Acc :=
  let uaAnalysis := analyzeUserAgent (in_userAgent data) in
  if isBot uaAnalysis
  then bump a (25 * confidence uaAnalysis) ["suspicious_ua"]
            ["User agent: " ++ type uaAnalysis]
  else a.

(* 2. Mouse Movement Analysis *)
Definition mouseStep (data : Input) (a : Acc) : Acc :=
  match mouseMovements data with
  | Some movements =>
      if (length movements =? 0)%nat then
        bump a 20 ["no_mouse_movement"] ["No mouse movement detected"]
      else if (length movements <? 5)%nat then
        bump a 15 ["minimal_mouse_movement"] ["Minimal mouse activity"]
      else if JS.Qltb (lengthQ movements * 0.7) (inject_Z (straightLines movements)) then
        bump a 10 ["linear_mouse_movement"] ["Mouse movements too linear"]
      else a
  | None => a
  end.

(* 3. Keystroke Analysis *)
Definition keystrokeStep (data : Input) (a : Acc) : Acc :=
  match keystrokes data with
  | Some ks =>
      if (length ks =? 0)%nat then bump a 10 ["no_keystrokes"] []
      else
        let intervals := intervalsOf (ktimestamp <$> ks) in
        if (0 <? length intervals)%nat then
          if JS.Qltb (varianceOf intervals) 100
          then bump a 15 ["uniform_keystrokes"] ["Keystroke timing too uniform"]
          else a
        else a
  | None => a
  end.

(* 4. Request Timing Analysis *)
Definition timingStep (data : Input) (a : Acc) : Acc :=
  match requestTimings data with
  | Some timings =>
      if (2 <? length timings)%nat then
        let timingAnalysis := analyzeTimingPatterns timings in
        if suspicious timingAnalysis
        then bump a 15 ["suspicious_timing"] [reason timingAnalysis]
        else a
      else a
  | None => a
  end.

(* 5. Challenge History *)
Definition historyStep (data : Input) (a : Acc) : Acc :=
  match previousChallenges data with
  | Some n =>
      if (10 <? n)%Z then bump a 15 ["excessive_challenges"] ["Too many challenge attempts"]
      else if (5 <? n)%Z then bump a 8 ["high_challenge_count"] []
      else a
  | None => a
  end.

(* 6. IP Reputation, basic check *)
Definition geoStep (data : Input) (a : Acc) : Acc :=
  match geoip_lookup (in_ipAddress data) with
  | Some _ => a
  | None => bump a 5 ["unknown_geolocation"] ["IP geolocation unavailable"]
  end.

Definition riskLevelOf (score : Q) : RiskLevel :=
  if JS.Qgeb score 75 then critical
  else if JS.Qgeb score 50 then high
  else if JS.Qgeb score 25 then medium
  else low.

Definition rawScore (data : Input) : Acc :=
  geoStep data (historyStep data (timingStep data (keystrokeStep data
    (mouseStep data (userAgentStep data
      {| acc_score := 0; acc_signals := []; acc_reasons := [] |}))))).

Definition analyzeBotBehavior (data : Input) : BotAnalysis :=
  let a := rawScore data in
  {| score := Z.min 100 (JS.Math_round (acc_score a));
     signals := acc_signals a;
     riskLevel := riskLevelOf (acc_score a);
     reasons := acc_reasons a |}.

Definition checkFingerprintReputation (fingerprint ipAddress : string) : bool * option string :=
  if (JS.length fingerprint <? 32)%nat
  then (true, Some "Fingerprint too simple")
  else (false, None).

End WithPlatform.

End BotDetector.

(** ** config/database.ts: the in-memory replacement of Redis *)

(** A cached value is a counter, a string, or the JSON text of an IP
    analysis ([JSON.stringify(analysis)]), kept as the analysis it encodes. *)
Inductive CacheValue :=
| VNum (n : Z)
| VStr (s : string)
| VJson (a : IPAnalysis).

Record CacheItem := { value : CacheValue; expiry : option Z }.

Module redisClient.

(** [current?.value || 0] of [incr].  Counters live under the
    [ratelimit:] and [attack:] keys only, whose values are numbers; any
    other value is read as 0 here. *)
Definition counterOf (current : option CacheItem) : Z :=
  match current with
  | Some {| value := VNum n |} => n
  | _ => 0
  end.

(** [item.expiry && item.expiry < Date.now()]. *)
Definition expired (now : Z) (item : CacheItem) : bool :=
  match expiry item with
  | Some e => negb (e =? 0) && (e <? now)
  | None => false
  end.

Definition incr (key : string) (c : gmap string CacheItem) : Z * gmap string CacheItem :=
  let current := c !! key in
  let newValue := counterOf current + 1 in
  (newValue, <[key := {| value := VNum newValue; expiry := current ≫= expiry |}]> c).

Definition expire (now : Z) (key : string) (seconds : Z) (c : gmap string CacheItem)
  : gmap string CacheItem :=
  match c !! key with
  | Some current =>
      <[key := {| value := value current; expiry := Some (now + seconds * 1000) |}]> c
  | None => c
  end.

Definition setEx (now : Z) (key : string) (seconds : Z) (v : CacheValue)
    (c : gmap string CacheItem) : gmap string CacheItem :=
  <[key := {| value := v; expiry := Some (now + seconds * 1000) |}]> c.

Definition exists_ (now : Z) (key : string) (c : gmap string CacheItem)
  : Z * gmap string CacheItem :=
  match c !! key with
  | None => (0, c)
  | Some item => if expired now item then (0, delete key c) else (1, c)
  end.

Definition set (key : string) (v : CacheValue) (c : gmap string CacheItem)
  : gmap string CacheItem :=
  <[key := {| value := v; expiry := None |}]> c.

Definition get (now : Z) (key : string) (c : gmap string CacheItem)
  : option CacheValue * gmap string CacheItem :=
  match c !! key with
  | None => (None, c)
  | Some item => if expired now item then (None, delete key c) else (Some (value item), c)
  end.

Definition del (key : string) (c : gmap string CacheItem) : Z * gmap string CacheItem :=
  match c !! key with
  | Some _ => (1, delete key c)
  | None => (0, c)
  end.

(** The body of the [setInterval] callback that runs every minute. *)
Definition cleanup (now : Z) (c : gmap string CacheItem) : gmap string CacheItem :=
  filter (fun kv => expired now kv.2 = false) c.

End redisClient.

(** ** services/ipIntelligence.ts *)

Module IPIntelligence.

Section WithPlatform.
Context `{Platform}.

Definition checkTorExitNode (ipAddress : string) : bool := false.

Record VPNCheck := { isVPN : bool; isProxy : bool; isTor : bool }.

Definition checkVPNDatabase (ipAddress : string) : VPNCheck :=
  {| isVPN := false; isProxy := false; isTor := checkTorExitNode ipAddress |}.

Record HostingCheck := { isHosting : bool; provider : option string }.

Definition checkHostingProvider (ipAddress : string) : HostingCheck :=
  {| isHosting := false; provider := None |}.

Definition add_if (b : bool) (points : Z) (why : string) (sr : Z * list string)
  : Z * list string :=
  if b then (sr.1 + points, (sr.2 ++ [why])%list) else sr.

Definition checkIPReputation (ipAddress : string) : Z * list string :=
  let sr := (0, []) in
  let sr :=
    if JS.truthy IPQUALITYSCORE_API_KEY then
      match axios_get_ipqs ipAddress with
      | Some data =>
          if ipqs_success data then
            let sr := add_if (ipqs_proxy data) 25 "Proxy detected by IPQS" sr in
            let sr := add_if (ipqs_vpn data) 25 "VPN detected by IPQS" sr in
            let sr := add_if (ipqs_tor data) 30 "Tor detected by IPQS" sr in
            add_if (75 <? ipqs_fraud_score data)%Z 20
                   ("High fraud score: " ++ pretty (ipqs_fraud_score data)) sr
          else sr
      | None => sr (* IPQS API call failed *)
      end
    else sr in
  let sr :=
    if JS.truthy IPINFO_TOKEN then
      match axios_get_ipinfo ipAddress with
      | Some (Some privacy) =>
          let sr := add_if (privacy_vpn privacy) 25 "VPN detected by IPInfo" sr in
          let sr := add_if (privacy_proxy privacy) 25 "Proxy detected by IPInfo" sr in
          add_if (privacy_hosting privacy) 15 "Hosting provider detected by IPInfo" sr
      | Some None => sr
      | None => sr (* IPInfo API call failed *)
      end
    else sr in
  sr.

Definition riskLevelOf (abuseScore : Z) : RiskLevel :=
  if (75 <=? abuseScore)%Z then critical
  else if (50 <=? abuseScore)%Z then high
  else if (25 <=? abuseScore)%Z then medium
  else low.

(** The analysis computed on a cache miss. *)
Definition computeAnalysis (ipAddress : string) : IPAnalysis :=
  let country := geoip_lookup ipAddress in
  let vpnCheck := checkVPNDatabase ipAddress in
  let s0 := if isVPN vpnCheck then 30 else 0 in
  let s1 := s0 + (if isProxy vpnCheck then 25 else 0) in
  let s2 := s1 + (if isTor vpnCheck then 40 else 0) in
  let hostingCheck := checkHostingProvider ipAddress in
  let s3 := s2 + (if isHosting hostingCheck then 20 else 0) in
  let reputationCheck := checkIPReputation ipAddress in
  let abuseScore := s3 + reputationCheck.1 in
  {| vpnDetected := isVPN vpnCheck;
     proxyDetected := isProxy vpnCheck;
     torDetected := isTor vpnCheck;
     abuseScore := Z.min 100 abuseScore;
     country := country;
     ip_riskLevel := riskLevelOf abuseScore;
     ip_reasons :=
       (if isVPN vpnCheck then ["IP matches VPN provider"] else []) ++
       (if isProxy vpnCheck then ["IP matches proxy service"] else []) ++
       (if isTor vpnCheck then ["IP is Tor exit node"] else []) ++
       (if isHosting hostingCheck
        then ["Hosting provider detected: " ++ default "undefined" (provider hostingCheck)]
        else []) ++
       reputationCheck.2 |}.

(** [JSON.parse(cached)] of a truthy cached value.  Only [analyzeIP]
    writes under the [ip:analysis:] keys, and it writes analyses; for any
    other value the model recomputes, which is what the source does when
    [JSON.parse] throws inside its [try]. *)
Definition JSON_parse (cached : CacheValue) : option IPAnalysis :=
  match cached with
  | VJson a => Some a
  | _ => None
  end.

Definition analyzeIP (now : Z) (ipAddress : string) (c : gmap string CacheItem)
  : IPAnalysis * gmap string CacheItem :=
  let cacheKey := "ip:analysis:" ++ ipAddress in
  let '(cached, c) := redisClient.get now cacheKey c in
  match cached ≫= JSON_parse with
  | Some analysis => (analysis, c)
  | None =>
      let analysis := computeAnalysis ipAddress in
      (analysis, redisClient.setEx now cacheKey 3600 (VJson analysis) c)
  end.

Definition isBlacklisted (now : Z) (ipAddress : string) (c : gmap string CacheItem)
  : bool * gmap string CacheItem :=
  let '(n, c) := redisClient.exists_ now ("blacklist:ip:" ++ ipAddress) c in
  ((n =? 1)%Z, c).

Definition blacklistIP (now : Z) (ipAddress : string) (duration : Z)
    (c : gmap string CacheItem) : gmap string CacheItem :=
  redisClient.setEx now ("blacklist:ip:" ++ ipAddress) duration (VStr "1") c.

End WithPlatform.

End IPIntelligence.

(** ** The Prisma tables the core reads and writes *)

Module prisma.

Record ApiKey := { id : string; userId : string; isActive : bool }.

Record Challenge := {
  challengeId : string;
  siteKey : string;
  token : string;
  action : string;
  verified : bool;
  score : Z;
  riskLevel : Level;
  ipAddress : string;
  userAgent : string;
  fingerprint : string;
  botScore : Z;
  vpnDetected : bool;
  proxyDetected : bool;
  torDetected : bool;
  abuseScore : Z;
  geoCountry : option string;
  geoCity : string;
  geoRegion : string;
  expiresAt : Z
}.

Record Usage := {
  u_userId : string;
  u_apiKeyId : string;
  endpoint : string;
  method : string;
  statusCode : Z;
  u_ipAddress : string
}.

Inductive BlacklistType := IP | FINGERPRINT | EMAIL.

Global Instance BlacklistType_eq_dec : EqDecision BlacklistType.
Proof. solve_decision. Defined.

Global Instance BlacklistType_countable : Countable BlacklistType.
Proof.
  refine (inj_countable'
            (fun t => match t with IP => 0%nat | FINGERPRINT => 1%nat | EMAIL => 2%nat end)
            (fun n => match n with 0%nat => IP | 1%nat => FINGERPRINT | _ => EMAIL end) _).
  intros []; reflexivity.
Defined.

Record Blacklist := {
  bl_reason : string;
  permanent : bool;
  bl_expiresAt : option Z
}.

Record AbuseLog := {
  al_ipAddress : string;
  al_fingerprint : option string;
  al_siteKey : option string;
  al_reason : string;
  severity : Level;
  requestCount : Z;
  createdAt : Z
}.

(** [apiKey] is keyed by its unique [siteKey], [challenge] by its unique
    [token], [blacklist] by the compound unique key [type_value]. *)
Record Tables := {
  apiKey : gmap string ApiKey;
  challenge : gmap string Challenge;
  usage : list Usage;
  blacklist : gmap (BlacklistType * string) Blacklist;
  abuseLog : list AbuseLog
}.

End prisma.

(** The state the handlers share: the database and the cache. *)
Record World := {
  db : prisma.Tables;
  cache : gmap string CacheItem
}.

Definition with_cache (w : World) (c : gmap string CacheItem) : World :=
  {| db := db w; cache := c |}.

Definition with_blacklist (w : World)
    (b : gmap (prisma.BlacklistType * string) prisma.Blacklist) : World :=
  {| db := {| prisma.apiKey := prisma.apiKey (db w);
              prisma.challenge := prisma.challenge (db w);
              prisma.usage := prisma.usage (db w);
              prisma.blacklist := b;
              prisma.abuseLog := prisma.abuseLog (db w) |};
     cache := cache w |}.

Definition with_abuseLog (w : World) (l : list prisma.AbuseLog) : World :=
  {| db := {| prisma.apiKey := prisma.apiKey (db w);
              prisma.challenge := prisma.challenge (db w);
              prisma.usage := prisma.usage (db w);
              prisma.blacklist := prisma.blacklist (db w);
              prisma.abuseLog := l |};
     cache := cache w |}.

Definition with_challenge (w : World) (m : gmap string prisma.Challenge) : World :=
  {| db := {| prisma.apiKey := prisma.apiKey (db w);
              prisma.challenge := m;
              prisma.usage := prisma.usage (db w);
              prisma.blacklist := prisma.blacklist (db w);
              prisma.abuseLog := prisma.abuseLog (db w) |};
     cache := cache w |}.

Definition with_usage (w : World) (l : list prisma.Usage) : World :=
  {| db := {| prisma.apiKey := prisma.apiKey (db w);
              prisma.challenge := prisma.challenge (db w);
              prisma.usage := l;
              prisma.blacklist := prisma.blacklist (db w);
              prisma.abuseLog := prisma.abuseLog (db w) |};
     cache := cache w |}.

(** ** services/abuseDetection.ts *)

Module AbuseDetector.

Record AbuseDetectionResult := {
  blocked : bool;
  reason : option string;
  severity : Level;
  shouldChallenge : bool
}.

Record RateLimit := { limited : bool; current : Z; remaining : Z }.

Definition rateLimitKey (now : Z) (identifier : string) (windowSeconds : Z) : string :=
  "ratelimit:" ++ identifier ++ ":" ++ pretty (now / 1000 / windowSeconds).

Definition checkRateLimit (now : Z) (identifier : string)
    (windowSeconds maxRequests : Z) (c : gmap string CacheItem)
  : RateLimit * gmap string CacheItem :=
  let key := rateLimitKey now identifier windowSeconds in
  let '(current, c) := redisClient.incr key c in
  let c := redisClient.expire now key windowSeconds c in
  let limited := maxRequests <? current in
  let remaining := Z.max 0 (maxRequests - current) in
  ({| limited := limited; current := current; remaining := remaining |}, c).

(** The [where] clause of the blacklist query: permanent, or not yet
    expired. *)
Definition standing (now : Z) (e : prisma.Blacklist) : bool :=
  prisma.permanent e ||
  match prisma.bl_expiresAt e with
  | Some t => now <? t
  | None => false
  end.

Definition findFirst (now : Z) (ipAddress fingerprint : string)
    (b : gmap (prisma.BlacklistType * string) prisma.Blacklist) : option prisma.Blacklist :=
  match b !! (prisma.IP, ipAddress) with
  | Some e => if standing now e then Some e
              else match b !! (prisma.FINGERPRINT, fingerprint) with
                   | Some e' => if standing now e' then Some e' else None
                   | None => None
                   end
  | None => match b !! (prisma.FINGERPRINT, fingerprint) with
            | Some e' => if standing now e' then Some e' else None
            | None => None
            end
  end.

Definition isBlacklisted (now : Z) (ipAddress fingerprint : string) (w : World)
  : bool * World :=
  (* Check Redis cache first *)
  let '(ipBlocked, c) := redisClient.exists_ now ("blacklist:ip:" ++ ipAddress) (cache w) in
  let '(fpBlocked, c) := redisClient.exists_ now ("blacklist:fp:" ++ fingerprint) c in
  let w := with_cache w c in
  if (ipBlocked =? 1) || (fpBlocked =? 1) then (true, w)
  else
    (* Check database *)
    let blacklisted := findFirst now ipAddress fingerprint (prisma.blacklist (db w)) in
    (bool_decide (is_Some blacklisted), w).

Definition logAbuse (now : Z) (ipAddress : string) (fingerprint siteKey : option string)
    (reason : string) (severity : Level) (requestCount : Z) (w : World) : World :=
  with_abuseLog w
    (prisma.abuseLog (db w) ++
     [ {| prisma.al_ipAddress := ipAddress;
          prisma.al_fingerprint := fingerprint;
          prisma.al_siteKey := siteKey;
          prisma.al_reason := reason;
          prisma.severity := severity;
          prisma.requestCount := requestCount;
          prisma.createdAt := now |} ]).

Definition countZ {A} (p : A -> bool) (l : list A) : Z :=
  Z.of_nat (length (List.filter p l)).

Definition getViolationCount (now : Z) (ipAddress : string) (windowSeconds : Z)
    (w : World) : Z :=
  let since := now - windowSeconds * 1000 in
  countZ (fun l => String.eqb (prisma.al_ipAddress l) ipAddress
                   && (since <=? prisma.createdAt l))
         (prisma.abuseLog (db w)).

Definition getRecentAbuseCount (now : Z) (ipAddress : string) (windowSeconds : Z)
    (w : World) : Z :=
  let since := now - windowSeconds * 1000 in
  countZ (fun l => String.eqb (prisma.al_ipAddress l) ipAddress
                   && (since <=? prisma.createdAt l)
                   && match prisma.severity l with
                      | HIGH | CRITICAL => true
                      | _ => false
                      end)
         (prisma.abuseLog (db w)).

Definition tempBlockIP (now : Z) (ipAddress : string) (durationSeconds : Z)
    (w : World) : World :=
  let c := redisClient.setEx now ("blacklist:ip:" ++ ipAddress) durationSeconds
                             (VStr "1") (cache w) in
  let expiresAt := now + durationSeconds * 1000 in
  with_blacklist (with_cache w c)
    (<[(prisma.IP, ipAddress) :=
         {| prisma.bl_reason := "Temporary block due to abuse";
            prisma.permanent := false;
            prisma.bl_expiresAt := Some expiresAt |}]> (prisma.blacklist (db w))).

Definition detectDistributedAttack (now : Z) (siteKey : string)
    (c : gmap string CacheItem) : bool * gmap string CacheItem :=
  let key := "attack:" ++ siteKey in
  let '(current, c) := redisClient.incr key c in
  let c := if current =? 1 then redisClient.expire now key 10 c else c in
  (100 <? current, c).

Definition typeName (t : prisma.BlacklistType) : string :=
  match t with
  | prisma.IP => "ip"
  | prisma.FINGERPRINT => "fingerprint"
  | prisma.EMAIL => "email"
  end.

Definition addToBlacklist (t : prisma.BlacklistType) (value reason : string)
    (w : World) : World :=
  let b := prisma.blacklist (db w) in
  let entry :=
    match b !! (t, value) with
    | Some old => {| prisma.bl_reason := reason;
                     prisma.permanent := true;
                     prisma.bl_expiresAt := prisma.bl_expiresAt old |}
    | None => {| prisma.bl_reason := reason;
                 prisma.permanent := true;
                 prisma.bl_expiresAt := None |}
    end in
  let w := with_blacklist w (<[(t, value) := entry]> b) in
  (* Also add to Redis *)
  with_cache w (redisClient.set ("blacklist:" ++ typeName t ++ ":" ++ value)
                                (VStr "1") (cache w)).

Definition detectAbusePatterns (now : Z) (ipAddress fingerprint : string)
    (siteKey : option string) (w : World) : AbuseDetectionResult * World :=
  (* 1. Check if already blacklisted *)
  let '(isBlacklisted, w) := isBlacklisted now ipAddress fingerprint w in
  if isBlacklisted then
    ({| blocked := true; reason := Some "IP or fingerprint is blacklisted";
        severity := CRITICAL; shouldChallenge := false |}, w)
  else
  (* 2. Check rate limiting *)
  let '(ipRateLimit, c) := checkRateLimit now ("ip:" ++ ipAddress) 60 30 (cache w) in
  let w := with_cache w c in
  if limited ipRateLimit then
    let w := logAbuse now ipAddress (Some fingerprint) siteKey
                      "Rate limit exceeded" MEDIUM (current ipRateLimit) w in
    let violations := getViolationCount now ipAddress 300 w in
    if 5 <? violations then
      let w := tempBlockIP now ipAddress 3600 w in
      ({| blocked := true; reason := Some "Multiple rate limit violations";
          severity := HIGH; shouldChallenge := false |}, w)
    else
      ({| blocked := false; reason := Some "Rate limit exceeded";
          severity := MEDIUM; shouldChallenge := true |}, w)
  else
  (* 3. Check fingerprint rate limiting *)
  let '(fpRateLimit, c) := checkRateLimit now ("fp:" ++ fingerprint) 60 20 (cache w) in
  let w := with_cache w c in
  if limited fpRateLimit then
    let w := logAbuse now ipAddress (Some fingerprint) siteKey
                      "Fingerprint rate limit exceeded" MEDIUM (current fpRateLimit) w in
    ({| blocked := false; reason := Some "Too many requests from same fingerprint";
        severity := MEDIUM; shouldChallenge := true |}, w)
  else
  (* 4. Check for distributed attack patterns *)
  let '(detected, c) := detectDistributedAttack now (JS.or_else siteKey "global") (cache w) in
  let w := with_cache w c in
  if detected then
    ({| blocked := false; reason := Some "Distributed attack detected";
        severity := HIGH; shouldChallenge := true |}, w)
  else
  (* 5. Check recent abuse logs for this IP *)
  let recentAbuse := getRecentAbuseCount now ipAddress 3600 w in
  if 10 <? recentAbuse then
    let w := tempBlockIP now ipAddress 7200 w in
    ({| blocked := true; reason := Some "Repeated abuse detected";
        severity := CRITICAL; shouldChallenge := false |}, w)
  else
    ({| blocked := false; reason := None; severity := LOW; shouldChallenge := false |}, w).

End AbuseDetector.

(** ** routes/challenge.ts and the deletion route of routes/apiKeys.ts *)

Module challengeRoutes.

(** What the handlers read of an Express request. *)
Record Headers := {
  x_forwarded_for : option string;
  user_agent : option string;
  accept_language : option string;
  accept_encoding : option string;
  remoteAddress : option string
}.

Record CreateBody := {
  siteKey : option string;
  action : option string;
  fingerprint : option string;
  mouseMovements : option (list MousePoint);
  keystrokes : option (list Keystroke);
  requestTimings : option (list Q)
}.

Record VerifyBody := {
  token : option string;
  response : option string;
  v_fingerprint : option string
}.

Record CreateOk := {
  challengeId : string;
  c_token : string;
  requiresInteraction : bool;
  expiresAt : Z;
  metadata_score : Z;
  metadata_riskLevel : RiskLevel
}.

Inductive CreateResponse :=
| CreateInvalid                      (* 400, { errors } *)
| CreateError (status : Z) (error : string)
| CreateBlocked (reason : option string) (severity : Level)  (* 403 *)
| CreateSuccess (r : CreateOk).      (* 200 *)

Record VerifyOk := {
  v_score : Z;
  v_riskLevel : Level;
  metadata_botScore : Z;
  metadata_vpnDetected : bool;
  metadata_proxyDetected : bool;
  metadata_torDetected : bool;
  metadata_abuseScore : Z
}.

Inductive VerifyResponse :=
| VerifyInvalid                      (* 400, { errors } *)
| VerifyFailure (status : Z) (error : string)   (* { success: false, error } *)
| VerifySuccess (r : VerifyOk).      (* 200, { success: true, ... } *)

Definition isSpace (c : ascii) : bool :=
  let n := nat_of_ascii c in
  ((n =? 32) || ((9 <=? n) && (n <=? 13)))%nat.

Fixpoint trimStart (s : string) : string :=
  match s with
  | String c s' => if isSpace c then trimStart s' else s
  | EmptyString => EmptyString
  end.

Fixpoint trimEnd (s : string) : string :=
  match s with
  | String c s' =>
      match trimEnd s' with
      | EmptyString => if isSpace c then EmptyString else String c EmptyString
      | t => String c t
      end
  | EmptyString => EmptyString
  end.

Definition trim (s : string) : string := trimEnd (trimStart s).

(** [s.split(',')[0]]. *)
Fixpoint firstField (s : string) : string :=
  match s with
  | String c s' => if Ascii.eqb c "," then EmptyString else String c (firstField s')
  | EmptyString => EmptyString
  end.

Definition clientAddress (h : Headers) : string :=
  JS.or_else (trim <$> (firstField <$> x_forwarded_for h))
             (JS.or_else (remoteAddress h) "unknown").

Section WithPlatform.
Context `{Platform}.

Definition expirySeconds : Z := default 300 CHALLENGE_EXPIRY_SECONDS.

(** [Math.round(botScore * 0.6 + abuseScore * 0.4)]. *)
Definition overallScoreOf (botScore abuseScore : Z) : Z :=
  JS.Math_round (inject_Z botScore * 0.6 + inject_Z abuseScore * 0.4).

Definition userAgentOf (h : Headers) : string := JS.or_else (user_agent h) "unknown".

(** [req.body.fingerprint || BotDetector.generateFingerprint({...})]. *)
Definition fingerprintOf (h : Headers) (body : CreateBody) : string :=
  JS.or_else (fingerprint body)
    (BotDetector.generateFingerprint
       {| BotDetector.fingerprint := None;
          BotDetector.userAgent := Some (userAgentOf h);
          BotDetector.ipAddress := Some (clientAddress h);
          BotDetector.acceptLanguage := accept_language h;
          BotDetector.acceptEncoding := accept_encoding h;
          BotDetector.screenResolution := None;
          BotDetector.timezone := None;
          BotDetector.canvas := None;
          BotDetector.webgl := None;
          BotDetector.fonts := None |}).

(** The argument of [BotDetector.analyzeBotBehavior] in the handler. *)
Definition botInput (h : Headers) (body : CreateBody) : BotDetector.Input :=
  {| BotDetector.in_userAgent := userAgentOf h;
     BotDetector.in_fingerprint := fingerprintOf h body;
     BotDetector.in_ipAddress := clientAddress h;
     BotDetector.mouseMovements := mouseMovements body;
     BotDetector.keystrokes := keystrokes body;
     BotDetector.requestTimings := requestTimings body;
     BotDetector.previousChallenges := None |}.

(** POST /create.  [now], [newChallengeId] and [newToken] are the values
    of [Date.now()], [uuidv4()] and [crypto.randomBytes(32)]; a token that
    is already taken violates the unique index and ends in the handler's
    [catch]. *)
Definition create (now : Z) (newChallengeId newToken : string)
    (h : Headers) (body : CreateBody) (w : World) : CreateResponse * World :=
  if negb (JS.truthy (siteKey body)) then (CreateInvalid, w) else
  let siteKey := JS.or_else (siteKey body) "" in
  let action := default "verify" (action body) in
  (* Verify site key *)
  match prisma.apiKey (db w) !! siteKey with
  | None => (CreateError 401 "Invalid site key", w)
  | Some apiKey =>
  if negb (prisma.isActive apiKey) then (CreateError 401 "Invalid site key", w) else
  (* Get request metadata *)
  let ipAddress := clientAddress h in
  let userAgent := userAgentOf h in
  let fingerprint := fingerprintOf h body in
  (* Check for abuse *)
  let '(abuseCheck, w) :=
    AbuseDetector.detectAbusePatterns now ipAddress fingerprint (Some siteKey) w in
  if AbuseDetector.blocked abuseCheck then
    (CreateBlocked (AbuseDetector.reason abuseCheck) (AbuseDetector.severity abuseCheck), w)
  else
  (* Run bot detection *)
  let botAnalysis := BotDetector.analyzeBotBehavior (botInput h body) in
  (* Run IP intelligence *)
  let '(ipAnalysis, c) := IPIntelligence.analyzeIP now ipAddress (cache w) in
  let w := with_cache w c in
  (* Calculate overall score (0-100, lower is better) *)
  let overallScore := overallScoreOf (score botAnalysis) (abuseScore ipAnalysis) in
  (* Determine if additional challenge is needed *)
  let requiresChallenge :=
    (30 <? overallScore) || AbuseDetector.shouldChallenge abuseCheck in
  let expiresAt := now + expirySeconds * 1000 in
  (* Create challenge record *)
  match prisma.challenge (db w) !! newToken with
  | Some _ => (CreateError 500 "Failed to create challenge", w)
  | None =>
  let challenge :=
    {| prisma.challengeId := newChallengeId;
       prisma.siteKey := siteKey;
       prisma.token := newToken;
       prisma.action := action;
       prisma.verified := false;
       prisma.score := 100 - overallScore;
       prisma.riskLevel := toUpperCase (riskLevel botAnalysis);
       prisma.ipAddress := ipAddress;
       prisma.userAgent := userAgent;
       prisma.fingerprint := fingerprint;
       prisma.botScore := score botAnalysis;
       prisma.vpnDetected := vpnDetected ipAnalysis;
       prisma.proxyDetected := proxyDetected ipAnalysis;
       prisma.torDetected := torDetected ipAnalysis;
       prisma.abuseScore := abuseScore ipAnalysis;
       prisma.geoCountry := country ipAnalysis;
       prisma.geoCity := "";
       prisma.geoRegion := "";
       prisma.expiresAt := expiresAt |} in
  let w := with_challenge w (<[newToken := challenge]> (prisma.challenge (db w))) in
  (* Log usage *)
  let w := with_usage w
             (prisma.usage (db w) ++
              [ {| prisma.u_userId := prisma.userId apiKey;
                   prisma.u_apiKeyId := prisma.id apiKey;
                   prisma.endpoint := "/challenge/create";
                   prisma.method := "POST";
                   prisma.statusCode := 200;
                   prisma.u_ipAddress := ipAddress |} ]) in
  (CreateSuccess
     {| challengeId := newChallengeId;
        c_token := newToken;
        requiresInteraction := requiresChallenge;
        expiresAt := expiresAt;
        metadata_score := 100 - overallScore;
        metadata_riskLevel := riskLevel botAnalysis |}, w)
  end
  end.

End WithPlatform.

(** POST /verify at time [now]. *)
Definition verify (now : Z) (h : Headers) (body : VerifyBody) (w : World)
  : VerifyResponse * World :=
  if negb (JS.truthy (token body)) then (VerifyInvalid, w) else
  let token := JS.or_else (token body) "" in
  let fingerprint := v_fingerprint body in
  (* Find challenge *)
  match prisma.challenge (db w) !! token with
  | None => (VerifyFailure 404 "Challenge not found or expired", w)
  | Some challenge =>
  (* Check if already verified *)
  if prisma.verified challenge then
    (VerifyFailure 400 "Challenge already verified", w)
  (* Check expiration *)
  else if prisma.expiresAt challenge <? now then
    (VerifyFailure 400 "Challenge expired", w)
  else
  (* Verify fingerprint consistency *)
  let mismatch :=
    JS.truthy fingerprint &&
    negb (String.eqb (JS.or_else fingerprint "") (prisma.fingerprint challenge)) in
  let updatedScore :=
    if mismatch then Z.max 0 (prisma.score challenge - 20) else prisma.score challenge in
  let updatedRiskLevel := if mismatch then HIGH else prisma.riskLevel challenge in
  (* Get API key for usage tracking *)
  match prisma.apiKey (db w) !! prisma.siteKey challenge with
  | None => (VerifyFailure 401 "Invalid API configuration", w)
  | Some apiKey =>
  (* Mark as verified *)
  let verifiedChallenge :=
    {| prisma.challengeId := prisma.challengeId challenge;
       prisma.siteKey := prisma.siteKey challenge;
       prisma.token := prisma.token challenge;
       prisma.action := prisma.action challenge;
       prisma.verified := true;
       prisma.score := updatedScore;
       prisma.riskLevel := updatedRiskLevel;
       prisma.ipAddress := prisma.ipAddress challenge;
       prisma.userAgent := prisma.userAgent challenge;
       prisma.fingerprint := prisma.fingerprint challenge;
       prisma.botScore := prisma.botScore challenge;
       prisma.vpnDetected := prisma.vpnDetected challenge;
       prisma.proxyDetected := prisma.proxyDetected challenge;
       prisma.torDetected := prisma.torDetected challenge;
       prisma.abuseScore := prisma.abuseScore challenge;
       prisma.geoCountry := prisma.geoCountry challenge;
       prisma.geoCity := prisma.geoCity challenge;
       prisma.geoRegion := prisma.geoRegion challenge;
       prisma.expiresAt := prisma.expiresAt challenge |} in
  let w := with_challenge w (<[token := verifiedChallenge]> (prisma.challenge (db w))) in
  (* Log usage *)
  let w := with_usage w
             (prisma.usage (db w) ++
              [ {| prisma.u_userId := prisma.userId apiKey;
                   prisma.u_apiKeyId := prisma.id apiKey;
                   prisma.endpoint := "/challenge/verify";
                   prisma.method := "POST";
                   prisma.statusCode := 200;
                   prisma.u_ipAddress := clientAddress h |} ]) in
  (VerifySuccess
     {| v_score := prisma.score verifiedChallenge;
        v_riskLevel := prisma.riskLevel verifiedChallenge;
        metadata_botScore := prisma.botScore verifiedChallenge;
        metadata_vpnDetected := prisma.vpnDetected verifiedChallenge;
        metadata_proxyDetected := prisma.proxyDetected verifiedChallenge;
        metadata_torDetected := prisma.torDetected verifiedChallenge;
        metadata_abuseScore := prisma.abuseScore challenge |}, w)
  end
  end.

(** DELETE /keys/:keyId of routes/apiKeys.ts: [deleteMany] on the id and
    the owner.  The route touches no other table. *)
Definition deleteApiKey (keyId user : string) (w : World) : World :=
  {| db := {| prisma.apiKey :=
                filter (fun kv => ¬ (prisma.id kv.2 = keyId ∧ prisma.userId kv.2 = user))
                       (prisma.apiKey (db w));
              prisma.challenge := prisma.challenge (db w);
              prisma.usage := prisma.usage (db w);
              prisma.blacklist := prisma.blacklist (db w);
              prisma.abuseLog := prisma.abuseLog (db w) |};
     cache := cache w |}.

End challengeRoutes.

(** ** standalone-package/server.js *)

Module standalone.

Record RiskData := {
  fingerprint : option string;
  mouseMovements : option (list MousePoint);
  requestTimings : option (list Q)
}.

(** [intervals.every(i => Math.abs(i - avgInterval) < 10)]. *)
Definition everyUniform (avgInterval : Q) (intervals : list Q) : bool :=
  forallb (fun i => JS.Qltb (Qabs (i - avgInterval)) 10) intervals.

Definition fingerprintPoints (data : RiskData) : Q :=
  match fingerprint data with
  | Some f => if String.eqb f "" || (JS.length f <? 10)%nat then 0.3 else 0
  | None => 0.3
  end.

Definition mousePoints (data : RiskData) : Q :=
  match mouseMovements data with
  | Some m => if (length m <? 5)%nat then 0.2 else 0
  | None => 0.2
  end.

Definition timingPoints (data : RiskData) : Q :=
  match requestTimings data with
  | Some timings =>
      if (1 <? length timings)%nat then
        let intervals := BotDetector.intervalsOf timings in
        let avgInterval := BotDetector.average intervals in
        if JS.Qltb avgInterval 50 || everyUniform avgInterval intervals then 0.25 else 0
      else 0
  | None => 0
  end.

(** [random] is the value returned by the call of [Math.random()]. *)
Definition calculateRiskScore (random : Q) (data : RiskData) : Q :=
  let score := 0%Q in
  let score := (score + fingerprintPoints data)%Q in
  let score := (score + mousePoints data)%Q in
  let score := (score + timingPoints data)%Q in
  let score := (score + random * 0.1)%Q in
  Qmin score 1.

End standalone.

(** ** Concurrent calls of [AbuseDetector.checkRateLimit]

    Node runs a handler until its next [await] without interruption.
    [redisClient.incr] and [redisClient.expire] contain no [await], so a
    call of [checkRateLimit] is three uninterrupted segments: up to the
    first [await] (the key is computed and the counter incremented), up to
    the second (the expiry is set), and the rest (the result is computed).
    Between the segments of one call the segments of other calls and the
    cleanup timer of config/database.ts may run. *)

Module eventLoop.

Inductive Call :=
| Fresh
| AfterIncr (key : string) (current : Z)
| AfterExpire (key : string) (current : Z)
| Returned (r : AbuseDetector.RateLimit).

Inductive Event :=
| Resume (i : nat) (now : Z)   (* call [i] runs its next segment *)
| Cleanup (now : Z).           (* the [setInterval] callback runs *)

Definition time (e : Event) : Z :=
  match e with
  | Resume _ now => now
  | Cleanup now => now
  end.

Section Calls.
Variables (identifier : string) (windowSeconds maxRequests : Z).

Definition segment (now : Z) (call : Call) (c : gmap string CacheItem)
  : Call * gmap string CacheItem :=
  match call with
  | Fresh =>
      let key := AbuseDetector.rateLimitKey now identifier windowSeconds in
      let '(current, c) := redisClient.incr key c in
      (AfterIncr key current, c)
  | AfterIncr key current =>
      (AfterExpire key current, redisClient.expire now key windowSeconds c)
  | AfterExpire key current =>
      (Returned {| AbuseDetector.limited := maxRequests <? current;
                   AbuseDetector.current := current;
                   AbuseDetector.remaining := Z.max 0 (maxRequests - current) |}, c)
  | Returned r => (Returned r, c)
  end.

Definition step (e : Event) (s : list Call * gmap string CacheItem)
  : list Call * gmap string CacheItem :=
  match e with
  | Resume i now =>
      match s.1 !! i with
      | Some call =>
          let '(call', c) := segment now call s.2 in
          (<[i := call']> s.1, c)
      | None => s
      end
  | Cleanup now => (s.1, redisClient.cleanup now s.2)
  end.

Definition run (schedule : list Event) (s : list Call * gmap string CacheItem)
  : list Call * gmap string CacheItem :=
  fold_left (fun s e => step e s) schedule s.

Definition result (call : Call) : option AbuseDetector.RateLimit :=
  match call with
  | Returned r => Some r
  | _ => None
  end.

Definition allReturned (calls : list Call) : Prop :=
  Forall (fun call => is_Some (result call)) calls.

Definition allowed (calls : list Call) : nat :=
  length (List.filter (fun r => negb (AbuseDetector.limited r)) (omap result calls)).

Definition flagged (calls : list Call) : nat :=
  length (List.filter (fun r => AbuseDetector.limited r) (omap result calls)).

(** The calls run one after the other, each to its end. *)
Definition sequential (now : Z) (n : nat) : list Event :=
  flat_map (fun i => [Resume i now; Resume i now; Resume i now]) (seq 0 n).

End Calls.

(** How often a schedule resumes call [i]. *)
Definition resumes (i : nat) (schedule : list Event) : nat :=
  length (List.filter (fun e => match e with
                                | Resume j _ => Nat.eqb i j
                                | Cleanup _ => false
                                end) schedule).

(** The schedule lets each of the [n] calls run its three segments. *)
Definition complete (n : nat) (schedule : list Event) : bool :=
  forallb (fun i => (3 <=? resumes i schedule)%nat) (seq 0 n).

(** The number of segments a call has run. *)
Definition progress (call : Call) : nat :=
  match call with
  | Fresh => 0
  | AfterIncr _ _ => 1
  | AfterExpire _ _ => 2
  | Returned _ => 3
  end.

End eventLoop.

(** ** The service as a whole

    The requests that change the shared state, and the states the service
    can reach from a database with an empty cache. *)

Module service.

Inductive Request :=
| Create (now : Z) (newChallengeId newToken : string)
         (h : challengeRoutes.Headers) (body : challengeRoutes.CreateBody)
| Verify (now : Z) (h : challengeRoutes.Headers) (body : challengeRoutes.VerifyBody)
| DeleteApiKey (keyId user : string)
| AddToBlacklist (t : prisma.BlacklistType) (value reason : string)
| CacheCleanup (now : Z).

Section WithPlatform.
Context `{Platform}.

Definition handle (w : World) (r : Request) : World :=
  match r with
  | Create now cid tok h body => (challengeRoutes.create now cid tok h body w).2
  | Verify now h body => (challengeRoutes.verify now h body w).2
  | DeleteApiKey keyId user => challengeRoutes.deleteApiKey keyId user w
  | AddToBlacklist t value reason => AbuseDetector.addToBlacklist t value reason w
  | CacheCleanup now => with_cache w (redisClient.cleanup now (cache w))
  end.

Definition serve (w : World) (requests : list Request) : World :=
  fold_left handle requests w.

End WithPlatform.

End service.

(** ** The verify handler between its [await]s

    The handler of POST /verify suspends four times: at
    [prisma.challenge.findUnique], at [prisma.apiKey.findUnique], at
    [prisma.challenge.update] and at [prisma.usage.create].  Between two
    suspensions it runs to completion, and other handlers run while it is
    suspended.  A call is the state of one invocation: the query it waits
    for and the locals it holds.  An event [Resume i now] lets the pending
    query of call [i] be answered by the store and the call run on to its
    next [await] (or to its response); [now] is the value of [new Date()]
    in that segment.  The row that [findUnique] returns is the row stored
    under the token, and [update] addresses it by its [id]: both are the key
    [token] of the table here. *)

Module verifyLoop.

Inductive Call :=
| Received (h : challengeRoutes.Headers) (body : challengeRoutes.VerifyBody)
| AwaitChallenge (h : challengeRoutes.Headers) (token : string)
                 (fingerprint : option string)
| AwaitApiKey (h : challengeRoutes.Headers) (token : string)
              (challenge : prisma.Challenge)
              (updatedScore : Z) (updatedRiskLevel : Level)
| AwaitUpdate (h : challengeRoutes.Headers) (token : string)
              (challenge : prisma.Challenge)
              (updatedScore : Z) (updatedRiskLevel : Level)
              (apiKey : prisma.ApiKey)
| AwaitUsage (h : challengeRoutes.Headers)
             (challenge verifiedChallenge : prisma.Challenge)
             (apiKey : prisma.ApiKey)
| Responded (r : challengeRoutes.VerifyResponse).

Inductive Event :=
| Resume (i : nat) (now : Z)        (* call [i] runs its next segment *)
| Handle (r : service.Request).     (* another request is handled in between *)

(** [prisma.challenge.update] with
    [data: { verified: true, score: updatedScore, riskLevel: updatedRiskLevel }]:
    the three columns are set in the row as it is stored, the others are
    kept. *)
Definition update (current : prisma.Challenge) (updatedScore : Z)
    (updatedRiskLevel : Level) : prisma.Challenge :=
  {| prisma.challengeId := prisma.challengeId current;
     prisma.siteKey := prisma.siteKey current;
     prisma.token := prisma.token current;
     prisma.action := prisma.action current;
     prisma.verified := true;
     prisma.score := updatedScore;
     prisma.riskLevel := updatedRiskLevel;
     prisma.ipAddress := prisma.ipAddress current;
     prisma.userAgent := prisma.userAgent current;
     prisma.fingerprint := prisma.fingerprint current;
     prisma.botScore := prisma.botScore current;
     prisma.vpnDetected := prisma.vpnDetected current;
     prisma.proxyDetected := prisma.proxyDetected current;
     prisma.torDetected := prisma.torDetected current;
     prisma.abuseScore := prisma.abuseScore current;
     prisma.geoCountry := prisma.geoCountry current;
     prisma.geoCity := prisma.geoCity current;
     prisma.geoRegion := prisma.geoRegion current;
     prisma.expiresAt := prisma.expiresAt current |}.

Definition segment (now : Z) (call : Call) (w : World) : Call * World :=
  match call with
  | Received h body =>
      if negb (JS.truthy (challengeRoutes.token body)) then
        (Responded challengeRoutes.VerifyInvalid, w)
      else
        (AwaitChallenge h (JS.or_else (challengeRoutes.token body) "")
                        (challengeRoutes.v_fingerprint body), w)
  | AwaitChallenge h token fingerprint =>
      (* Find challenge *)
      match prisma.challenge (db w) !! token with
      | None =>
          (Responded (challengeRoutes.VerifyFailure 404 "Challenge not found or expired"), w)
      | Some challenge =>
      (* Check if already verified *)
      if prisma.verified challenge then
        (Responded (challengeRoutes.VerifyFailure 400 "Challenge already verified"), w)
      (* Check expiration *)
      else if prisma.expiresAt challenge <? now then
        (Responded (challengeRoutes.VerifyFailure 400 "Challenge expired"), w)
      else
      (* Verify fingerprint consistency *)
      let mismatch :=
        JS.truthy fingerprint &&
        negb (String.eqb (JS.or_else fingerprint "") (prisma.fingerprint challenge)) in
      let updatedScore :=
        if mismatch then Z.max 0 (prisma.score challenge - 20)
        else prisma.score challenge in
      let updatedRiskLevel := if mismatch then HIGH else prisma.riskLevel challenge in
      (AwaitApiKey h token challenge updatedScore updatedRiskLevel, w)
      end
  | AwaitApiKey h token challenge updatedScore updatedRiskLevel =>
      (* Get API key for usage tracking *)
      match prisma.apiKey (db w) !! prisma.siteKey challenge with
      | None =>
          (Responded (challengeRoutes.VerifyFailure 401 "Invalid API configuration"), w)
      | Some apiKey =>
          (AwaitUpdate h token challenge updatedScore updatedRiskLevel apiKey, w)
      end
  | AwaitUpdate h token challenge updatedScore updatedRiskLevel apiKey =>
      (* Mark as verified: the update sets three columns of the row as it
         is in the store now, whatever the call has read before *)
      match prisma.challenge (db w) !! token with
      | None =>
          (Responded (challengeRoutes.VerifyFailure 500 "Failed to verify challenge"), w)
      | Some current =>
          let verifiedChallenge := update current updatedScore updatedRiskLevel in
          (AwaitUsage h challenge verifiedChallenge apiKey,
           with_challenge w (<[token := verifiedChallenge]> (prisma.challenge (db w))))
      end
  | AwaitUsage h challenge verifiedChallenge apiKey =>
      (* Log usage *)
      (Responded
         (challengeRoutes.VerifySuccess
            {| challengeRoutes.v_score := prisma.score verifiedChallenge;
               challengeRoutes.v_riskLevel := prisma.riskLevel verifiedChallenge;
               challengeRoutes.metadata_botScore := prisma.botScore verifiedChallenge;
               challengeRoutes.metadata_vpnDetected := prisma.vpnDetected verifiedChallenge;
               challengeRoutes.metadata_proxyDetected :=
                 prisma.proxyDetected verifiedChallenge;
               challengeRoutes.metadata_torDetected := prisma.torDetected verifiedChallenge;
               challengeRoutes.metadata_abuseScore := prisma.abuseScore challenge |}),
       with_usage w
         (prisma.usage (db w) ++
          [ {| prisma.u_userId := prisma.userId apiKey;
               prisma.u_apiKeyId := prisma.id apiKey;
               prisma.endpoint := "/challenge/verify";
               prisma.method := "POST";
               prisma.statusCode := 200;
               prisma.u_ipAddress := challengeRoutes.clientAddress h |} ]))
  | Responded r => (Responded r, w)
  end.

(** The handler run from the request to its response with nothing in
    between: five segments. *)
Definition uninterrupted (now : Z) (h : challengeRoutes.Headers)
    (body : challengeRoutes.VerifyBody) (w : World) : Call * World :=
  Nat.iter 5 (fun s => segment now s.1 s.2) (Received h body, w).

Definition response (call : Call) : option challengeRoutes.VerifyResponse :=
  match call with
  | Responded r => Some r
  | _ => None
  end.

Section WithPlatform.
Context `{Platform}.

Definition step (e : Event) (s : list Call * World) : list Call * World :=
  match e with
  | Resume i now =>
      match s.1 !! i with
      | Some call =>
          let out := segment now call s.2 in
          (<[i := out.1]> s.1, out.2)
      | None => s
      end
  | Handle r => (s.1, service.handle s.2 r)
  end.

Definition run (schedule : list Event) (s : list Call * World) : list Call * World :=
  fold_left (fun s e => step e s) schedule s.

End WithPlatform.

(** Two calls take turns, segment by segment: both have read the
    challenge before either writes it. *)
Definition alternating (now0 now1 : Z) : list Event :=
  flat_map (fun _ => [Resume 0 now0; Resume 1 now1]) (seq 0 5).

End verifyLoop.

(** ** middleware/rateLimiter.ts: the monthly limit of a tier *)

Module rateLimiter.

Record User := { id : string; tier : string }.

(** The values of [parseInt(process.env.X_TIER_LIMIT || '...')]. *)
Record TierLimits := { FREE : Z; BASIC : Z; PRO : Z; ENTERPRISE : Z }.

Definition defaultLimits : TierLimits :=
  {| FREE := 1000; BASIC := 10000; PRO := 100000; ENTERPRISE := 1000000 |}.

Inductive Outcome :=
| Next                                   (* next() *)
| Unauthenticated                        (* 401 *)
| LimitExceeded (tier : string) (limit current : Z).   (* 429 *)

(** [tierLimits[req.user.tier] || tierLimits.free].  The table has the
    upper-case keys only, so [tierLimits.free] is [undefined]: a tier that
    is not in the table, or whose limit is 0, has no limit. *)
Definition limitOf (limits : TierLimits) (tier : string) : option Z :=
  let entry :=
    if String.eqb tier "FREE" then Some (FREE limits)
    else if String.eqb tier "BASIC" then Some (BASIC limits)
    else if String.eqb tier "PRO" then Some (PRO limits)
    else if String.eqb tier "ENTERPRISE" then Some (ENTERPRISE limits)
    else None in
  match entry with
  | Some l => if l =? 0 then None else Some l
  | None => None
  end.

(** [`usage:${userId}:${now.getFullYear()}-${now.getMonth() + 1}`];
    [month] is the value of [getMonth()], from 0 to 11. *)
Definition monthKey (userId : string) (year month : Z) : string :=
  "usage:" ++ userId ++ ":" ++ pretty year ++ "-" ++ pretty (month + 1).

(** [count ? parseInt(count) : 0].  The month keys hold the numbers written
    by [incr]; any other value is read as 0 here. *)
Definition usageOf (count : option CacheValue) : Z :=
  match count with
  | Some (VNum n) => n
  | _ => 0
  end.

Definition tierRateLimiter (limits : TierLimits) (now year month : Z)
    (user : option User) (c : gmap string CacheItem) : Outcome * gmap string CacheItem :=
  match user with
  | None => (Unauthenticated, c)
  | Some user =>
      let key := monthKey (id user) year month in
      let limit := limitOf limits (tier user) in
      let '(count, c) := redisClient.get now key c in
      let currentUsage := usageOf count in
      let exceeded :=
        match limit with
        | Some l => l <=? currentUsage
        | None => false          (* a comparison with undefined *)
        end in
      if exceeded then
        (LimitExceeded (tier user) (default 0 limit) currentUsage, c)
      else
        (* Increment counter *)
        let '(_, c) := redisClient.incr key c in
        let c := redisClient.expire now key (60 * 60 * 24 * 32) c in
        (Next, c)
  end.

End rateLimiter.

(** ** standalone-package/server.js: rate limit, verification, cleanup *)

Module server.

Record ChallengeRow := {
  fingerprint : string;
  siteKey : string;
  riskScore : Q;
  verified : bool;
  createdAt : Z;
  expiresAt : Z
}.

Record RateRow := { count : Z; firstRequest : Z; lastRequest : Z }.

Record AbuseRow := { ip : string; a_fingerprint : string; reason : string; timestamp : Z }.

(** The three tables of captcha.db; [challenges] and [rate_limits] are
    keyed by their primary keys. *)
Record Db := {
  challenges : gmap string ChallengeRow;
  rate_limits : gmap string RateRow;
  abuse_logs : list AbuseRow
}.

(** The payload of the token, as [jwt.verify] returns it. *)
Record Payload := { p_challengeId : string; p_fingerprint : string; p_siteKey : string }.

Inductive Response :=
| Failure (status : Z) (error : string)
| Verified (riskScore : Q)                            (* { success, riskScore } *)
| Valid (riskScore : Q) (fingerprint : string).       (* { success, riskScore, fingerprint } *)

Definition with_rate_limits (db : Db) (r : gmap string RateRow) : Db :=
  {| challenges := challenges db; rate_limits := r; abuse_logs := abuse_logs db |}.

(** [windowMs] and [maxRequests] are the values of
    [parseInt(process.env.RATE_LIMIT_WINDOW_MS) || 60000] and
    [parseInt(process.env.RATE_LIMIT_MAX_REQUESTS) || 100]. *)
Definition checkRateLimit (windowMs maxRequests now : Z) (ip : string) (db : Db)
  : bool * Db :=
  match rate_limits db !! ip with
  | None =>
      (true, with_rate_limits db
               (<[ip := {| count := 1; firstRequest := now; lastRequest := now |}]>
                  (rate_limits db)))
  | Some record =>
      if windowMs <? now - firstRequest record then
        (true, with_rate_limits db
                 (<[ip := {| count := 1; firstRequest := now; lastRequest := now |}]>
                    (rate_limits db)))
      else if maxRequests <=? count record then
        (false, db)
      else
        (true, with_rate_limits db
                 (<[ip := {| count := count record + 1;
                             firstRequest := firstRequest record;
                             lastRequest := now |}]> (rate_limits db)))
  end.

Definition logAbuse (now : Z) (ip fingerprint reason : string) (db : Db) : Db :=
  {| challenges := challenges db;
     rate_limits := rate_limits db;
     abuse_logs := abuse_logs db ++
       [ {| ip := ip; a_fingerprint := fingerprint; reason := reason; timestamp := now |} ] |}.

(** The body of the [setInterval] callback that runs every five minutes. *)
Definition cleanup (now : Z) (db : Db) : Db :=
  {| challenges := filter (fun kv => ¬ (expiresAt kv.2 < now)) (challenges db);
     rate_limits := filter (fun kv => ¬ (lastRequest kv.2 < now - 3600000)) (rate_limits db);
     abuse_logs := abuse_logs db |}.

Section WithJwt.
(** [jwt.verify(token, JWT_SECRET)] at a given time; [None] when it throws. *)
Variable jwt_verify : string -> Z -> option Payload.

(** POST /api/challenge/verify.  [ip] is the address taken from the
    request, [supplied] the fingerprint of the body. *)
Definition verify (now : Z) (ip : string) (token supplied : option string) (db : Db)
  : Response * Db :=
  if negb (JS.truthy token) || negb (JS.truthy supplied) then
    (Failure 400 "Missing required fields", db)
  else
  let token := JS.or_else token "" in
  let supplied := JS.or_else supplied "" in
  (* Verify JWT *)
  match jwt_verify token now with
  | None => (Failure 401 "Invalid or expired token", db)
  | Some decoded =>
  (* Check fingerprint match *)
  if negb (String.eqb (p_fingerprint decoded) supplied) then
    (Failure 403 "Fingerprint mismatch", logAbuse now ip supplied "Fingerprint mismatch" db)
  else
  (* Get challenge *)
  match challenges db !! p_challengeId decoded with
  | None => (Failure 404 "Challenge not found", db)
  | Some challenge =>
  if expiresAt challenge <? now then (Failure 410 "Challenge expired", db)
  else if verified challenge then (Failure 400 "Challenge already verified", db)
  else
    (* Mark as verified *)
    (Verified (riskScore challenge),
     {| challenges :=
          <[p_challengeId decoded :=
              {| fingerprint := fingerprint challenge;
                 siteKey := siteKey challenge;
                 riskScore := riskScore challenge;
                 verified := true;
                 createdAt := createdAt challenge;
                 expiresAt := expiresAt challenge |}]> (challenges db);
        rate_limits := rate_limits db;
        abuse_logs := abuse_logs db |})
  end
  end.

(** POST /api/verify, the validation a site's server asks for; it writes
    nothing. *)
Definition apiVerify (now : Z) (token siteKey : option string) (db : Db) : Response :=
  if negb (JS.truthy token) || negb (JS.truthy siteKey) then
    Failure 400 "Missing required fields"
  else
  match jwt_verify (JS.or_else token "") now with
  | None => Failure 401 "Invalid or expired token"
  | Some decoded =>
  (* Check site key *)
  if negb (String.eqb (p_siteKey decoded) (JS.or_else siteKey "")) then
    Failure 403 "Invalid site key"
  else
  match challenges db !! p_challengeId decoded with
  | None => Failure 404 "Challenge not found"
  | Some challenge =>
  if negb (verified challenge) then Failure 400 "Challenge not verified"
  else if expiresAt challenge <? now then Failure 410 "Challenge expired"
  else Valid (riskScore challenge) (fingerprint challenge)
  end
  end.

End WithJwt.

End server.

(** ** The widget: the string hash and the bounded sample buffers *)

Module widget.

(** [ToInt32]: the signed 32-bit value of an integer. *)
Definition toInt32 (z : Z) : Z := (z + 2 ^ 31) mod 2 ^ 32 - 2 ^ 31.

(** One round of the loop of [hashString]:
    [hash = ((hash << 5) - hash) + char; hash = hash & hash]. *)
Definition round (hash char : Z) : Z :=
  let shifted := toInt32 (Z.shiftl hash 5) in
  toInt32 (shifted - hash + char).

(** The value of [hash] after the loop, for the code units of the string. *)
Definition hashLoop (codes : list Z) : Z := fold_left round codes 0.

(** [Math.abs(hash)], the number that is printed in base 36. *)
Definition hashNumber (codes : list Z) : Z := Z.abs (hashLoop codes).

(** [buffer.push(x); if (buffer.length > limit) buffer.shift()]. *)
Definition track {A} (limit : nat) (buffer : list A) (x : A) : list A :=
  let buffer := (buffer ++ [x])%list in
  if (limit <? length buffer)%nat then tail buffer else buffer.

Definition trackMouseMovement (buffer : list MousePoint) (e : MousePoint) : list MousePoint :=
  track 50 buffer e.

Definition trackKeystroke (buffer : list Keystroke) (e : Keystroke) : list Keystroke :=
  track 30 buffer e.

End widget.

(** ** Predicates and invariants used in the statements *)

(** [a'] is [a] with between [lo] and [hi] points added. *)
Definition adds (a a' : BotDetector.Acc) (lo hi : Q) : Prop :=
  (BotDetector.acc_score a + lo <= BotDetector.acc_score a' /\
   BotDetector.acc_score a' <= BotDetector.acc_score a + hi)%Q.

(** Every analysis held by the cache has its abuse score in [0,100]. *)
Definition cache_ok (c : gmap string CacheItem) : Prop :=
  forall k item a, c !! k = Some item -> value item = VJson a ->
    0 <= abuseScore a <= 100.

(** The cache holds an unexpired entry under [key]. *)
Definition cached (now : Z) (key : string) (c : gmap string CacheItem) : Prop :=
  exists item, c !! key = Some item /\ redisClient.expired now item = false.

(** The store holds a standing entry for the address or the fingerprint. *)
Definition stored (now : Z) (ip fp : string)
    (b : gmap (prisma.BlacklistType * string) prisma.Blacklist) : Prop :=
  (exists e, b !! (prisma.IP, ip) = Some e /\ AbuseDetector.standing now e = true) \/
  (exists e, b !! (prisma.FINGERPRINT, fp) = Some e /\ AbuseDetector.standing now e = true).

Definition blacklisted (now : Z) (ip fp : string) (w : World) : Prop :=
  cached now ("blacklist:ip:" ++ ip) (cache w) \/
  cached now ("blacklist:fp:" ++ fp) (cache w) \/
  stored now ip fp (prisma.blacklist (db w)).

(** What the abuse detector leaves untouched: the challenge and API key
    tables, and the soundness of the cached analyses. *)
Definition untouched (w w' : World) : Prop :=
  prisma.challenge (db w') = prisma.challenge (db w) /\
  prisma.apiKey (db w') = prisma.apiKey (db w) /\
  (cache_ok (cache w) -> cache_ok (cache w')).

(** The body of a verify request. *)
Definition verifyRequest (tok : string) (fp : option string) : challengeRoutes.VerifyBody :=
  {| challengeRoutes.token := Some tok;
     challengeRoutes.response := None;
     challengeRoutes.v_fingerprint := fp |}.

(** Is the supplied fingerprint taken into account, and does it differ. *)
Definition mismatch (fp : option string) (ch : prisma.Challenge) : bool :=
  JS.truthy fp && negb (String.eqb (JS.or_else fp "") (prisma.fingerprint ch)).

(** The record that a successful verify writes back. *)
Definition verifiedRecord (fp : option string) (ch : prisma.Challenge) : prisma.Challenge :=
  {| prisma.challengeId := prisma.challengeId ch;
     prisma.siteKey := prisma.siteKey ch;
     prisma.token := prisma.token ch;
     prisma.action := prisma.action ch;
     prisma.verified := true;
     prisma.score :=
       if mismatch fp ch then Z.max 0 (prisma.score ch - 20) else prisma.score ch;
     prisma.riskLevel := if mismatch fp ch then HIGH else prisma.riskLevel ch;
     prisma.ipAddress := prisma.ipAddress ch;
     prisma.userAgent := prisma.userAgent ch;
     prisma.fingerprint := prisma.fingerprint ch;
     prisma.botScore := prisma.botScore ch;
     prisma.vpnDetected := prisma.vpnDetected ch;
     prisma.proxyDetected := prisma.proxyDetected ch;
     prisma.torDetected := prisma.torDetected ch;
     prisma.abuseScore := prisma.abuseScore ch;
     prisma.geoCountry := prisma.geoCountry ch;
     prisma.geoCity := prisma.geoCity ch;
     prisma.geoRegion := prisma.geoRegion ch;
     prisma.expiresAt := prisma.expiresAt ch |}.

(** What a verify answers when it succeeds on the record [ch] it has
    read. *)
Definition successOf (fp : option string) (ch : prisma.Challenge)
  : challengeRoutes.VerifyResponse :=
  challengeRoutes.VerifySuccess
    {| challengeRoutes.v_score := prisma.score (verifiedRecord fp ch);
       challengeRoutes.v_riskLevel := prisma.riskLevel (verifiedRecord fp ch);
       challengeRoutes.metadata_botScore := prisma.botScore ch;
       challengeRoutes.metadata_vpnDetected := prisma.vpnDetected ch;
       challengeRoutes.metadata_proxyDetected := prisma.proxyDetected ch;
       challengeRoutes.metadata_torDetected := prisma.torDetected ch;
       challengeRoutes.metadata_abuseScore := prisma.abuseScore ch |}.

(** A call that has arrived and has not run yet. *)
Definition arrived (call : verifyLoop.Call) : Prop :=
  match call with
  | verifyLoop.Received _ _ => True
  | _ => False
  end.

(** The scores that a call holds for the token [tok] were computed from the
    record [ch], read while it was not verified. *)
Definition holdsScoresOf (tok : string) (ch : prisma.Challenge) (call : verifyLoop.Call)
  : Prop :=
  match call with
  | verifyLoop.AwaitApiKey _ t _ s l
  | verifyLoop.AwaitUpdate _ t _ s l _ =>
      t = tok ->
      prisma.verified ch = false /\
      exists fp, s = prisma.score (verifiedRecord fp ch) /\
                 l = prisma.riskLevel (verifiedRecord fp ch)
  | _ => True
  end.

(** The record [ch'] is the record [ch] at a later time. *)
Definition laterRecord (ch ch' : prisma.Challenge) : Prop :=
  prisma.siteKey ch' = prisma.siteKey ch /\
  prisma.fingerprint ch' = prisma.fingerprint ch /\
  prisma.expiresAt ch' = prisma.expiresAt ch /\
  prisma.botScore ch' = prisma.botScore ch /\
  prisma.abuseScore ch' = prisma.abuseScore ch /\
  (prisma.verified ch = true -> prisma.verified ch' = true) /\
  (prisma.verified ch' = false -> ch' = ch).
(** The invariant of a run that starts with no call under way. *)
Definition verifiedFrom (tok : string) (ch : prisma.Challenge) (s : list verifyLoop.Call * World)
  : Prop :=
  (prisma.challenge (db s.2) !! tok = Some ch \/
   prisma.verified ch = false /\
   exists fp, prisma.challenge (db s.2) !! tok = Some (verifiedRecord fp ch)) /\
  Forall (holdsScoresOf tok ch) s.1.

(** The condition of the linearity signal in the words of the
    specification: more than 70% of the consecutive triples of points are
    near-collinear.  A trace of [n] points has [n - 2] consecutive triples. *)
Definition mostTriplesCollinear (movements : list MousePoint) : Prop :=
  7 * (Z.of_nat (length movements) - 2) < 10 * BotDetector.straightLines movements.

(** Two component lists that differ at position [i] only. *)
Definition differ_only_at (i : nat) (l1 l2 : list string) : Prop :=
  length l1 = length l2 /\
  l1 !! i ≠ l2 !! i /\
  forall j, j ≠ i -> l1 !! j = l2 !! j.

Section EventLoopInvariant.
Variables (identifier : string) (W maxRequests b : Z).

(** The counter key of window [b]. *)
Definition windowKey : string := "ratelimit:" ++ identifier ++ ":" ++ pretty b.

Definition inWindow (schedule : list eventLoop.Event) : Prop :=
  Forall (fun e => eventLoop.time e / 1000 / W = b) schedule.

(** The counter value a call has read, once it is past its first segment. *)
Definition currentOf (call : eventLoop.Call) : option Z :=
  match call with
  | eventLoop.Fresh => None
  | eventLoop.AfterIncr _ v => Some v
  | eventLoop.AfterExpire _ v => Some v
  | eventLoop.Returned r => Some (AbuseDetector.current r)
  end.

Definition call_ok (call : eventLoop.Call) : Prop :=
  match call with
  | eventLoop.Fresh => True
  | eventLoop.AfterIncr k _ => k = windowKey
  | eventLoop.AfterExpire k _ => k = windowKey
  | eventLoop.Returned r =>
      AbuseDetector.limited r = (maxRequests <? AbuseDetector.current r)
  end.

(** An item that no cleanup inside the window removes. *)
Definition lasting (item : CacheItem) : Prop :=
  match expiry item with
  | Some e => e = 0 \/ (b + 1) * (W * 1000) <= e
  | None => True
  end.

(** The invariant of the interleaved execution: the values read so far are
    1, 2, ..., n in some order, and n is the value of the counter. *)
Record Inv (s : list eventLoop.Call * gmap string CacheItem) : Prop := {
  inv_values : omap currentOf s.1 ≡ₚ Z.of_nat <$> seq 1 (length (omap currentOf s.1));
  inv_counter : redisClient.counterOf (s.2 !! windowKey)
                = Z.of_nat (length (omap currentOf s.1));
  inv_lasting : forall item, s.2 !! windowKey = Some item -> lasting item;
  inv_calls : Forall call_ok s.1
}.

End EventLoopInvariant.

(** Calls made one after the other, each at its own time: the answers and
    the final state. *)
Fixpoint sequentially {S R} (call : Z -> S -> R * S) (times : list Z) (s : S)
  : list R * S :=
  match times with
  | [] => ([], s)
  | t :: times =>
      let out := call t s in
      let rest := sequentially call times out.2 in
      (out.1 :: rest.1, rest.2)
  end.

(** ** Concrete data used to exercise the model *)

Module example.

(** A platform without external services: the parser recognises nothing,
    geolocation fails, the hash is the identity. *)
Definition platform : Platform :=
  {| UAParser := fun _ => {| browser_name := None; browser_version := None; os_name := None |};
     parseFloat := fun _ => None;
     geoip_lookup := fun _ => None;
     sha256_hex := fun s => s;
     IPQUALITYSCORE_API_KEY := None;
     IPINFO_TOKEN := None;
     axios_get_ipqs := fun _ => None;
     axios_get_ipinfo := fun _ => None;
     CHALLENGE_EXPIRY_SECONDS := None |}.

Definition point (x y : Z) : MousePoint :=
  {| mx := inject_Z x; my := inject_Z y; mtimestamp := 0 |}.

(** Five points on the diagonal. *)
Definition diagonal : list MousePoint :=
  [point 0 0; point 1 1; point 2 2; point 3 3; point 4 4].

Definition headers (ua : string) : challengeRoutes.Headers :=
  {| challengeRoutes.x_forwarded_for := Some "203.0.113.7";
     challengeRoutes.user_agent := Some ua;
     challengeRoutes.accept_language := Some "en";
     challengeRoutes.accept_encoding := Some "gzip";
     challengeRoutes.remoteAddress := None |}.

(** One registered, active site key and nothing else. *)
Definition world : World :=
  {| db := {| prisma.apiKey :=
                {[ "pk_site" := {| prisma.id := "key1"; prisma.userId := "user1";
                                   prisma.isActive := true |} ]};
              prisma.challenge := ∅; prisma.usage := [];
              prisma.blacklist := ∅; prisma.abuseLog := [] |};
     cache := ∅ |}.

Definition curlBody : challengeRoutes.CreateBody :=
  {| challengeRoutes.siteKey := Some "pk_site";
     challengeRoutes.action := None;
     challengeRoutes.fingerprint := Some "fp-browser-1";
     challengeRoutes.mouseMovements := Some [];
     challengeRoutes.keystrokes := Some [];
     challengeRoutes.requestTimings := None |}.


(** A stored challenge with the given score, flag and expiry. *)
Definition challenge (s : Z) (v : bool) (expires : Z) : prisma.Challenge :=
  {| prisma.challengeId := "c-1"; prisma.siteKey := "pk_site"; prisma.token := "tok-1";
     prisma.action := "verify"; prisma.verified := v; prisma.score := s;
     prisma.riskLevel := LOW; prisma.ipAddress := "203.0.113.7";
     prisma.userAgent := "Mozilla/5.0"; prisma.fingerprint := "fp-browser-1";
     prisma.botScore := 10; prisma.vpnDetected := false; prisma.proxyDetected := false;
     prisma.torDetected := false; prisma.abuseScore := 0; prisma.geoCountry := None;
     prisma.geoCity := ""; prisma.geoRegion := ""; prisma.expiresAt := expires |}.

Definition worldWith (ch : prisma.Challenge) : World :=
  with_challenge world {[ prisma.token ch := ch ]}.

(** The state after one successful create, and the same state after the
    owner has deleted the API key of the site. *)
Definition createdWorld : World :=
  (@challengeRoutes.create platform 1000 "c-1" "tok-1"
     (headers "Mozilla/5.0") curlBody world).2.

Definition orphanedWorld : World :=
  challengeRoutes.deleteApiKey "key1" "user1" createdWorld.

(** A state whose store bans a fingerprint for good; the cache is empty. *)
Definition bannedWorld : World :=
  with_blacklist world
    {[ (prisma.FINGERPRINT, "fp-banned") :=
         {| prisma.bl_reason := "manual"; prisma.permanent := true;
            prisma.bl_expiresAt := None |} ]}.

(** Client signals for the fingerprint builder. *)
Definition signals (ua lang ip : string) (fontList : list string)
  : BotDetector.FingerprintData :=
  {| BotDetector.fingerprint := None;
     BotDetector.userAgent := Some ua;
     BotDetector.ipAddress := Some ip;
     BotDetector.acceptLanguage := Some lang;
     BotDetector.acceptEncoding := Some "gzip";
     BotDetector.screenResolution := Some "1920x1080";
     BotDetector.timezone := Some (-60);
     BotDetector.canvas := None;
     BotDetector.webgl := None;
     BotDetector.fonts := Some fontList |}.

Definition riskData : standalone.RiskData :=
  {| standalone.fingerprint := Some "0123456789abcdef";
     standalone.mouseMovements := None;
     standalone.requestTimings := None |}.

End example.

(** Further states and traces used as instances below. *)
Module scenario.

Definition violation (t : Z) : prisma.AbuseLog :=
  {| prisma.al_ipAddress := "203.0.113.7"; prisma.al_fingerprint := Some "fp-browser-1";
     prisma.al_siteKey := Some "pk_site"; prisma.al_reason := "Rate limit exceeded";
     prisma.severity := MEDIUM; prisma.requestCount := 31; prisma.createdAt := t |}.

(** The address has used up its 30 requests of the current minute and has
    five violations on record. *)
Definition throttledWorld : World :=
  {| db := {| prisma.apiKey := prisma.apiKey (db example.world);
              prisma.challenge := ∅; prisma.usage := [];
              prisma.blacklist := ∅;
              prisma.abuseLog := violation <$> [100; 200; 300; 400; 500] |};
     cache := {[ AbuseDetector.rateLimitKey 1000 "ip:203.0.113.7" 60
                 := {| value := VNum 30; expiry := Some 61000 |} ]} |}.

(** 31 calls of [checkRateLimit] that overlap: all of them run their first
    segment, the cleanup timer fires, they run their second segment in the
    opposite order, and then their third. *)
Definition waves : list eventLoop.Event :=
  ((fun i => eventLoop.Resume i 1000) <$> seq 0 31) ++
  [eventLoop.Cleanup 30000] ++
  ((fun i => eventLoop.Resume i 31000) <$> rev (seq 0 31)) ++
  ((fun i => eventLoop.Resume i 59999) <$> seq 0 31).

(** A burst of 31 calls within 200 ms around the end of a minute: 15 calls
    at 59.9 s and 16 calls at 60.1 s. *)
Definition burst : list eventLoop.Event :=
  flat_map (fun i => [eventLoop.Resume i 59900; eventLoop.Resume i 59900;
                      eventLoop.Resume i 59900]) (seq 0 15) ++
  flat_map (fun i => [eventLoop.Resume i 60100; eventLoop.Resume i 60100;
                      eventLoop.Resume i 60100]) (seq 15 16).

(** The standalone server: a token that decodes to a stored challenge
    during five minutes. *)
Definition jwt_verify (token : string) (now : Z) : option server.Payload :=
  if String.eqb token "jwt-1" && (now <? 301000) then
    Some {| server.p_challengeId := "id-1"; server.p_fingerprint := "0123456789abcdef";
            server.p_siteKey := "pk_site" |}
  else None.

Definition serverChallenge : server.ChallengeRow :=
  {| server.fingerprint := "0123456789abcdef"; server.siteKey := "pk_site";
     server.riskScore := 0.25; server.verified := false;
     server.createdAt := 1000; server.expiresAt := 301000 |}.

Definition serverDb : server.Db :=
  {| server.challenges := {[ "id-1" := serverChallenge ]};
     server.rate_limits := ∅; server.abuse_logs := [] |}.

End scenario.

(** * Properties *)

(** ** Arithmetic of the embedding *)

Lemma Qltb_lt (a b : Q) : JS.Qltb a b = true <-> (a < b)%Q.
Proof.
  unfold JS.Qltb. rewrite negb_true_iff. split.
  - intros Hf. apply Qnot_le_lt. intros Hle.
    apply Qle_bool_iff in Hle. congruence.
  - intros Hlt. destruct (Qle_bool b a) eqn:E; [|reflexivity].
    apply Qle_bool_iff in E. exfalso. eapply Qlt_not_le; eauto.
Qed.

Lemma Qgeb_le (a b : Q) : JS.Qgeb a b = true <-> (b <= a)%Q.
Proof. unfold JS.Qgeb. apply Qle_bool_iff. Qed.

Lemma Qgeb_false (a b : Q) : JS.Qgeb a b = false <-> (a < b)%Q.
Proof.
  unfold JS.Qgeb. split.
  - intros Hf. apply Qnot_le_lt. intros Hle. apply Qle_bool_iff in Hle. congruence.
  - intros Hlt. destruct (Qle_bool b a) eqn:E; [|reflexivity].
    apply Qle_bool_iff in E. exfalso. eapply Qlt_not_le; eauto.
Qed.

Lemma Math_round_mono (p q : Q) : (p <= q)%Q -> JS.Math_round p <= JS.Math_round q.
Proof.
  intros Hpq. unfold JS.Math_round. apply Qfloor_resp_le. lra.
Qed.

Lemma Math_round_Z (n : Z) : JS.Math_round (inject_Z n) = n.
Proof.
  unfold JS.Math_round.
  assert (Hlo : n <= Qfloor (inject_Z n + (1 # 2))).
  { rewrite <- (Qfloor_Z n) at 1. apply Qfloor_resp_le. lra. }
  assert (Hhi : Qfloor (inject_Z n + (1 # 2)) < n + 1).
  { rewrite Zlt_Qlt. eapply Qle_lt_trans; [apply Qfloor_le|].
    rewrite inject_Z_plus. change (inject_Z 1) with 1%Q. lra. }
  lia.
Qed.

Lemma Math_round_lower (n : Z) (q : Q) : (inject_Z n <= q)%Q -> n <= JS.Math_round q.
Proof. intros Hq. rewrite <- (Math_round_Z n). now apply Math_round_mono. Qed.

Lemma Math_round_upper (n : Z) (q : Q) : (q <= inject_Z n)%Q -> JS.Math_round q <= n.
Proof. intros Hq. rewrite <- (Math_round_Z n). now apply Math_round_mono. Qed.

(** Halves are rounded up. *)
Lemma Math_round_half_up (n : Z) (q : Q) :
  (inject_Z n - (1 # 2) <= q)%Q -> n <= JS.Math_round q.
Proof.
  intros Hq. unfold JS.Math_round. rewrite <- (Qfloor_Z n) at 1.
  apply Qfloor_resp_le. lra.
Qed.

(** ** The behavioral analyzer *)

Section BotDetectorFacts.
Context `{Platform}.

Ltac closedQ := vm_compute; first [discriminate | reflexivity].

Lemma confidence_bounds (ua : string) :
  (0 <= BotDetector.confidence (BotDetector.analyzeUserAgent ua) <= 0.9)%Q.
Proof.
  unfold BotDetector.analyzeUserAgent.
  destruct (existsb _ BotDetector.botPatterns);
    destruct (negb (JS.truthy (browser_name (UAParser ua))) ||
              negb (JS.truthy (os_name (UAParser ua))));
    destruct (browser_version (UAParser ua)) as [version|]; cbn [BotDetector.confidence];
    try (destruct (negb (String.eqb version "")); [destruct (parseFloat version) as [f|];
         [destruct (JS.Qltb f 50)|]|]);
    cbn [BotDetector.confidence]; split; closedQ.
Qed.

(** A user agent that matches a signature is a bot with confidence 0.9,
    whatever the parser makes of it. *)
Lemma known_signature (ua : string) :
  existsb (fun pattern => JS.test_i pattern ua) BotDetector.botPatterns = true ->
  BotDetector.isBot (BotDetector.analyzeUserAgent ua) = true /\
  (BotDetector.confidence (BotDetector.analyzeUserAgent ua) == 0.9)%Q.
Proof.
  intros Hm. unfold BotDetector.analyzeUserAgent. rewrite Hm.
  destruct (negb (JS.truthy (browser_name (UAParser ua))) ||
            negb (JS.truthy (os_name (UAParser ua))));
    destruct (browser_version (UAParser ua)) as [version|];
    cbn [BotDetector.confidence BotDetector.isBot];
    try (destruct (negb (String.eqb version "")); [destruct (parseFloat version) as [f|];
         [destruct (JS.Qltb f 50)|]|]);
    cbn [BotDetector.confidence BotDetector.isBot]; split; closedQ.
Qed.


Lemma userAgentStep_adds data a :
  adds a (BotDetector.userAgentStep data a) 0 22.5.
Proof.
  unfold adds, BotDetector.userAgentStep.
  pose proof (confidence_bounds (BotDetector.in_userAgent data)) as [Hlo Hhi].
  destruct (BotDetector.isBot _); cbn [BotDetector.bump BotDetector.acc_score]; lra.
Qed.

Lemma mouseStep_adds data a : adds a (BotDetector.mouseStep data a) 0 20.
Proof.
  unfold adds, BotDetector.mouseStep.
  destruct (BotDetector.mouseMovements data) as [m|]; [|lra].
  destruct (length m =? 0)%nat; [cbn; lra|].
  destruct (length m <? 5)%nat; [cbn; lra|].
  destruct (JS.Qltb _ _); cbn; lra.
Qed.

Lemma keystrokeStep_adds data a : adds a (BotDetector.keystrokeStep data a) 0 15.
Proof.
  unfold adds, BotDetector.keystrokeStep.
  destruct (BotDetector.keystrokes data) as [ks|]; [|lra].
  destruct (length ks =? 0)%nat; [cbn; lra|].
  destruct (0 <? length _)%nat; [|lra].
  destruct (JS.Qltb _ _); cbn; lra.
Qed.

Lemma timingStep_adds data a : adds a (BotDetector.timingStep data a) 0 15.
Proof.
  unfold adds, BotDetector.timingStep.
  destruct (BotDetector.requestTimings data) as [t|]; [|lra].
  destruct (2 <? length t)%nat; [|lra].
  destruct (BotDetector.suspicious _); cbn; lra.
Qed.

Lemma historyStep_adds data a : adds a (BotDetector.historyStep data a) 0 15.
Proof.
  unfold adds, BotDetector.historyStep.
  destruct (BotDetector.previousChallenges data) as [n|]; [|lra].
  destruct (10 <? n); [cbn; lra|].
  destruct (5 <? n); cbn; lra.
Qed.

Lemma geoStep_adds data a : adds a (BotDetector.geoStep data a) 0 5.
Proof.
  unfold adds, BotDetector.geoStep.
  destruct (geoip_lookup _); cbn; lra.
Qed.

(** The unrounded score lies between 0 and 92.5. *)
Lemma rawScore_bounds data :
  (0 <= BotDetector.acc_score (BotDetector.rawScore data) <= 92.5)%Q.
Proof.
  unfold BotDetector.rawScore.
  set (a0 := {| BotDetector.acc_score := 0; BotDetector.acc_signals := [];
                BotDetector.acc_reasons := [] |}).
  pose proof (userAgentStep_adds data a0) as [? ?].
  set (a1 := BotDetector.userAgentStep data a0) in *.
  pose proof (mouseStep_adds data a1) as [? ?].
  set (a2 := BotDetector.mouseStep data a1) in *.
  pose proof (keystrokeStep_adds data a2) as [? ?].
  set (a3 := BotDetector.keystrokeStep data a2) in *.
  pose proof (timingStep_adds data a3) as [? ?].
  set (a4 := BotDetector.timingStep data a3) in *.
  pose proof (historyStep_adds data a4) as [? ?].
  set (a5 := BotDetector.historyStep data a4) in *.
  pose proof (geoStep_adds data a5) as [? ?].
  assert (BotDetector.acc_score a0 == 0)%Q by reflexivity.
  lra.
Qed.

Lemma analyzeBotBehavior_score_bounds data :
  0 <= score (BotDetector.analyzeBotBehavior data) <= 100.
Proof.
  cbn [BotDetector.analyzeBotBehavior score].
  pose proof (rawScore_bounds data) as [Hlo _].
  pose proof (Math_round_lower 0 _ Hlo). lia.
Qed.

End BotDetectorFacts.

(** ** The cache and the IP aggregator *)


Lemma cache_ok_empty : cache_ok ∅.
Proof. intros k item a Hk. rewrite lookup_empty in Hk. discriminate. Qed.

Lemma cache_ok_insert k item (c : gmap string CacheItem) :
  cache_ok c ->
  (forall a, value item = VJson a -> 0 <= abuseScore a <= 100) ->
  cache_ok (<[k := item]> c).
Proof.
  intros Hc Hitem k' item' a Hk' Hv.
  destruct (decide (k = k')) as [->|Hne].
  - rewrite lookup_insert_eq in Hk'. injection Hk' as <-. eauto.
  - rewrite lookup_insert_ne in Hk' by done. eauto.
Qed.

Lemma cache_ok_delete k (c : gmap string CacheItem) :
  cache_ok c -> cache_ok (delete k c).
Proof.
  intros Hc k' item a Hk'. apply lookup_delete_Some in Hk' as [_ Hk']. eauto.
Qed.

Lemma cache_ok_incr key c : cache_ok c -> cache_ok (redisClient.incr key c).2.
Proof. intros Hc. apply cache_ok_insert; [done|]. intros a Ha. discriminate. Qed.

Lemma cache_ok_expire now key s c :
  cache_ok c -> cache_ok (redisClient.expire now key s c).
Proof.
  intros Hc. unfold redisClient.expire.
  destruct (c !! key) as [cur|] eqn:E; [|done].
  apply cache_ok_insert; [done|]. intros a Ha. eauto.
Qed.

Lemma cache_ok_setEx now key s v c :
  cache_ok c -> (forall a, v = VJson a -> 0 <= abuseScore a <= 100) ->
  cache_ok (redisClient.setEx now key s v c).
Proof. intros Hc Hv. apply cache_ok_insert; done. Qed.

Lemma cache_ok_set key v c :
  cache_ok c -> (forall a, v = VJson a -> 0 <= abuseScore a <= 100) ->
  cache_ok (redisClient.set key v c).
Proof. intros Hc Hv. apply cache_ok_insert; done. Qed.

Lemma cache_ok_exists now key c :
  cache_ok c -> cache_ok (redisClient.exists_ now key c).2.
Proof.
  intros Hc. unfold redisClient.exists_.
  destruct (c !! key) as [item|]; [|done].
  destruct (redisClient.expired now item); [apply cache_ok_delete|]; done.
Qed.

Lemma cache_ok_get now key c :
  cache_ok c ->
  cache_ok (redisClient.get now key c).2 /\
  forall a, (redisClient.get now key c).1 = Some (VJson a) -> 0 <= abuseScore a <= 100.
Proof.
  intros Hc. unfold redisClient.get.
  destruct (c !! key) as [item|] eqn:E; [|split; [done|discriminate]].
  destruct (redisClient.expired now item); cbn.
  - split; [by apply cache_ok_delete|discriminate].
  - split; [done|]. intros a [= Ha]. eauto.
Qed.

Lemma cache_ok_cleanup now c : cache_ok c -> cache_ok (redisClient.cleanup now c).
Proof.
  intros Hc k item a Hk. unfold redisClient.cleanup in Hk.
  apply map_lookup_filter_Some in Hk as [Hk _]. eauto.
Qed.

Section IPIntelligenceFacts.
Context `{Platform}.

Lemma add_if_nonneg b points why sr :
  0 <= points -> 0 <= sr.1 -> 0 <= (IPIntelligence.add_if b points why sr).1.
Proof. unfold IPIntelligence.add_if. destruct b; cbn; lia. Qed.

Lemma checkIPReputation_nonneg ip : 0 <= (IPIntelligence.checkIPReputation ip).1.
Proof.
  unfold IPIntelligence.checkIPReputation.
  set (sr0 := (0, []) : Z * list string).
  assert (H0 : 0 <= sr0.1) by (cbn; lia).
  set (sr1 := if JS.truthy IPQUALITYSCORE_API_KEY then _ else sr0).
  assert (H1 : 0 <= sr1.1).
  { subst sr1. destruct (JS.truthy IPQUALITYSCORE_API_KEY); [|done].
    destruct (axios_get_ipqs ip) as [data|]; [|done].
    destruct (ipqs_success data); [|done].
    repeat (apply add_if_nonneg; [lia|]). done. }
  destruct (JS.truthy IPINFO_TOKEN); [|done].
  destruct (axios_get_ipinfo ip) as [[privacy|]|]; [|done|done].
  repeat (apply add_if_nonneg; [lia|]). done.
Qed.

Lemma computeAnalysis_bounds ip :
  0 <= abuseScore (IPIntelligence.computeAnalysis ip) <= 100.
Proof.
  cbn [IPIntelligence.computeAnalysis abuseScore].
  pose proof (checkIPReputation_nonneg ip).
  cbn [IPIntelligence.checkVPNDatabase IPIntelligence.checkHostingProvider
       IPIntelligence.isVPN IPIntelligence.isProxy IPIntelligence.isTor
       IPIntelligence.isHosting IPIntelligence.checkTorExitNode].
  lia.
Qed.

Lemma analyzeIP_bounds now ip c :
  cache_ok c ->
  0 <= abuseScore (IPIntelligence.analyzeIP now ip c).1 <= 100 /\
  cache_ok (IPIntelligence.analyzeIP now ip c).2.
Proof.
  intros Hc. unfold IPIntelligence.analyzeIP.
  pose proof (cache_ok_get now ("ip:analysis:" ++ ip) c Hc) as [Hc' Hget].
  destruct (redisClient.get now ("ip:analysis:" ++ ip) c) as [cached c'].
  cbn [fst snd] in *.
  destruct cached as [[n|s|a]|]; cbn.
  - split; [apply computeAnalysis_bounds|].
    apply cache_ok_setEx; [done|]. intros a [= <-]. apply computeAnalysis_bounds.
  - split; [apply computeAnalysis_bounds|].
    apply cache_ok_setEx; [done|]. intros a [= <-]. apply computeAnalysis_bounds.
  - split; [by apply Hget|done].
  - split; [apply computeAnalysis_bounds|].
    apply cache_ok_setEx; [done|]. intros a [= <-]. apply computeAnalysis_bounds.
Qed.

End IPIntelligenceFacts.

(** ** The abuse detector *)

(** Operations on one key leave the other keys alone. *)
Lemma incr_other key k c : key ≠ k -> (redisClient.incr key c).2 !! k = c !! k.
Proof. intros Hne. cbn. by rewrite lookup_insert_ne. Qed.

Lemma incr_value key c : (redisClient.incr key c).1 = redisClient.counterOf (c !! key) + 1.
Proof. reflexivity. Qed.

Lemma expire_other now key s k c : key ≠ k -> redisClient.expire now key s c !! k = c !! k.
Proof.
  intros Hne. unfold redisClient.expire.
  destruct (c !! key); [by rewrite lookup_insert_ne|done].
Qed.

Lemma exists_other now key k c :
  key ≠ k -> (redisClient.exists_ now key c).2 !! k = c !! k.
Proof.
  intros Hne. unfold redisClient.exists_.
  destruct (c !! key) as [item|]; [|done].
  destruct (redisClient.expired now item); cbn; [by rewrite lookup_delete_ne|done].
Qed.

(** A lookup removes at most the key it looks up. *)
Lemma exists_lookup now key k c :
  (redisClient.exists_ now key c).2 !! k = c !! k \/
  (k = key /\ (redisClient.exists_ now key c).2 !! k = None).
Proof.
  destruct (decide (key = k)) as [<-|Hne]; [|left; by apply exists_other].
  unfold redisClient.exists_.
  destruct (c !! key) as [item|] eqn:E; [|by left].
  destruct (redisClient.expired now item); cbn; [|by left].
  right. split; [done|apply lookup_delete_eq].
Qed.

Lemma exists_hit now key c item :
  c !! key = Some item -> redisClient.expired now item = false ->
  redisClient.exists_ now key c = (1, c).
Proof. intros Hk He. unfold redisClient.exists_. by rewrite Hk, He. Qed.

Lemma exists_is_1 now key c :
  (redisClient.exists_ now key c).1 = 1 <->
  exists item, c !! key = Some item /\ redisClient.expired now item = false.
Proof.
  unfold redisClient.exists_. destruct (c !! key) as [item|] eqn:E.
  - destruct (redisClient.expired now item) eqn:Ex; cbn; split.
    + discriminate.
    + intros (item' & [= <-] & He). congruence.
    + eauto.
    + done.
  - cbn. split; [discriminate|]. intros (item & Hn & _). discriminate.
Qed.


Lemma findFirst_stored now ip fp b :
  is_Some (AbuseDetector.findFirst now ip fp b) <-> stored now ip fp b.
Proof.
  unfold AbuseDetector.findFirst, stored. split.
  - destruct (b !! (prisma.IP, ip)) as [e|] eqn:Ei;
      [destruct (AbuseDetector.standing now e) eqn:Si|];
      [intros _; left; eauto| |];
      (destruct (b !! (prisma.FINGERPRINT, fp)) as [e'|] eqn:Ef;
       [destruct (AbuseDetector.standing now e') eqn:Sf|]);
      intros [x Hx]; try discriminate; right; eauto.
  - intros [(e & He & Hs)|(e & He & Hs)].
    + rewrite He, Hs. eauto.
    + rewrite He, Hs. destruct (b !! (prisma.IP, ip)) as [e0|]; [|eauto].
      destruct (AbuseDetector.standing now e0); eauto.
Qed.

Lemma isBlacklisted_cache now ip fp w :
  cache (AbuseDetector.isBlacklisted now ip fp w).2 =
    (redisClient.exists_ now ("blacklist:fp:" ++ fp)
       (redisClient.exists_ now ("blacklist:ip:" ++ ip) (cache w)).2).2 /\
  db (AbuseDetector.isBlacklisted now ip fp w).2 = db w.
Proof.
  unfold AbuseDetector.isBlacklisted.
  destruct (redisClient.exists_ now ("blacklist:ip:" ++ ip) (cache w)) as [n1 c1].
  cbn [snd].
  destruct (redisClient.exists_ now ("blacklist:fp:" ++ fp) c1) as [n2 c2].
  cbn [snd]. destruct ((n1 =? 1) || (n2 =? 1)); split; reflexivity.
Qed.

Lemma blacklist_keys_differ ip fp : "blacklist:ip:" ++ ip ≠ "blacklist:fp:" ++ fp.
Proof. cbn. intros [=]. Qed.

Lemma isBlacklisted_true now ip fp w :
  (AbuseDetector.isBlacklisted now ip fp w).1 = true <-> blacklisted now ip fp w.
Proof.
  unfold AbuseDetector.isBlacklisted, blacklisted.
  pose proof (exists_is_1 now ("blacklist:ip:" ++ ip) (cache w)) as Hip.
  pose proof (exists_other now ("blacklist:ip:" ++ ip) ("blacklist:fp:" ++ fp) (cache w)
                (blacklist_keys_differ ip fp)) as Hframe.
  destruct (redisClient.exists_ now ("blacklist:ip:" ++ ip) (cache w)) as [n1 c1].
  pose proof (exists_is_1 now ("blacklist:fp:" ++ fp) c1) as Hfp.
  destruct (redisClient.exists_ now ("blacklist:fp:" ++ fp) c1) as [n2 c2].
  cbn [fst snd] in *. unfold cached. rewrite <- Hframe, <- Hip, <- Hfp.
  destruct (n1 =? 1) eqn:E1; [apply Z.eqb_eq in E1; cbn; tauto|].
  destruct (n2 =? 1) eqn:E2; [apply Z.eqb_eq in E2; cbn; tauto|].
  apply Z.eqb_neq in E1, E2. cbn [orb fst db with_cache].
  rewrite bool_decide_eq_true, findFirst_stored. tauto.
Qed.

Lemma checkRateLimit_result now identifier W maxRequests c :
  let key := AbuseDetector.rateLimitKey now identifier W in
  let current := redisClient.counterOf (c !! key) + 1 in
  (AbuseDetector.checkRateLimit now identifier W maxRequests c).1 =
    {| AbuseDetector.limited := maxRequests <? current;
       AbuseDetector.current := current;
       AbuseDetector.remaining := Z.max 0 (maxRequests - current) |}.
Proof. reflexivity. Qed.

Lemma checkRateLimit_other now identifier W maxRequests c k :
  AbuseDetector.rateLimitKey now identifier W ≠ k ->
  (AbuseDetector.checkRateLimit now identifier W maxRequests c).2 !! k = c !! k.
Proof.
  intros Hne. unfold AbuseDetector.checkRateLimit. cbn [snd redisClient.incr].
  rewrite expire_other by done. by rewrite lookup_insert_ne.
Qed.

Lemma detectDistributedAttack_result now siteKey c :
  (AbuseDetector.detectDistributedAttack now siteKey c).1 =
    (100 <? redisClient.counterOf (c !! ("attack:" ++ siteKey)) + 1).
Proof. reflexivity. Qed.

Lemma ratelimit_not_blacklist now identifier W tag x :
  "blacklist:" ++ tag ++ x ≠ AbuseDetector.rateLimitKey now identifier W.
Proof. unfold AbuseDetector.rateLimitKey. cbn. intros [=]. Qed.

Lemma ratelimit_ip_not_fp now ip fp W :
  AbuseDetector.rateLimitKey now ("ip:" ++ ip) W ≠ AbuseDetector.rateLimitKey now ("fp:" ++ fp) W.
Proof. unfold AbuseDetector.rateLimitKey. cbn. intros [=]. Qed.

Lemma attack_not_blacklist tag x siteKey : "blacklist:" ++ tag ++ x ≠ "attack:" ++ siteKey.
Proof. cbn. intros [=]. Qed.

Lemma attack_not_ratelimit now identifier W siteKey :
  AbuseDetector.rateLimitKey now identifier W ≠ "attack:" ++ siteKey.
Proof. unfold AbuseDetector.rateLimitKey. cbn. intros [=]. Qed.

(** After the blacklist check the other keys of the cache are as before. *)
Lemma isBlacklisted_other now ip fp w k :
  "blacklist:ip:" ++ ip ≠ k -> "blacklist:fp:" ++ fp ≠ k ->
  cache (AbuseDetector.isBlacklisted now ip fp w).2 !! k = cache w !! k.
Proof.
  intros H1 H2. destruct (isBlacklisted_cache now ip fp w) as [-> _].
  rewrite exists_other by done. by apply exists_other.
Qed.

(** A blacklisted address or fingerprint is blocked by the first check, and
    the only effect is the removal of expired blacklist keys. *)
Lemma detectAbusePatterns_blacklisted now ip fp siteKey w :
  blacklisted now ip fp w ->
  AbuseDetector.detectAbusePatterns now ip fp siteKey w =
    ({| AbuseDetector.blocked := true;
        AbuseDetector.reason := Some "IP or fingerprint is blacklisted";
        AbuseDetector.severity := CRITICAL;
        AbuseDetector.shouldChallenge := false |},
     (AbuseDetector.isBlacklisted now ip fp w).2).
Proof.
  intros Hb. apply isBlacklisted_true in Hb.
  unfold AbuseDetector.detectAbusePatterns.
  destruct (AbuseDetector.isBlacklisted now ip fp w) as [b w1].
  cbn [fst] in Hb. subst b. reflexivity.
Qed.

(** When nothing is blacklisted, the three counters are below their limits
    and the abuse log is short, the five checks pass. *)
Lemma detectAbusePatterns_clear now ip fp siteKey w :
  ¬ blacklisted now ip fp w ->
  redisClient.counterOf
    (cache w !! AbuseDetector.rateLimitKey now ("ip:" ++ ip) 60) < 30 ->
  redisClient.counterOf
    (cache w !! AbuseDetector.rateLimitKey now ("fp:" ++ fp) 60) < 20 ->
  redisClient.counterOf
    (cache w !! ("attack:" ++ JS.or_else siteKey "global")) < 100 ->
  AbuseDetector.getRecentAbuseCount now ip 3600 w <= 10 ->
  (AbuseDetector.detectAbusePatterns now ip fp siteKey w).1 =
    {| AbuseDetector.blocked := false;
       AbuseDetector.reason := None;
       AbuseDetector.severity := LOW;
       AbuseDetector.shouldChallenge := false |}.
Proof.
  intros Hb Hip Hfp Hatt Hlog.
  unfold AbuseDetector.detectAbusePatterns.
  pose proof (isBlacklisted_true now ip fp w) as Hbl.
  pose proof (isBlacklisted_cache now ip fp w) as [_ Hdb].
  pose proof (isBlacklisted_other now ip fp w) as Hother.
  destruct (AbuseDetector.isBlacklisted now ip fp w) as [b w1].
  cbn [fst snd] in *.
  destruct b; [tauto|]. clear Hbl.
  set (ipKey := AbuseDetector.rateLimitKey now ("ip:" ++ ip) 60) in *.
  set (fpKey := AbuseDetector.rateLimitKey now ("fp:" ++ fp) 60) in *.
  set (attackKey := "attack:" ++ JS.or_else siteKey "global") in *.
  pose proof (checkRateLimit_result now ("ip:" ++ ip) 60 30 (cache w1)) as Hr1.
  pose proof (checkRateLimit_other now ("ip:" ++ ip) 60 30 (cache w1)) as Ho1.
  destruct (AbuseDetector.checkRateLimit now ("ip:" ++ ip) 60 30 (cache w1)) as [r1 c1].
  cbn [fst snd] in *. fold ipKey in Hr1, Ho1.
  rewrite (Hother ipKey) in Hr1
    by (apply (ratelimit_not_blacklist now ("ip:" ++ ip) 60 "ip:")
        || apply (ratelimit_not_blacklist now ("ip:" ++ ip) 60 "fp:")).
  subst r1. cbn [AbuseDetector.limited AbuseDetector.current].
  replace (30 <? redisClient.counterOf (cache w !! ipKey) + 1) with false
    by (symmetry; apply Z.ltb_ge; lia).
  cbn [cache with_cache].
  pose proof (checkRateLimit_result now ("fp:" ++ fp) 60 20 c1) as Hr2.
  pose proof (checkRateLimit_other now ("fp:" ++ fp) 60 20 c1) as Ho2.
  destruct (AbuseDetector.checkRateLimit now ("fp:" ++ fp) 60 20 c1) as [r2 c2].
  cbn [fst snd] in *. fold fpKey in Hr2, Ho2.
  rewrite (Ho1 fpKey) in Hr2 by apply ratelimit_ip_not_fp.
  rewrite (Hother fpKey) in Hr2
    by (apply (ratelimit_not_blacklist now ("fp:" ++ fp) 60 "ip:")
        || apply (ratelimit_not_blacklist now ("fp:" ++ fp) 60 "fp:")).
  subst r2. cbn [AbuseDetector.limited AbuseDetector.current].
  replace (20 <? redisClient.counterOf (cache w !! fpKey) + 1) with false
    by (symmetry; apply Z.ltb_ge; lia).
  pose proof (detectDistributedAttack_result now (JS.or_else siteKey "global") c2) as Hr3.
  destruct (AbuseDetector.detectDistributedAttack now (JS.or_else siteKey "global") c2)
    as [detected c3].
  cbn [fst snd] in *. fold attackKey in Hr3.
  rewrite (Ho2 attackKey) in Hr3 by apply attack_not_ratelimit.
  rewrite (Ho1 attackKey) in Hr3 by apply attack_not_ratelimit.
  rewrite (Hother attackKey) in Hr3
    by (apply (attack_not_blacklist "ip:") || apply (attack_not_blacklist "fp:")).
  subst detected.
  replace (100 <? redisClient.counterOf (cache w !! attackKey) + 1) with false
    by (symmetry; apply Z.ltb_ge; lia).
  assert (Hcount : AbuseDetector.getRecentAbuseCount now ip 3600
                     (with_cache (with_cache (with_cache w1 c1) c2) c3)
                   = AbuseDetector.getRecentAbuseCount now ip 3600 w).
  { unfold AbuseDetector.getRecentAbuseCount. cbn [db with_cache]. by rewrite Hdb. }
  rewrite Hcount.
  replace (10 <? AbuseDetector.getRecentAbuseCount now ip 3600 w) with false
    by (symmetry; apply Z.ltb_ge; lia).
  reflexivity.
Qed.


Lemma untouched_refl w : untouched w w.
Proof. unfold untouched. auto. Qed.

Lemma untouched_trans w1 w2 w3 : untouched w1 w2 -> untouched w2 w3 -> untouched w1 w3.
Proof.
  intros (Ha & Hb & Hc) (Ha' & Hb' & Hc').
  unfold untouched. split; [congruence|]. split; [congruence|auto].
Qed.

Lemma untouched_with_cache w c :
  (cache_ok (cache w) -> cache_ok c) -> untouched w (with_cache w c).
Proof. intros Hc. unfold untouched. cbn. auto. Qed.

Lemma untouched_isBlacklisted now ip fp w :
  untouched w (AbuseDetector.isBlacklisted now ip fp w).2.
Proof.
  destruct (isBlacklisted_cache now ip fp w) as [Hc Hdb].
  unfold untouched. rewrite Hdb, Hc. split; [done|]. split; [done|].
  intros Hok. by do 2 apply cache_ok_exists.
Qed.

Lemma cache_ok_checkRateLimit now identifier W maxRequests c :
  cache_ok c -> cache_ok (AbuseDetector.checkRateLimit now identifier W maxRequests c).2.
Proof.
  intros Hc. unfold AbuseDetector.checkRateLimit.
  pose proof (cache_ok_incr (AbuseDetector.rateLimitKey now identifier W) c Hc) as Hi.
  destruct (redisClient.incr _ c) as [current c1]. cbn [snd] in *.
  by apply cache_ok_expire.
Qed.

Lemma cache_ok_detectDistributedAttack now siteKey c :
  cache_ok c -> cache_ok (AbuseDetector.detectDistributedAttack now siteKey c).2.
Proof.
  intros Hc. unfold AbuseDetector.detectDistributedAttack.
  pose proof (cache_ok_incr ("attack:" ++ siteKey) c Hc) as Hi.
  destruct (redisClient.incr _ c) as [current c1]. cbn [snd] in *.
  destruct (current =? 1); [by apply cache_ok_expire|done].
Qed.

Lemma untouched_logAbuse now ip fp sk why sev n w :
  untouched w (AbuseDetector.logAbuse now ip fp sk why sev n w).
Proof. unfold untouched. cbn. auto. Qed.

Lemma untouched_tempBlockIP now ip d w :
  untouched w (AbuseDetector.tempBlockIP now ip d w).
Proof.
  unfold untouched. cbn. split; [done|]. split; [done|]. intros Hc.
  apply cache_ok_setEx; [done|]. intros a Ha. discriminate.
Qed.

Lemma untouched_detectAbusePatterns now ip fp siteKey w :
  untouched w (AbuseDetector.detectAbusePatterns now ip fp siteKey w).2.
Proof.
  unfold AbuseDetector.detectAbusePatterns.
  pose proof (untouched_isBlacklisted now ip fp w) as H1.
  destruct (AbuseDetector.isBlacklisted now ip fp w) as [b w1]. cbn [snd] in H1.
  destruct b; [done|].
  pose proof (cache_ok_checkRateLimit now ("ip:" ++ ip) 60 30 (cache w1)) as H2.
  destruct (AbuseDetector.checkRateLimit now ("ip:" ++ ip) 60 30 (cache w1)) as [r1 c1].
  cbn [snd] in H2.
  assert (U2 : untouched w (with_cache w1 c1)).
  { eapply untouched_trans; [exact H1|]. by apply untouched_with_cache. }
  destruct (AbuseDetector.limited r1).
  { set (w2 := AbuseDetector.logAbuse _ _ _ _ _ _ _ _).
    assert (U3 : untouched w w2).
    { eapply untouched_trans; [exact U2|]. apply untouched_logAbuse. }
    destruct (5 <? _); cbn [snd]; [|done].
    eapply untouched_trans; [exact U3|]. apply untouched_tempBlockIP. }
  cbn [cache with_cache].
  pose proof (cache_ok_checkRateLimit now ("fp:" ++ fp) 60 20 c1) as H3.
  destruct (AbuseDetector.checkRateLimit now ("fp:" ++ fp) 60 20 c1) as [r2 c2].
  cbn [snd] in H3.
  assert (U3 : untouched w (with_cache (with_cache w1 c1) c2)).
  { eapply untouched_trans; [exact U2|]. by apply untouched_with_cache. }
  destruct (AbuseDetector.limited r2).
  { cbn [snd]. eapply untouched_trans; [exact U3|]. apply untouched_logAbuse. }
  cbn [cache with_cache].
  pose proof (cache_ok_detectDistributedAttack now (JS.or_else siteKey "global") c2) as H4.
  destruct (AbuseDetector.detectDistributedAttack now (JS.or_else siteKey "global") c2)
    as [detected c3].
  cbn [snd] in H4.
  assert (U4 : untouched w (with_cache (with_cache (with_cache w1 c1) c2) c3)).
  { eapply untouched_trans; [exact U3|]. by apply untouched_with_cache. }
  destruct detected; [done|].
  destruct (10 <? _); cbn [snd]; [|done].
  eapply untouched_trans; [exact U4|]. apply untouched_tempBlockIP.
Qed.

(** ** The create handler *)

Section CreateFacts.
Context `{Platform}.

Lemma overallScoreOf_bounds b a :
  0 <= b <= 100 -> 0 <= a <= 100 ->
  0 <= challengeRoutes.overallScoreOf b a <= 100.
Proof.
  intros [Hb0 Hb1] [Ha0 Ha1]. unfold challengeRoutes.overallScoreOf.
  rewrite Zle_Qle in Hb0, Hb1, Ha0, Ha1.
  change (inject_Z 0) with 0%Q in *. change (inject_Z 100) with 100%Q in *.
  split.
  - apply (Math_round_lower 0). change (inject_Z 0) with 0%Q. lra.
  - apply (Math_round_upper 100). change (inject_Z 100) with 100%Q. lra.
Qed.

(** What a successful create has computed, stored and answered. *)
Lemma create_success_inv now cid tok h body w r w' :
  challengeRoutes.create now cid tok h body w = (challengeRoutes.CreateSuccess r, w') ->
  let ip := challengeRoutes.clientAddress h in
  let fp := challengeRoutes.fingerprintOf h body in
  let sk := JS.or_else (challengeRoutes.siteKey body) "" in
  let d := AbuseDetector.detectAbusePatterns now ip fp (Some sk) w in
  let bot := BotDetector.analyzeBotBehavior (challengeRoutes.botInput h body) in
  let ipa := IPIntelligence.analyzeIP now ip (cache d.2) in
  let overall := challengeRoutes.overallScoreOf (score bot) (abuseScore ipa.1) in
  AbuseDetector.blocked d.1 = false /\
  r = {| challengeRoutes.challengeId := cid;
         challengeRoutes.c_token := tok;
         challengeRoutes.requiresInteraction :=
           (30 <? overall) || AbuseDetector.shouldChallenge d.1;
         challengeRoutes.expiresAt := now + challengeRoutes.expirySeconds * 1000;
         challengeRoutes.metadata_score := 100 - overall;
         challengeRoutes.metadata_riskLevel := riskLevel bot |} /\
  cache w' = ipa.2 /\
  exists ch, prisma.challenge (db w') !! tok = Some ch /\
    prisma.score ch = 100 - overall /\
    prisma.botScore ch = score bot /\
    prisma.abuseScore ch = abuseScore ipa.1 /\
    prisma.riskLevel ch = toUpperCase (riskLevel bot) /\
    prisma.fingerprint ch = fp /\
    prisma.siteKey ch = sk /\
    prisma.verified ch = false /\
    prisma.expiresAt ch = now + challengeRoutes.expirySeconds * 1000.
Proof.
  intros Hc. cbv zeta. unfold challengeRoutes.create in Hc.
  destruct (negb (JS.truthy (challengeRoutes.siteKey body))); [discriminate|].
  destruct (prisma.apiKey (db w) !! _) as [apiKey|]; [|discriminate].
  destruct (negb (prisma.isActive apiKey)); [discriminate|].
  destruct (AbuseDetector.detectAbusePatterns _ _ _ _ w) as [abuseCheck w1].
  cbn [fst snd].
  destruct (AbuseDetector.blocked abuseCheck) eqn:Hblocked; [discriminate|].
  destruct (IPIntelligence.analyzeIP _ _ (cache w1)) as [ipAnalysis c].
  cbn [db cache with_cache prisma.challenge] in Hc.
  destruct (prisma.challenge (db w1) !! tok); [discriminate|].
  injection Hc as <- <-.
  split; [reflexivity|]. split; [reflexivity|]. split; [reflexivity|].
  eexists. split.
  { cbn [db prisma.challenge with_usage with_challenge with_cache].
    apply lookup_insert_eq. }
  cbn [prisma.score prisma.botScore prisma.abuseScore prisma.riskLevel
       prisma.fingerprint prisma.siteKey prisma.verified prisma.expiresAt fst].
  repeat split; reflexivity.
Qed.

(** A request with a registered, active site key that the abuse detector
    does not block, and with a fresh token, is answered with success. *)
Lemma create_succeeds now cid tok h body w apiKey :
  JS.truthy (challengeRoutes.siteKey body) = true ->
  prisma.apiKey (db w) !! JS.or_else (challengeRoutes.siteKey body) "" = Some apiKey ->
  prisma.isActive apiKey = true ->
  AbuseDetector.blocked
    (AbuseDetector.detectAbusePatterns now (challengeRoutes.clientAddress h)
       (challengeRoutes.fingerprintOf h body)
       (Some (JS.or_else (challengeRoutes.siteKey body) "")) w).1 = false ->
  prisma.challenge (db w) !! tok = None ->
  exists r w', challengeRoutes.create now cid tok h body w
               = (challengeRoutes.CreateSuccess r, w').
Proof.
  intros Hsk Hkey Hact Hblk Hfresh. unfold challengeRoutes.create.
  rewrite Hsk, Hkey, Hact. cbn [negb].
  pose proof (untouched_detectAbusePatterns now (challengeRoutes.clientAddress h)
                (challengeRoutes.fingerprintOf h body)
                (Some (JS.or_else (challengeRoutes.siteKey body) "")) w) as (Hch & _ & _).
  destruct (AbuseDetector.detectAbusePatterns _ _ _ _ w) as [abuseCheck w1].
  cbn [fst snd] in *. rewrite Hblk.
  destruct (IPIntelligence.analyzeIP _ _ (cache w1)) as [ipAnalysis c].
  cbn [db cache with_cache prisma.challenge].
  rewrite Hch, Hfresh. eauto.
Qed.

(** Whatever the answer, create keeps the cached analyses sound. *)
Lemma create_cache_ok now cid tok h body w :
  cache_ok (cache w) ->
  cache_ok (cache (challengeRoutes.create now cid tok h body w).2).
Proof.
  intros Hc. unfold challengeRoutes.create.
  destruct (negb (JS.truthy (challengeRoutes.siteKey body))); [done|].
  destruct (prisma.apiKey (db w) !! _) as [apiKey|]; [|done].
  destruct (negb (prisma.isActive apiKey)); [done|].
  pose proof (untouched_detectAbusePatterns now (challengeRoutes.clientAddress h)
                (challengeRoutes.fingerprintOf h body)
                (Some (JS.or_else (challengeRoutes.siteKey body) "")) w) as (_ & _ & Hok).
  destruct (AbuseDetector.detectAbusePatterns _ _ _ _ w) as [abuseCheck w1].
  cbn [snd] in Hok. specialize (Hok Hc).
  destruct (AbuseDetector.blocked abuseCheck); [done|].
  pose proof (analyzeIP_bounds now (challengeRoutes.clientAddress h) (cache w1) Hok)
    as [_ Hc2].
  destruct (IPIntelligence.analyzeIP _ _ (cache w1)) as [ipAnalysis c].
  cbn [db cache with_cache prisma.challenge snd] in *.
  destruct (prisma.challenge (db w1) !! tok); done.
Qed.

End CreateFacts.

(** ** The scenario of a script: no mouse, no keys, user agent curl/8.0 *)

Section CurlScenario.
Context `{Platform}.

Lemma curl_matches :
  existsb (fun pattern => JS.test_i pattern "curl/8.0") BotDetector.botPatterns = true.
Proof. reflexivity. Qed.

(** The unrounded score of such a request: 22.5 + 20 + 10, plus at most 15
    for the request timings and 5 for the geolocation. *)
Lemma curl_rawScore data :
  BotDetector.in_userAgent data = "curl/8.0" ->
  BotDetector.mouseMovements data = Some [] ->
  BotDetector.keystrokes data = Some [] ->
  BotDetector.previousChallenges data = None ->
  (52.5 <= BotDetector.acc_score (BotDetector.rawScore data) <= 72.5)%Q.
Proof.
  intros Hua Hm Hk Hp. unfold BotDetector.rawScore.
  set (a0 := {| BotDetector.acc_score := 0; BotDetector.acc_signals := [];
                BotDetector.acc_reasons := [] |}).
  assert (H1 : (BotDetector.acc_score (BotDetector.userAgentStep data a0) == 22.5)%Q).
  { unfold BotDetector.userAgentStep. rewrite Hua.
    destruct (known_signature "curl/8.0" curl_matches) as [-> Hconf].
    cbn [BotDetector.bump BotDetector.acc_score a0]. rewrite Hconf. reflexivity. }
  set (a1 := BotDetector.userAgentStep data a0) in *.
  assert (H2 : (BotDetector.acc_score (BotDetector.mouseStep data a1)
                == BotDetector.acc_score a1 + 20)%Q).
  { unfold BotDetector.mouseStep. rewrite Hm. reflexivity. }
  set (a2 := BotDetector.mouseStep data a1) in *.
  assert (H3 : (BotDetector.acc_score (BotDetector.keystrokeStep data a2)
                == BotDetector.acc_score a2 + 10)%Q).
  { unfold BotDetector.keystrokeStep. rewrite Hk. reflexivity. }
  set (a3 := BotDetector.keystrokeStep data a2) in *.
  pose proof (timingStep_adds data a3) as [? ?].
  set (a4 := BotDetector.timingStep data a3) in *.
  assert (H5 : BotDetector.historyStep data a4 = a4).
  { unfold BotDetector.historyStep. by rewrite Hp. }
  rewrite H5.
  pose proof (geoStep_adds data a4) as [? ?].
  lra.
Qed.

Lemma curl_analysis data :
  BotDetector.in_userAgent data = "curl/8.0" ->
  BotDetector.mouseMovements data = Some [] ->
  BotDetector.keystrokes data = Some [] ->
  BotDetector.previousChallenges data = None ->
  53 <= score (BotDetector.analyzeBotBehavior data) <= 73 /\
  riskLevel (BotDetector.analyzeBotBehavior data) = high.
Proof.
  intros Hua Hm Hk Hp.
  pose proof (curl_rawScore data Hua Hm Hk Hp) as [Hlo Hhi].
  cbn [BotDetector.analyzeBotBehavior score riskLevel]. split.
  - assert (53 <= JS.Math_round (BotDetector.acc_score (BotDetector.rawScore data))).
    { apply Math_round_half_up. change (inject_Z 53) with 53%Q. lra. }
    assert (JS.Math_round (BotDetector.acc_score (BotDetector.rawScore data)) <= 73).
    { apply Math_round_upper. change (inject_Z 73) with 73%Q. lra. }
    lia.
  - unfold BotDetector.riskLevelOf.
    replace (JS.Qgeb _ 75) with false by (symmetry; apply Qgeb_false; lra).
    replace (JS.Qgeb _ 50) with true by (symmetry; apply Qgeb_le; lra).
    reflexivity.
Qed.

(** From a bot score of 51 on, the overall score exceeds 30 whatever the
    abuse score; a bot score of 45 alone gives 27. *)
Lemma overallScoreOf_above_30 b a :
  51 <= b -> 0 <= a -> 30 < challengeRoutes.overallScoreOf b a.
Proof.
  intros Hb Ha. unfold challengeRoutes.overallScoreOf.
  rewrite Zle_Qle in Hb, Ha.
  change (inject_Z 51) with 51%Q in Hb. change (inject_Z 0) with 0%Q in Ha.
  assert (31 <= JS.Math_round (inject_Z b * 0.6 + inject_Z a * 0.4)); [|lia].
  apply Math_round_half_up. change (inject_Z 31) with 31%Q. lra.
Qed.

End CurlScenario.

(** ** The verify handler *)


Lemma truthy_Some s : s ≠ "" -> JS.truthy (Some s) = true.
Proof.
  intros Hs. cbn. destruct (String.eqb s "") eqn:E; [|done].
  apply String.eqb_eq in E. contradiction.
Qed.

Lemma or_else_Some s d : s ≠ "" -> JS.or_else (Some s) d = s.
Proof.
  intros Hs. cbn. destruct (String.eqb s "") eqn:E; [|done].
  apply String.eqb_eq in E. contradiction.
Qed.

Lemma verify_not_found now h body w tok :
  challengeRoutes.token body = Some tok -> tok ≠ "" ->
  prisma.challenge (db w) !! tok = None ->
  challengeRoutes.verify now h body w
  = (challengeRoutes.VerifyFailure 404 "Challenge not found or expired", w).
Proof.
  intros Ht Hne Hl. unfold challengeRoutes.verify.
  rewrite Ht, truthy_Some, or_else_Some, Hl by done. reflexivity.
Qed.

Lemma verify_already_verified now h body w tok ch :
  challengeRoutes.token body = Some tok -> tok ≠ "" ->
  prisma.challenge (db w) !! tok = Some ch ->
  prisma.verified ch = true ->
  challengeRoutes.verify now h body w
  = (challengeRoutes.VerifyFailure 400 "Challenge already verified", w).
Proof.
  intros Ht Hne Hl Hv. unfold challengeRoutes.verify.
  rewrite Ht, truthy_Some, or_else_Some, Hl, Hv by done. reflexivity.
Qed.

Lemma verify_expired now h body w tok ch :
  challengeRoutes.token body = Some tok -> tok ≠ "" ->
  prisma.challenge (db w) !! tok = Some ch ->
  prisma.verified ch = false ->
  prisma.expiresAt ch < now ->
  challengeRoutes.verify now h body w
  = (challengeRoutes.VerifyFailure 400 "Challenge expired", w).
Proof.
  intros Ht Hne Hl Hv He. unfold challengeRoutes.verify.
  rewrite Ht, truthy_Some, or_else_Some, Hl, Hv by done.
  apply Z.ltb_lt in He. rewrite He. reflexivity.
Qed.

Lemma verify_no_api_key now h body w tok ch :
  challengeRoutes.token body = Some tok -> tok ≠ "" ->
  prisma.challenge (db w) !! tok = Some ch ->
  prisma.verified ch = false ->
  now <= prisma.expiresAt ch ->
  prisma.apiKey (db w) !! prisma.siteKey ch = None ->
  challengeRoutes.verify now h body w
  = (challengeRoutes.VerifyFailure 401 "Invalid API configuration", w).
Proof.
  intros Ht Hne Hl Hv He Hk. unfold challengeRoutes.verify.
  rewrite Ht, truthy_Some, or_else_Some, Hl, Hv by done.
  apply Z.ltb_ge in He. rewrite He, Hk. reflexivity.
Qed.


Lemma verify_success now h body w tok ch apiKey :
  challengeRoutes.token body = Some tok -> tok ≠ "" ->
  prisma.challenge (db w) !! tok = Some ch ->
  prisma.verified ch = false ->
  now <= prisma.expiresAt ch ->
  prisma.apiKey (db w) !! prisma.siteKey ch = Some apiKey ->
  let ch' := verifiedRecord (challengeRoutes.v_fingerprint body) ch in
  exists w',
    challengeRoutes.verify now h body w
    = (challengeRoutes.VerifySuccess
         {| challengeRoutes.v_score := prisma.score ch';
            challengeRoutes.v_riskLevel := prisma.riskLevel ch';
            challengeRoutes.metadata_botScore := prisma.botScore ch;
            challengeRoutes.metadata_vpnDetected := prisma.vpnDetected ch;
            challengeRoutes.metadata_proxyDetected := prisma.proxyDetected ch;
            challengeRoutes.metadata_torDetected := prisma.torDetected ch;
            challengeRoutes.metadata_abuseScore := prisma.abuseScore ch |}, w') /\
    prisma.challenge (db w') = <[tok := ch']> (prisma.challenge (db w)) /\
    prisma.apiKey (db w') = prisma.apiKey (db w) /\
    cache w' = cache w.
Proof.
  intros Ht Hne Hl Hv He Hk ch'. unfold challengeRoutes.verify.
  rewrite Ht, truthy_Some, or_else_Some, Hl, Hv by done.
  apply Z.ltb_ge in He. rewrite He, Hk.
  eexists. split; [reflexivity|]. cbn. done.
Qed.

(** Verify changes no table but [challenge] and [usage], and in [challenge]
    at most the record of its token, which it replaces by the verified
    record when that record was not verified yet. *)
Lemma verify_tables now h body w :
  cache (challengeRoutes.verify now h body w).2 = cache w /\
  prisma.apiKey (db (challengeRoutes.verify now h body w).2) = prisma.apiKey (db w) /\
  forall t,
    prisma.challenge (db (challengeRoutes.verify now h body w).2) !! t
      = prisma.challenge (db w) !! t \/
    exists ch, prisma.challenge (db w) !! t = Some ch /\ prisma.verified ch = false /\
      prisma.challenge (db (challengeRoutes.verify now h body w).2) !! t
        = Some (verifiedRecord (challengeRoutes.v_fingerprint body) ch).
Proof.
  unfold challengeRoutes.verify.
  destruct (negb (JS.truthy (challengeRoutes.token body))); [by auto|].
  set (tok := JS.or_else (challengeRoutes.token body) "").
  destruct (prisma.challenge (db w) !! tok) as [ch|] eqn:Hl; [|by auto].
  destruct (prisma.verified ch) eqn:Hv; [by auto|].
  destruct (prisma.expiresAt ch <? now); [by auto|].
  destruct (prisma.apiKey (db w) !! prisma.siteKey ch); [|by auto].
  cbn [snd db cache with_usage with_challenge prisma.challenge prisma.apiKey].
  split; [done|]. split; [done|]. intros t.
  destruct (decide (tok = t)) as [<-|Hne].
  - right. exists ch. rewrite lookup_insert_eq. done.
  - left. by rewrite lookup_insert_ne.
Qed.

Section ServiceFacts.
Context `{Platform}.

(** Create adds at most one record to [challenge], under a token that was
    free. *)
Lemma create_tables now cid tok h body w :
  forall t ch, prisma.challenge (db w) !! t = Some ch ->
    prisma.challenge (db (challengeRoutes.create now cid tok h body w).2) !! t = Some ch.
Proof.
  intros t ch Hl. unfold challengeRoutes.create.
  destruct (negb (JS.truthy (challengeRoutes.siteKey body))); [done|].
  destruct (prisma.apiKey (db w) !! _) as [apiKey|]; [|done].
  destruct (negb (prisma.isActive apiKey)); [done|].
  pose proof (untouched_detectAbusePatterns now (challengeRoutes.clientAddress h)
                (challengeRoutes.fingerprintOf h body)
                (Some (JS.or_else (challengeRoutes.siteKey body) "")) w) as (Hch & _ & _).
  destruct (AbuseDetector.detectAbusePatterns _ _ _ _ w) as [abuseCheck w1].
  cbn [snd] in Hch.
  destruct (AbuseDetector.blocked abuseCheck); [cbn [snd]; by rewrite Hch|].
  destruct (IPIntelligence.analyzeIP _ _ (cache w1)) as [ipAnalysis c].
  cbn [db cache with_cache prisma.challenge].
  destruct (prisma.challenge (db w1) !! tok) eqn:Hfree; [cbn; by rewrite Hch|].
  cbn [snd db with_usage with_challenge with_cache prisma.challenge].
  rewrite lookup_insert_ne; [by rewrite Hch|].
  intros ->. rewrite Hch in Hfree. congruence.
Qed.

(** No request changes a verified challenge. *)
Lemma handle_keeps_verified w r tok ch :
  prisma.challenge (db w) !! tok = Some ch -> prisma.verified ch = true ->
  prisma.challenge (db (service.handle w r)) !! tok = Some ch.
Proof.
  intros Hl Hv. destruct r as [now cid t h body|now h body|k u|t v why|now]; cbn [service.handle].
  - by apply create_tables.
  - destruct (verify_tables now h body w) as (_ & _ & Ht).
    destruct (Ht tok) as [->|(ch0 & Hl0 & Hv0 & _)]; [done|]. congruence.
  - done.
  - done.
  - done.
Qed.

Lemma serve_keeps_verified requests w tok ch :
  prisma.challenge (db w) !! tok = Some ch -> prisma.verified ch = true ->
  prisma.challenge (db (service.serve w requests)) !! tok = Some ch.
Proof.
  revert w. induction requests as [|r requests IH]; intros w Hl Hv; [done|].
  cbn. apply IH; [|done]. by apply handle_keeps_verified.
Qed.

Lemma handle_cache_ok w r : cache_ok (cache w) -> cache_ok (cache (service.handle w r)).
Proof.
  intros Hc. destruct r as [now cid t h body|now h body|k u|t v why|now]; cbn [service.handle].
  - by apply create_cache_ok.
  - destruct (verify_tables now h body w) as (-> & _). done.
  - done.
  - cbn. apply cache_ok_set; [done|]. intros a Ha. discriminate.
  - cbn. by apply cache_ok_cleanup.
Qed.

(** From a state with an empty cache the service only reaches states whose
    cached analyses are sound. *)
Lemma serve_cache_ok requests w :
  cache_ok (cache w) -> cache_ok (cache (service.serve w requests)).
Proof.
  revert w. induction requests as [|r requests IH]; intros w Hc; [done|].
  cbn. apply IH. by apply handle_cache_ok.
Qed.

End ServiceFacts.

(** ** The fingerprint builder *)

Lemma list_ascii_of_string_app (s t : string) :
  list_ascii_of_string (s ++ t) = (list_ascii_of_string s ++ list_ascii_of_string t)%list.
Proof. induction s as [|c s IH]; simpl; [reflexivity|]. f_equal. exact IH. Qed.

Lemma append_inv_tail (s1 s2 t : string) : (s1 ++ t = s2 ++ t)%string -> s1 = s2.
Proof.
  intros Heq. apply (f_equal list_ascii_of_string) in Heq.
  rewrite !list_ascii_of_string_app in Heq. apply app_inv_tail in Heq.
  rewrite <- (string_of_list_ascii_of_string s1), <- (string_of_list_ascii_of_string s2).
  by rewrite Heq.
Qed.

Lemma append_inv_head (s t1 t2 : string) : (s ++ t1 = s ++ t2)%string -> t1 = t2.
Proof. induction s as [|c s IH]; cbn; [done|]. intros [= Heq]. auto. Qed.

Lemma append_empty_r (s : string) : (s ++ "")%string = s.
Proof.
  induction s as [|c s IH]; [reflexivity|].
  change (String c (s ++ "")%string = String c s). by rewrite IH.
Qed.

Lemma join_cons sep x l :
  JS.join sep (x :: l) = (x ++ match l with [] => "" | _ => sep ++ JS.join sep l end)%string.
Proof. destruct l; cbn [JS.join]; [|done]. symmetry. apply append_empty_r. Qed.


(** Joining is injective in each single position, whatever the separator
    and whatever the components contain. *)
Lemma join_differ_only_at sep i l1 l2 :
  differ_only_at i l1 l2 -> JS.join sep l1 ≠ JS.join sep l2.
Proof.
  revert i l2. induction l1 as [|x l1 IH]; intros i [|y l2] (Hlen & Hi & Hrest);
    cbn in Hlen; try discriminate.
  - destruct i; cbn in Hi; congruence.
  - rewrite !join_cons. destruct i as [|i].
    + assert (Ht : l1 = l2).
      { apply list_eq. intros j. apply (Hrest (S j)). lia. }
      subst l2. intros Heq. apply append_inv_tail in Heq. cbn in Hi. congruence.
    + assert (Hxy : x = y).
      { specialize (Hrest 0%nat). cbn in Hrest. assert (Some x = Some y) by (apply Hrest; lia).
        congruence. }
      subst y. intros Heq. apply append_inv_head in Heq.
      assert (Hd : differ_only_at i l1 l2).
      { split; [lia|]. split; [exact Hi|]. intros j Hj. apply (Hrest (S j)). lia. }
      destruct l1 as [|x1 l1], l2 as [|y2 l2]; cbn in Hlen; try discriminate.
      * destruct Hd as (_ & Hd & _). destruct i; cbn in Hd; congruence.
      * apply append_inv_head in Heq. by apply (IH i (y2 :: l2)).
Qed.

Lemma components_length data : length (BotDetector.components data) = 8%nat.
Proof. reflexivity. Qed.

(** ** The standalone risk score *)

Lemma fingerprintPoints_bounds data : (0 <= standalone.fingerprintPoints data <= 0.3)%Q.
Proof.
  unfold standalone.fingerprintPoints.
  destruct (standalone.fingerprint data) as [f|]; [destruct (_ || _)|]; lra.
Qed.

Lemma mousePoints_bounds data : (0 <= standalone.mousePoints data <= 0.2)%Q.
Proof.
  unfold standalone.mousePoints.
  destruct (standalone.mouseMovements data) as [m|]; [destruct (_ <? _)%nat|]; lra.
Qed.

Lemma timingPoints_bounds data : (0 <= standalone.timingPoints data <= 0.25)%Q.
Proof.
  unfold standalone.timingPoints.
  destruct (standalone.requestTimings data) as [t|]; [|lra].
  destruct (_ <? _)%nat; [|lra]. destruct (_ || _); lra.
Qed.

(** The cap at 1 is never reached: the score is the sum of the three static
    terms and a tenth of the random number. *)
Lemma calculateRiskScore_sum random data :
  (0 <= random)%Q -> (random < 1)%Q ->
  (standalone.calculateRiskScore random data ==
   standalone.fingerprintPoints data + standalone.mousePoints data +
   standalone.timingPoints data + random * 0.1)%Q.
Proof.
  intros H0 H1. unfold standalone.calculateRiskScore.
  pose proof (fingerprintPoints_bounds data) as [? ?].
  pose proof (mousePoints_bounds data) as [? ?].
  pose proof (timingPoints_bounds data) as [? ?].
  rewrite Q.min_l by lra. lra.
Qed.


(** ** Concurrent rate-limit checks *)

Lemma filter_length_Permutation {A} (p : A -> bool) (l1 l2 : list A) :
  l1 ≡ₚ l2 -> length (List.filter p l1) = length (List.filter p l2).
Proof.
  induction 1 as [|x l1 l2 _ IH|x y l|l1 l2 l3 _ IH1 _ IH2]; cbn.
  - done.
  - destruct (p x); cbn; lia.
  - destruct (p x), (p y); cbn; lia.
  - lia.
Qed.

(** Of the numbers 1 .. n, exactly min(n, m) are at most m. *)
Lemma count_upto (m : Z) (n : nat) :
  0 <= m ->
  length (List.filter (fun v => negb (m <? v)) (Z.of_nat <$> seq 1 n)) = Nat.min n (Z.to_nat m).
Proof.
  intros Hm. induction n as [|n IH]; [done|].
  rewrite seq_S, fmap_app, List.filter_app, length_app, IH.
  change (Z.of_nat <$> [(1 + n)%nat]) with [Z.of_nat (S n)]. cbn [List.filter].
  destruct (m <? Z.of_nat (S n)) eqn:E; cbn [negb length].
  - apply Z.ltb_lt in E. lia.
  - apply Z.ltb_ge in E. lia.
Qed.

Lemma count_above (m : Z) (n : nat) :
  0 <= m ->
  length (List.filter (fun v => m <? v) (Z.of_nat <$> seq 1 n)) = (n - Z.to_nat m)%nat.
Proof.
  intros Hm. induction n as [|n IH]; [done|].
  rewrite seq_S, fmap_app, List.filter_app, length_app, IH.
  change (Z.of_nat <$> [(1 + n)%nat]) with [Z.of_nat (S n)]. cbn [List.filter].
  destruct (m <? Z.of_nat (S n)) eqn:E; cbn [negb length].
  - apply Z.ltb_lt in E. lia.
  - apply Z.ltb_ge in E. lia.
Qed.

(** The window of a time stamp, as bounds on the time stamp. *)
Lemma window_bounds (t W b : Z) :
  0 < W -> t / 1000 / W = b -> b * (W * 1000) <= t < (b + 1) * (W * 1000).
Proof.
  intros HW Hb. rewrite Z.div_div in Hb by lia.
  pose proof (Z.div_mod t (1000 * W) ltac:(lia)) as Hdm.
  pose proof (Z.mod_pos_bound t (1000 * W) ltac:(lia)) as Hmod.
  subst b. nia.
Qed.

Section EventLoopFacts.
Variables (identifier : string) (W maxRequests b : Z).
Hypothesis W_pos : 0 < W.

Local Abbreviation wkey := (windowKey identifier b).
Local Abbreviation invariant := (Inv identifier W maxRequests b).


Lemma lasting_not_expired t item :
  t / 1000 / W = b -> lasting W b item -> redisClient.expired t item = false.
Proof.
  intros Ht Hl. apply window_bounds in Ht; [|done].
  unfold redisClient.expired, lasting in *.
  destruct (expiry item) as [e|]; [|done].
  destruct Hl as [->|He]; [done|].
  apply andb_false_iff. right. apply Z.ltb_ge. lia.
Qed.

Lemma omap_insert_same {A B} (f : A -> option B) (l : list A) i x x' :
  l !! i = Some x -> f x' = f x -> omap f (<[i := x']> l) = omap f l.
Proof.
  intros Hl Hf. rewrite <- (take_drop_middle l i x Hl) at 2.
  rewrite insert_take_drop by (eapply lookup_lt_Some; eauto).
  rewrite !omap_app. cbn. by rewrite Hf.
Qed.

Lemma omap_insert_new {A B} (f : A -> option B) (l : list A) i x x' v :
  l !! i = Some x -> f x = None -> f x' = Some v ->
  omap f (<[i := x']> l) ≡ₚ omap f l ++ [v].
Proof.
  intros Hl Hf Hf'. rewrite <- (take_drop_middle l i x Hl) at 2.
  rewrite insert_take_drop by (eapply lookup_lt_Some; eauto).
  rewrite !omap_app. cbn. rewrite Hf, Hf'.
  rewrite <- app_assoc. apply Permutation_app_head.
  rewrite <- Permutation_cons_append. done.
Qed.

Lemma Forall_insert_ok {A} (P : A -> Prop) (l : list A) i x :
  Forall P l -> P x -> Forall P (<[i := x]> l).
Proof. intros Hl Hx. by apply Forall_insert. Qed.

Lemma rateLimitKey_window t :
  t / 1000 / W = b -> AbuseDetector.rateLimitKey t identifier W = wkey.
Proof. intros Ht. unfold AbuseDetector.rateLimitKey, windowKey. by rewrite Ht. Qed.

Lemma step_Inv e s :
  eventLoop.time e / 1000 / W = b -> invariant s ->
  invariant (eventLoop.step identifier W maxRequests e s).
Proof.
  intros Ht [Hv Hc Hl Hok]. destruct s as [calls c]. cbn [fst snd] in *.
  destruct e as [i t|t]; cbn [eventLoop.step eventLoop.time fst snd] in *.
  - destruct (calls !! i) as [call|] eqn:Hi; [|by split].
    pose proof (Forall_lookup_1 _ _ _ _ Hok Hi) as Hcall.
    destruct call as [|k v|k v|r]; cbn [eventLoop.segment].
    + (* the first segment: the counter is incremented *)
      rewrite (rateLimitKey_window t Ht). cbn [redisClient.incr].
      assert (Hp : omap currentOf
                     (<[i := eventLoop.AfterIncr wkey
                              (redisClient.counterOf (c !! wkey) + 1)]> calls)
                   ≡ₚ omap currentOf calls
                      ++ [redisClient.counterOf (c !! wkey) + 1]).
      { by eapply omap_insert_new. }
      split; cbn [fst snd].
      * rewrite Hp at 1. rewrite Hp, length_app. cbn [length].
        rewrite Nat.add_1_r, seq_S, fmap_app. cbn [fmap list_fmap].
        rewrite Hc. rewrite <- Hv.
        replace (Z.of_nat (1 + length (omap currentOf calls)))
          with (Z.of_nat (length (omap currentOf calls)) + 1) by lia.
        done.
      * rewrite lookup_insert_eq. cbn [redisClient.counterOf value].
        rewrite Hp, length_app. cbn [length]. lia.
      * intros item. rewrite lookup_insert_eq. intros [= <-].
        unfold lasting. cbn [expiry].
        destruct (c !! wkey) as [old|] eqn:Hold; cbn; [|done].
        apply (Hl old eq_refl).
      * by apply Forall_insert_ok.
    + (* the second segment: the expiry is set *)
      cbn in Hcall. subst k.
      assert (Hs : omap currentOf (<[i := eventLoop.AfterExpire wkey v]> calls)
                   = omap currentOf calls).
      { by eapply omap_insert_same. }
      apply window_bounds in Ht; [|done].
      split; cbn [fst snd]; rewrite ?Hs.
      * done.
      * unfold redisClient.expire. destruct (c !! wkey) as [old|] eqn:Hold.
        -- rewrite lookup_insert_eq. cbn [redisClient.counterOf value].
           rewrite <- Hc. by destruct old as [[]].
        -- by rewrite Hold.
      * intros item. unfold redisClient.expire.
        destruct (c !! wkey) as [old|] eqn:Hold.
        -- rewrite lookup_insert_eq. intros [= <-]. unfold lasting. cbn. right. lia.
        -- rewrite Hold. discriminate.
      * by apply Forall_insert_ok.
    + (* the third segment: the result is computed *)
      assert (Hs : omap currentOf
                     (<[i := eventLoop.Returned
                              {| AbuseDetector.limited := maxRequests <? v;
                                 AbuseDetector.current := v;
                                 AbuseDetector.remaining := Z.max 0 (maxRequests - v) |}]>
                        calls)
                   = omap currentOf calls).
      { by eapply omap_insert_same. }
      split; cbn [fst snd]; rewrite ?Hs; try done.
      by apply Forall_insert_ok.
    + rewrite list_insert_id by done. by split.
  - (* the cleanup timer *)
    split; cbn [fst snd]; try done.
    + rewrite <- Hc. unfold redisClient.cleanup.
      destruct (c !! wkey) as [item|] eqn:Hk.
      * rewrite (map_lookup_filter_Some_2 _ _ _ item); [done|done|].
        cbn. by apply lasting_not_expired, Hl.
      * by rewrite map_lookup_filter_None_2; [|left].
    + intros item Hk. apply map_lookup_filter_Some in Hk as [Hk _]. by apply Hl.
Qed.

Lemma run_Inv schedule s :
  inWindow W b schedule -> invariant s ->
  invariant (eventLoop.run identifier W maxRequests schedule s).
Proof.
  revert s. induction schedule as [|e schedule IH]; intros s Hw Hs; [done|].
  apply Forall_cons in Hw as [He Hw]. cbn. apply IH; [done|]. by apply step_Inv.
Qed.

Lemma Inv_initial n c0 :
  c0 !! wkey = None -> invariant (replicate n eventLoop.Fresh, c0).
Proof.
  intros Hk.
  assert (Hnil : omap currentOf (replicate n eventLoop.Fresh) = []).
  { induction n as [|n IH]; [done|]. cbn. exact IH. }
  split; cbn [fst snd]; rewrite ?Hnil, ?Hk; try done.
  apply Forall_replicate. done.
Qed.

End EventLoopFacts.

Lemma returned_counts identifier maxRequests b calls :
  Forall (call_ok identifier maxRequests b) calls ->
  eventLoop.allReturned calls ->
  eventLoop.allowed calls
    = length (List.filter (fun v => negb (maxRequests <? v)) (omap currentOf calls)) /\
  eventLoop.flagged calls
    = length (List.filter (fun v => maxRequests <? v) (omap currentOf calls)) /\
  length (omap currentOf calls) = length calls.
Proof.
  unfold eventLoop.allowed, eventLoop.flagged, eventLoop.allReturned.
  induction calls as [|call calls IH]; intros Hok Hret; [done|].
  apply Forall_cons in Hok as [Hcall Hok]. apply Forall_cons in Hret as [[r Hr] Hret].
  destruct (IH Hok Hret) as (IH1 & IH2 & IH3).
  destruct call as [| | |r']; try discriminate. cbn in Hcall.
  cbn [omap list_omap eventLoop.result currentOf List.filter].
  rewrite Hcall. destruct (maxRequests <? AbuseDetector.current r'); cbn [negb length]; lia.
Qed.

Lemma step_length identifier W maxRequests e (s : list eventLoop.Call * gmap string CacheItem) :
  length (eventLoop.step identifier W maxRequests e s).1 = length s.1.
Proof.
  destruct e as [i t|t], s as [calls c]; cbn [eventLoop.step fst snd]; [|done].
  destruct (calls !! i) as [call|]; [|done].
  destruct (eventLoop.segment _ _ _ _ _ _). cbn [fst]. apply length_insert.
Qed.

Lemma run_length identifier W maxRequests schedule
    (s : list eventLoop.Call * gmap string CacheItem) :
  length (eventLoop.run identifier W maxRequests schedule s).1 = length s.1.
Proof.
  revert s. induction schedule as [|e schedule IH]; intros s; [done|].
  change (eventLoop.run identifier W maxRequests (e :: schedule) s)
    with (eventLoop.run identifier W maxRequests schedule
            (eventLoop.step identifier W maxRequests e s)).
  rewrite IH. apply step_length.
Qed.

Lemma segment_progress identifier W maxRequests now call c :
  eventLoop.progress (eventLoop.segment identifier W maxRequests now call c).1
  = Nat.min 3 (S (eventLoop.progress call)).
Proof. by destruct call. Qed.

(** A call has run as many segments as the schedule has resumed it, up to
    its three. *)
Lemma run_progress identifier W maxRequests schedule s i call :
  s.1 !! i = Some call ->
  exists call',
    (eventLoop.run identifier W maxRequests schedule s).1 !! i = Some call' /\
    eventLoop.progress call'
    = Nat.min 3 (eventLoop.progress call + eventLoop.resumes i schedule).
Proof.
  revert s call. induction schedule as [|e schedule IH]; intros s call Hi.
  - exists call. split; [done|]. unfold eventLoop.resumes. cbn.
    destruct call; cbn; lia.
  - change (eventLoop.run identifier W maxRequests (e :: schedule) s)
      with (eventLoop.run identifier W maxRequests schedule
              (eventLoop.step identifier W maxRequests e s)).
    destruct s as [calls c]. cbn [fst] in Hi.
    destruct e as [j t|t].
    + destruct (decide (j = i)) as [->|Hne].
      * cbn [eventLoop.step fst snd]. rewrite Hi.
        pose proof (segment_progress identifier W maxRequests t call c) as Hp.
        destruct (eventLoop.segment identifier W maxRequests t call c) as [call1 c1].
        cbn [fst] in Hp.
        destruct (IH (<[i := call1]> calls, c1) call1) as (call' & Hl & Hprog).
        { cbn [fst]. apply list_lookup_insert_eq. by eapply lookup_lt_Some. }
        exists call'. split; [exact Hl|]. rewrite Hprog, Hp.
        unfold eventLoop.resumes. cbn [List.filter]. rewrite Nat.eqb_refl.
        cbn [length]. lia.
      * destruct (IH (eventLoop.step identifier W maxRequests (eventLoop.Resume j t)
                        (calls, c)) call) as (call' & Hl & Hprog).
        { cbn [eventLoop.step fst snd].
          destruct (calls !! j) as [callj|]; [|done].
          destruct (eventLoop.segment identifier W maxRequests t callj c) as [call1 c1].
          cbn [fst]. by rewrite list_lookup_insert_ne. }
        exists call'. split; [exact Hl|]. rewrite Hprog.
        unfold eventLoop.resumes. cbn [List.filter].
        replace (Nat.eqb i j) with false by (symmetry; apply Nat.eqb_neq; congruence).
        done.
    + destruct (IH (eventLoop.step identifier W maxRequests (eventLoop.Cleanup t)
                      (calls, c)) call) as (call' & Hl & Hprog); [done|].
      exists call'. split; [exact Hl|]. by rewrite Hprog.
Qed.

(** Under a complete schedule every call returns. *)
Lemma complete_allReturned identifier W maxRequests n schedule c :
  eventLoop.complete n schedule = true ->
  eventLoop.allReturned
    (eventLoop.run identifier W maxRequests schedule (replicate n eventLoop.Fresh, c)).1.
Proof.
  intros Hcomplete. unfold eventLoop.allReturned. apply Forall_lookup_2.
  intros i call' Hi.
  assert (Hlt : (i < n)%nat).
  { apply lookup_lt_Some in Hi. rewrite run_length in Hi. cbn [fst] in Hi.
    by rewrite length_replicate in Hi. }
  destruct (run_progress identifier W maxRequests schedule
              (replicate n eventLoop.Fresh, c) i eventLoop.Fresh)
    as (call'' & Hl & Hprog).
  { cbn [fst]. by apply lookup_replicate_2. }
  assert (call'' = call') as -> by congruence.
  unfold eventLoop.complete in Hcomplete. rewrite forallb_forall in Hcomplete.
  specialize (Hcomplete i). rewrite Nat.leb_le in Hcomplete.
  assert (3 <= eventLoop.resumes i schedule)%nat
    by (apply Hcomplete, in_seq; lia).
  cbn [eventLoop.progress Nat.add] in Hprog.
  destruct call' as [| | |r]; cbn [eventLoop.progress] in Hprog; try lia.
  exists r. reflexivity.
Qed.


(** C9 as stated, refuted: the window does not slide.  A burst of 31 calls
    within 200 ms, 15 of them just before the end of a minute and 16 just
    after it, is counted under two keys: every call returns and all 31 are
    reported as allowed. *)
Lemma burst_across_the_minute_all_allowed :
  let final := eventLoop.run ("ip:" ++ "203.0.113.7") 60 30 scenario.burst
                 (replicate 31 eventLoop.Fresh, ∅) in
  eventLoop.complete 31 scenario.burst = true /\
  eventLoop.allowed final.1 = 31%nat /\
  eventLoop.flagged final.1 = 0%nat.
Proof. vm_compute. auto. Qed.

(** The calls do return: run one after the other, each call reaches its
    result, so schedules that let all calls return exist for every [N]. *)
Lemma resume_middle identifier W maxRequests now (pre : list eventLoop.Call) call rest c :
  eventLoop.step identifier W maxRequests (eventLoop.Resume (length pre) now)
    ((pre ++ call :: rest)%list, c)
  = ((pre ++ (eventLoop.segment identifier W maxRequests now call c).1 :: rest)%list,
     (eventLoop.segment identifier W maxRequests now call c).2).
Proof.
  cbn [eventLoop.step fst snd]. rewrite list_lookup_middle by done.
  destruct (eventLoop.segment _ _ _ _ _ _) as [call' c']. cbn [fst snd].
  replace (length pre) with (length pre + 0)%nat by lia.
  by rewrite insert_app_r.
Qed.

Lemma run_app identifier W maxRequests sch1 sch2 s :
  eventLoop.run identifier W maxRequests (sch1 ++ sch2) s
  = eventLoop.run identifier W maxRequests sch2
      (eventLoop.run identifier W maxRequests sch1 s).
Proof. unfold eventLoop.run. apply fold_left_app. Qed.

Lemma sequential_from identifier W maxRequests now k (pre : list eventLoop.Call) c :
  Forall (fun call => is_Some (eventLoop.result call)) pre ->
  eventLoop.allReturned
    (eventLoop.run identifier W maxRequests
       (flat_map (fun i => [eventLoop.Resume i now; eventLoop.Resume i now;
                            eventLoop.Resume i now]) (seq (length pre) k))
       ((pre ++ replicate k eventLoop.Fresh)%list, c)).1.
Proof.
  revert pre c. induction k as [|k IH]; intros pre c Hpre.
  - cbn. by rewrite app_nil_r.
  - cbn [seq flat_map replicate]. rewrite run_app.
    cbn [eventLoop.run fold_left].
    rewrite !resume_middle. cbn [eventLoop.segment redisClient.incr fst snd].
    set (r := eventLoop.Returned _). set (c' := redisClient.expire _ _ _ _).
    replace (pre ++ r :: replicate k eventLoop.Fresh)%list
      with ((pre ++ [r]) ++ replicate k eventLoop.Fresh)%list by by rewrite <- app_assoc.
    replace (S (length pre)) with (length (pre ++ [r])%list)
      by (rewrite length_app; cbn; lia).
    apply IH. apply Forall_app_2; [done|]. apply Forall_cons. split; [by eexists|done].
Qed.

Lemma sequential_allReturned identifier W maxRequests now n c :
  eventLoop.allReturned
    (eventLoop.run identifier W maxRequests (eventLoop.sequential now n)
       (replicate n eventLoop.Fresh, c)).1.
Proof. apply (sequential_from identifier W maxRequests now n [] c). done. Qed.



(** ** Single use, expiry and fingerprint drift of a challenge *)




(** *** Overlapping verify calls

    The handler run without interruption is the function [verify]. *)
Lemma uninterrupted_verify now h body w :
  verifyLoop.uninterrupted now h body w
  = (verifyLoop.Responded (challengeRoutes.verify now h body w).1,
     (challengeRoutes.verify now h body w).2).
Proof.
  unfold verifyLoop.uninterrupted, challengeRoutes.verify. unfold Nat.iter.
  cbn [nat_rect].
  cbn [nat_rect verifyLoop.segment fst snd].
  destruct (negb (JS.truthy (challengeRoutes.token body))); [reflexivity|].
  cbn [nat_rect verifyLoop.segment fst snd].
  destruct (prisma.challenge (db w) !! _) as [ch|] eqn:Hl; [|reflexivity].
  destruct (prisma.verified ch); [reflexivity|].
  destruct (prisma.expiresAt ch <? now); [reflexivity|].
  cbn [nat_rect verifyLoop.segment fst snd].
  destruct (prisma.apiKey (db w) !! prisma.siteKey ch); [|reflexivity].
  cbn [nat_rect verifyLoop.segment fst snd]. rewrite Hl.
  cbn [nat_rect verifyLoop.segment fst snd]. reflexivity.
Qed.

(** The segments of a call that succeeds. *)
Lemma segment_received now h tok fp w :
  tok ≠ "" ->
  verifyLoop.segment now (verifyLoop.Received h (verifyRequest tok fp)) w
  = (verifyLoop.AwaitChallenge h tok fp, w).
Proof.
  intros Htok. cbn [verifyLoop.segment verifyRequest challengeRoutes.token
                    challengeRoutes.v_fingerprint].
  rewrite truthy_Some, or_else_Some by done. reflexivity.
Qed.

Lemma segment_challenge now h tok fp w ch :
  prisma.challenge (db w) !! tok = Some ch ->
  prisma.verified ch = false ->
  now <= prisma.expiresAt ch ->
  verifyLoop.segment now (verifyLoop.AwaitChallenge h tok fp) w
  = (verifyLoop.AwaitApiKey h tok ch (prisma.score (verifiedRecord fp ch))
                            (prisma.riskLevel (verifiedRecord fp ch)), w).
Proof.
  intros Hl Hv He. apply Z.ltb_ge in He.
  cbn [verifyLoop.segment]. rewrite Hl, Hv, He. reflexivity.
Qed.

Lemma segment_apiKey now h tok ch s l w apiKey :
  prisma.apiKey (db w) !! prisma.siteKey ch = Some apiKey ->
  verifyLoop.segment now (verifyLoop.AwaitApiKey h tok ch s l) w
  = (verifyLoop.AwaitUpdate h tok ch s l apiKey, w).
Proof. intros Hk. cbn [verifyLoop.segment]. rewrite Hk. reflexivity. Qed.

Lemma segment_update now h tok ch s l apiKey w current :
  prisma.challenge (db w) !! tok = Some current ->
  verifyLoop.segment now (verifyLoop.AwaitUpdate h tok ch s l apiKey) w
  = (verifyLoop.AwaitUsage h ch (verifyLoop.update current s l) apiKey,
     with_challenge w (<[tok := verifyLoop.update current s l]> (prisma.challenge (db w)))).
Proof. intros Hl. cbn [verifyLoop.segment]. rewrite Hl. reflexivity. Qed.

Section Race.
Context `{Platform}.

Lemma step_resume_0 now c0 c1 w :
  verifyLoop.step (verifyLoop.Resume 0 now) ([c0; c1], w)
  = ([(verifyLoop.segment now c0 w).1; c1], (verifyLoop.segment now c0 w).2).
Proof. reflexivity. Qed.

Lemma step_resume_1 now c0 c1 w :
  verifyLoop.step (verifyLoop.Resume 1 now) ([c0; c1], w)
  = ([c0; (verifyLoop.segment now c1 w).1], (verifyLoop.segment now c1 w).2).
Proof. reflexivity. Qed.

(** C1, code defect.  Two verify calls for the same unverified, unexpired
    challenge that overlap, each reading the record before the other has
    written it, both succeed: each is answered [success: true] with the
    score it has computed from the record it read, the second write
    replaces the score and risk level stored by the first, and two usage
    rows are logged.  The same two calls run one after the other give one
    success and one 400 'Challenge already verified'.  The last part ties
    the segments to the handler: run without interruption they are
    [verify]. *)
Theorem overlapping_verifies_both_succeed :
  forall now0 now1 h0 h1 tok fp0 fp1 w ch apiKey,
    tok ≠ "" ->
    prisma.challenge (db w) !! tok = Some ch ->
    prisma.verified ch = false ->
    now0 <= prisma.expiresAt ch -> now1 <= prisma.expiresAt ch ->
    prisma.apiKey (db w) !! prisma.siteKey ch = Some apiKey ->
    let calls := [verifyLoop.Received h0 (verifyRequest tok fp0);
                  verifyLoop.Received h1 (verifyRequest tok fp1)] in
    let overlapped := verifyLoop.run (verifyLoop.alternating now0 now1) (calls, w) in
    let oneByOne :=
      verifyLoop.run (replicate 5 (verifyLoop.Resume 0 now0) ++
                      replicate 5 (verifyLoop.Resume 1 now1)) (calls, w) in
    (overlapped.1 = [verifyLoop.Responded (successOf fp0 ch);
                     verifyLoop.Responded (successOf fp1 ch)] /\
     prisma.challenge (db overlapped.2) !! tok = Some (verifiedRecord fp1 ch) /\
     length (prisma.usage (db overlapped.2)) = S (S (length (prisma.usage (db w))))) /\
    (oneByOne.1 = [verifyLoop.Responded (successOf fp0 ch);
                   verifyLoop.Responded
                     (challengeRoutes.VerifyFailure 400 "Challenge already verified")] /\
     prisma.challenge (db oneByOne.2) !! tok = Some (verifiedRecord fp0 ch)) /\
    (forall now h body w0,
       verifyLoop.uninterrupted now h body w0
       = (verifyLoop.Responded (challengeRoutes.verify now h body w0).1,
          (challengeRoutes.verify now h body w0).2)).
Proof.
  intros now0 now1 h0 h1 tok fp0 fp1 w ch apiKey Htok Hl Hv He0 He1 Hk calls overlapped oneByOne.
  split; [|split; [|apply uninterrupted_verify]].
  - subst calls overlapped. clear oneByOne.
    unfold verifyLoop.alternating, verifyLoop.run.
    cbn [flat_map seq app fold_left].
    rewrite step_resume_0, segment_received by done. cbn [fst snd].
    rewrite step_resume_1, segment_received by done. cbn [fst snd].
    rewrite step_resume_0, (segment_challenge now0 h0 tok fp0 w ch) by done. cbn [fst snd].
    rewrite step_resume_1, (segment_challenge now1 h1 tok fp1 w ch) by done. cbn [fst snd].
    rewrite step_resume_0, (segment_apiKey now0 h0 tok ch _ _ w apiKey) by done. cbn [fst snd].
    rewrite step_resume_1, (segment_apiKey now1 h1 tok ch _ _ w apiKey) by done. cbn [fst snd].
    rewrite step_resume_0, (segment_update now0 h0 tok ch _ _ apiKey w ch) by done.
    cbn [fst snd].
    rewrite step_resume_1.
    erewrite segment_update
      by (cbn [with_challenge db prisma.challenge]; apply lookup_insert_eq).
    cbn [fst snd].
    rewrite !step_resume_0. cbn [verifyLoop.segment fst snd].
    rewrite !step_resume_1. cbn [verifyLoop.segment fst snd].
    cbn [with_challenge with_usage db prisma.challenge prisma.usage].
    split; [reflexivity|]. split.
    + rewrite lookup_insert_eq. reflexivity.
    + rewrite !length_app. cbn. lia.
  - subst calls oneByOne. clear overlapped.
    unfold verifyLoop.run. cbn [replicate app fold_left].
    rewrite step_resume_0, segment_received by done. cbn [fst snd].
    rewrite step_resume_0, (segment_challenge now0 h0 tok fp0 w ch) by done. cbn [fst snd].
    rewrite step_resume_0, (segment_apiKey now0 h0 tok ch _ _ w apiKey) by done. cbn [fst snd].
    rewrite step_resume_0, (segment_update now0 h0 tok ch _ _ apiKey w ch) by done.
    cbn [fst snd].
    rewrite !step_resume_0. cbn [verifyLoop.segment fst snd].
    rewrite step_resume_1, segment_received by done. cbn [fst snd].
    rewrite step_resume_1.
    cbn [verifyLoop.segment with_challenge with_usage db prisma.challenge fst snd].
    rewrite lookup_insert_eq.
    cbn [verifyLoop.update prisma.verified fst snd].
    rewrite !step_resume_1. cbn [verifyLoop.segment fst snd].
    split; [reflexivity|].
    cbn [with_challenge with_usage db prisma.challenge]. rewrite lookup_insert_eq. reflexivity.
Qed.

End Race.

(** C1 at a concrete input: a challenge of score 90 and two overlapping
    verifies, the second with another fingerprint.  The first caller is told
    score 90, the second 70 and HIGH, and 70 and HIGH stay in the store. *)
Lemma overlapping_verifies_both_succeed_witness :
  let calls := [verifyLoop.Received (example.headers "Mozilla/5.0") (verifyRequest "tok-1" None);
                verifyLoop.Received (example.headers "Mozilla/5.0")
                  (verifyRequest "tok-1" (Some "fp-other"))] in
  let w := example.worldWith (example.challenge 90 false 301000) in
  let overlapped := @verifyLoop.run example.platform (verifyLoop.alternating 2000 2001) (calls, w) in
  exists r0 r1 stored,
    overlapped.1 = [verifyLoop.Responded (challengeRoutes.VerifySuccess r0);
                    verifyLoop.Responded (challengeRoutes.VerifySuccess r1)] /\
    challengeRoutes.v_score r0 = 90 /\
    challengeRoutes.v_score r1 = 70 /\ challengeRoutes.v_riskLevel r1 = HIGH /\
    prisma.challenge (db overlapped.2) !! "tok-1" = Some stored /\
    prisma.score stored = 70 /\ prisma.riskLevel stored = HIGH.
Proof.
  destruct (@overlapping_verifies_both_succeed example.platform 2000 2001
              (example.headers "Mozilla/5.0") (example.headers "Mozilla/5.0") "tok-1"
              None (Some "fp-other")
              (example.worldWith (example.challenge 90 false 301000))
              (example.challenge 90 false 301000)
              {| prisma.id := "key1"; prisma.userId := "user1"; prisma.isActive := true |})
    as ((H1 & H2 & _) & _ & _).
  - discriminate.
  - reflexivity.
  - reflexivity.
  - vm_compute. discriminate.
  - vm_compute. discriminate.
  - reflexivity.
  - cbv zeta. eexists _, _, _. split; [exact H1|].
    split; [reflexivity|]. split; [reflexivity|]. split; [reflexivity|].
    split; [exact H2|]. split; reflexivity.
Defined.

(** C2 as stated, refuted: a verify made after the expiry of a challenge
    that was verified in time is answered 'Challenge already verified', not
    'Challenge expired'. *)
Lemma verify_after_expiry_of_verified_is_not_expired :
  prisma.expiresAt (example.challenge 90 true 301000) < 400000 /\
  challengeRoutes.verify 400000 (example.headers "Mozilla/5.0")
    (verifyRequest "tok-1" None) (example.worldWith (example.challenge 90 true 301000))
  = (challengeRoutes.VerifyFailure 400 "Challenge already verified",
     example.worldWith (example.challenge 90 true 301000)).
Proof. split; vm_compute; reflexivity. Qed.

(** C2, amended.  A verify made strictly after [expiresAt] of a stored
    challenge always fails with status 400 and changes nothing, whatever the
    fingerprint and the API keys: with 'Challenge expired' when the challenge
    was not verified, with 'Challenge already verified' when it was. *)
Theorem verify_after_expiry :
  forall now h body w tok ch,
    challengeRoutes.token body = Some tok -> tok ≠ "" ->
    prisma.challenge (db w) !! tok = Some ch ->
    prisma.expiresAt ch < now ->
    challengeRoutes.verify now h body w
    = (challengeRoutes.VerifyFailure 400
         (if prisma.verified ch then "Challenge already verified" else "Challenge expired"),
       w).
Proof.
  intros now h body w tok ch Ht Htok Hl He.
  destruct (prisma.verified ch) eqn:Hv.
  - by eapply verify_already_verified.
  - by eapply verify_expired.
Qed.

(** C2 amended, at a concrete input: 301 seconds after the creation of a
    challenge that lives 300 seconds. *)
Lemma verify_after_expiry_witness :
  challengeRoutes.verify 302000 (example.headers "Mozilla/5.0")
    (verifyRequest "tok-1" (Some "fp-browser-1"))
    (example.worldWith (example.challenge 90 false 301000))
  = (challengeRoutes.VerifyFailure 400 "Challenge expired",
     example.worldWith (example.challenge 90 false 301000)).
Proof.
  apply (verify_after_expiry 302000 (example.headers "Mozilla/5.0")
           (verifyRequest "tok-1" (Some "fp-browser-1"))
           (example.worldWith (example.challenge 90 false 301000)) "tok-1"
           (example.challenge 90 false 301000)).
  - reflexivity.
  - discriminate.
  - reflexivity.
  - reflexivity.
Defined.

(** C3 as stated, refuted twice.  An empty fingerprint is supplied and
    differs from the stored one, yet the score stays 90 and the risk level
    LOW; and with the API key of the site deleted, a verify with a different
    fingerprint is answered 401 instead of succeeding. *)
Lemma verify_mismatch_not_always_downgraded :
  (exists w',
     challengeRoutes.verify 2000 (example.headers "Mozilla/5.0")
       (verifyRequest "tok-1" (Some ""))
       (example.worldWith (example.challenge 90 false 301000))
     = (challengeRoutes.VerifySuccess
          {| challengeRoutes.v_score := 90;
             challengeRoutes.v_riskLevel := LOW;
             challengeRoutes.metadata_botScore := 10;
             challengeRoutes.metadata_vpnDetected := false;
             challengeRoutes.metadata_proxyDetected := false;
             challengeRoutes.metadata_torDetected := false;
             challengeRoutes.metadata_abuseScore := 0 |}, w')) /\
  challengeRoutes.verify 2000 (example.headers "Mozilla/5.0")
    (verifyRequest "tok-1" (Some "fp-other")) example.orphanedWorld
  = (challengeRoutes.VerifyFailure 401 "Invalid API configuration", example.orphanedWorld).
Proof. split; [eexists|]; vm_compute; reflexivity. Qed.

(** C3, amended.  For a stored, unverified, unexpired challenge whose site
    key still has its API key record, a verify that supplies a non-empty
    fingerprint different from the stored one succeeds; the score it returns
    and stores is [max(0, score - 20)], the risk level HIGH, and the record
    is marked verified.  A score of 90 becomes 70. *)
Theorem verify_fingerprint_mismatch :
  forall now h tok fp w ch apiKey,
    tok ≠ "" ->
    prisma.challenge (db w) !! tok = Some ch ->
    prisma.verified ch = false ->
    now <= prisma.expiresAt ch ->
    prisma.apiKey (db w) !! prisma.siteKey ch = Some apiKey ->
    fp ≠ "" ->
    fp ≠ prisma.fingerprint ch ->
    exists w' ch',
      challengeRoutes.verify now h (verifyRequest tok (Some fp)) w
      = (challengeRoutes.VerifySuccess
           {| challengeRoutes.v_score := Z.max 0 (prisma.score ch - 20);
              challengeRoutes.v_riskLevel := HIGH;
              challengeRoutes.metadata_botScore := prisma.botScore ch;
              challengeRoutes.metadata_vpnDetected := prisma.vpnDetected ch;
              challengeRoutes.metadata_proxyDetected := prisma.proxyDetected ch;
              challengeRoutes.metadata_torDetected := prisma.torDetected ch;
              challengeRoutes.metadata_abuseScore := prisma.abuseScore ch |}, w') /\
      prisma.challenge (db w') !! tok = Some ch' /\
      prisma.score ch' = Z.max 0 (prisma.score ch - 20) /\
      prisma.riskLevel ch' = HIGH /\
      prisma.verified ch' = true /\
      (prisma.score ch = 90 -> prisma.score ch' = 70).
Proof.
  intros now h tok fp w ch apiKey Htok Hl Hv He Hk Hfp Hdiff.
  destruct (verify_success now h (verifyRequest tok (Some fp)) w tok ch apiKey
              eq_refl Htok Hl Hv He Hk) as (w' & Hr & Hch & _ & _).
  assert (Hm : mismatch (Some fp) ch = true).
  { unfold mismatch. rewrite truthy_Some, or_else_Some by done. cbn.
    apply negb_true_iff, String.eqb_neq. exact Hdiff. }
  cbn [challengeRoutes.v_fingerprint verifyRequest] in Hr, Hch.
  cbn [verifiedRecord prisma.score prisma.riskLevel] in Hr. rewrite Hm in Hr.
  exists w', (verifiedRecord (Some fp) ch). split; [exact Hr|].
  split; [rewrite Hch; apply lookup_insert_eq|].
  cbn [verifiedRecord prisma.score prisma.riskLevel prisma.verified]. rewrite Hm.
  repeat split. intros ->. reflexivity.
Qed.

(** C3 amended, at the scenario of the specification: score 90, another
    fingerprint. *)
Lemma verify_fingerprint_mismatch_witness :
  exists w' ch',
    challengeRoutes.verify 2000 (example.headers "Mozilla/5.0")
      (verifyRequest "tok-1" (Some "fp-other"))
      (example.worldWith (example.challenge 90 false 301000))
    = (challengeRoutes.VerifySuccess
         {| challengeRoutes.v_score := 70;
            challengeRoutes.v_riskLevel := HIGH;
            challengeRoutes.metadata_botScore := 10;
            challengeRoutes.metadata_vpnDetected := false;
            challengeRoutes.metadata_proxyDetected := false;
            challengeRoutes.metadata_torDetected := false;
            challengeRoutes.metadata_abuseScore := 0 |}, w') /\
    prisma.challenge (db w') !! "tok-1" = Some ch' /\
    prisma.score ch' = 70 /\
    prisma.riskLevel ch' = HIGH /\
    prisma.verified ch' = true /\
    (90 = 90 -> prisma.score ch' = 70).
Proof.
  apply (verify_fingerprint_mismatch 2000 (example.headers "Mozilla/5.0") "tok-1" "fp-other"
           (example.worldWith (example.challenge 90 false 301000))
           (example.challenge 90 false 301000)
           {| prisma.id := "key1"; prisma.userId := "user1"; prisma.isActive := true |}).
  - discriminate.
  - reflexivity.
  - reflexivity.
  - vm_compute. discriminate.
  - reflexivity.
  - discriminate.
  - discriminate.
Defined.

(** ** Bounds of the scores *)

(** C4.  The score of the behavioral analyzer lies in [0,100]; the abuse
    score returned by the IP aggregator lies in [0,100], on a cache miss and
    on a cache hit; the score that a successful create returns and stores is
    [100 - round(botScore * 0.6 + abuseScore * 0.4)] of the stored components
    and lies in [0,100].  The hypothesis [cache_ok], that the analyses held
    by the cache are in range, is an invariant: it holds in every state the
    service reaches from a state with an empty cache. *)
Theorem score_bounds `{Platform} :
  (forall data, 0 <= score (BotDetector.analyzeBotBehavior data) <= 100) /\
  (forall now ip c, cache_ok c ->
     0 <= abuseScore (IPIntelligence.analyzeIP now ip c).1 <= 100) /\
  (forall now cid tok h body w r w',
     cache_ok (cache w) ->
     challengeRoutes.create now cid tok h body w = (challengeRoutes.CreateSuccess r, w') ->
     0 <= challengeRoutes.metadata_score r <= 100 /\
     exists ch, prisma.challenge (db w') !! tok = Some ch /\
       prisma.score ch = challengeRoutes.metadata_score r /\
       prisma.score ch
         = 100 - challengeRoutes.overallScoreOf (prisma.botScore ch) (prisma.abuseScore ch) /\
       0 <= prisma.botScore ch <= 100 /\
       0 <= prisma.abuseScore ch <= 100) /\
  (forall w0 requests, cache w0 = ∅ -> cache_ok (cache (service.serve w0 requests))).
Proof.
  split; [apply analyzeBotBehavior_score_bounds|].
  split; [intros now ip c Hc; by apply analyzeIP_bounds|].
  split; [|intros w0 requests H0; apply serve_cache_ok; rewrite H0; apply cache_ok_empty].
  intros now cid tok h body w r w' Hc Hcreate.
  apply create_success_inv in Hcreate.
  cbv zeta in Hcreate.
  destruct Hcreate as (_ & -> & _ & ch & Hl & Hs & Hb & Ha & _).
  pose proof (analyzeBotBehavior_score_bounds (challengeRoutes.botInput h body)) as Hbot.
  pose proof (untouched_detectAbusePatterns now (challengeRoutes.clientAddress h)
                (challengeRoutes.fingerprintOf h body)
                (Some (JS.or_else (challengeRoutes.siteKey body) "")) w) as (_ & _ & Hok).
  pose proof (analyzeIP_bounds now (challengeRoutes.clientAddress h) _ (Hok Hc)) as [Hip _].
  pose proof (overallScoreOf_bounds _ _ Hbot Hip) as Hov.
  cbn [challengeRoutes.metadata_score]. split; [lia|].
  exists ch. rewrite Hs, Hb, Ha. repeat split; try done; lia.
Qed.

(** C4 at a concrete input: the create of the curl request on the example
    state. *)
Lemma score_bounds_witness :
  0 <= challengeRoutes.metadata_score
         {| challengeRoutes.challengeId := "c-1";
            challengeRoutes.c_token := "tok-1";
            challengeRoutes.requiresInteraction := true;
            challengeRoutes.expiresAt := 301000;
            challengeRoutes.metadata_score := 68;
            challengeRoutes.metadata_riskLevel := high |} <= 100.
Proof.
  eapply (proj1 (proj2 (proj2 (@score_bounds example.platform))) 1000 "c-1" "tok-1"
            (example.headers "Mozilla/5.0") example.curlBody example.world).
  - apply cache_ok_empty.
  - vm_compute. reflexivity.
Defined.

(** C5.  A create request with an empty mouse trace, an empty keystroke
    trace and the user agent curl/8.0, from any address: the bot score is at
    least 45 (it is between 53 and 73), the risk level is medium or higher
    (it is high), and with any abuse score in [0,100] the overall score
    exceeds 30.  Every successful answer to such a request carries
    [requiresInteraction = true]; and the answer is successful, with
    [requiresInteraction = true], whenever the site key is registered and
    active, the abuse detector does not block the request and the token is
    fresh. *)
Theorem curl_request_requires_interaction `{Platform} :
  forall h body,
    challengeRoutes.user_agent h = Some "curl/8.0" ->
    challengeRoutes.mouseMovements body = Some [] ->
    challengeRoutes.keystrokes body = Some [] ->
    let bot := BotDetector.analyzeBotBehavior (challengeRoutes.botInput h body) in
    45 <= score bot /\
    (riskLevel bot = medium \/ riskLevel bot = high \/ riskLevel bot = critical) /\
    (forall abuse shouldChallenge, 0 <= abuse <= 100 ->
       (30 <? challengeRoutes.overallScoreOf (score bot) abuse) || shouldChallenge = true) /\
    (forall now cid tok w r w',
       cache_ok (cache w) ->
       challengeRoutes.create now cid tok h body w = (challengeRoutes.CreateSuccess r, w') ->
       challengeRoutes.requiresInteraction r = true /\
       challengeRoutes.metadata_riskLevel r = riskLevel bot /\
       exists ch, prisma.challenge (db w') !! tok = Some ch /\ prisma.botScore ch = score bot) /\
    (forall now cid tok w apiKey,
       cache_ok (cache w) ->
       JS.truthy (challengeRoutes.siteKey body) = true ->
       prisma.apiKey (db w) !! JS.or_else (challengeRoutes.siteKey body) "" = Some apiKey ->
       prisma.isActive apiKey = true ->
       AbuseDetector.blocked
         (AbuseDetector.detectAbusePatterns now (challengeRoutes.clientAddress h)
            (challengeRoutes.fingerprintOf h body)
            (Some (JS.or_else (challengeRoutes.siteKey body) "")) w).1 = false ->
       prisma.challenge (db w) !! tok = None ->
       exists r w',
         challengeRoutes.create now cid tok h body w = (challengeRoutes.CreateSuccess r, w') /\
         challengeRoutes.requiresInteraction r = true /\
         challengeRoutes.metadata_riskLevel r = riskLevel bot /\
         exists ch, prisma.challenge (db w') !! tok = Some ch /\
                    prisma.botScore ch = score bot).
Proof.
  intros h body Hua Hm Hk bot.
  destruct (curl_analysis (challengeRoutes.botInput h body)) as [Hscore Hrisk].
  { cbn. unfold challengeRoutes.userAgentOf. by rewrite Hua. }
  { exact Hm. }
  { exact Hk. }
  { reflexivity. }
  fold bot in Hscore, Hrisk.
  assert (Hover : forall abuse, 0 <= abuse ->
            (30 <? challengeRoutes.overallScoreOf (score bot) abuse) = true).
  { intros abuse Ha. apply Z.ltb_lt. apply overallScoreOf_above_30; lia. }
  assert (Hsuccess : forall now cid tok w r w',
            cache_ok (cache w) ->
            challengeRoutes.create now cid tok h body w
            = (challengeRoutes.CreateSuccess r, w') ->
            challengeRoutes.requiresInteraction r = true /\
            challengeRoutes.metadata_riskLevel r = riskLevel bot /\
            exists ch, prisma.challenge (db w') !! tok = Some ch /\
                       prisma.botScore ch = score bot).
  { intros now cid tok w r w' Hc Hcreate.
    apply create_success_inv in Hcreate. cbv zeta in Hcreate.
    destruct Hcreate as (_ & -> & _ & ch & Hl & _ & Hb & _).
    pose proof (untouched_detectAbusePatterns now (challengeRoutes.clientAddress h)
                  (challengeRoutes.fingerprintOf h body)
                  (Some (JS.or_else (challengeRoutes.siteKey body) "")) w) as (_ & _ & Hok).
    pose proof (analyzeIP_bounds now (challengeRoutes.clientAddress h) _ (Hok Hc))
      as [Hip _].
    cbn [challengeRoutes.requiresInteraction challengeRoutes.metadata_riskLevel].
    fold bot. rewrite Hover by lia. split; [done|]. split; [done|]. by exists ch. }
  split; [lia|]. split; [by auto|].
  split; [intros abuse sc [Ha _]; by rewrite Hover|].
  split; [exact Hsuccess|].
  intros now cid tok w apiKey Hc Hsk Hkey Hact Hblk Hfresh.
  destruct (create_succeeds now cid tok h body w apiKey Hsk Hkey Hact Hblk Hfresh)
    as (r & w' & Hcreate).
  exists r, w'. split; [exact Hcreate|]. by apply (Hsuccess now cid tok w).
Qed.

(** C5 at a concrete input: the curl request of the examples, sent to a
    service that knows the site key, is answered with success and
    [requiresInteraction = true]. *)
Lemma curl_request_requires_interaction_witness :
  exists r w',
    @challengeRoutes.create example.platform 1000 "c-1" "tok-1"
      (example.headers "curl/8.0") example.curlBody example.world
    = (challengeRoutes.CreateSuccess r, w') /\
    challengeRoutes.requiresInteraction r = true /\
    challengeRoutes.metadata_riskLevel r
    = riskLevel (@BotDetector.analyzeBotBehavior example.platform
                   (@challengeRoutes.botInput example.platform
                      (example.headers "curl/8.0") example.curlBody)) /\
    exists ch, prisma.challenge (db w') !! "tok-1" = Some ch /\
      prisma.botScore ch
      = score (@BotDetector.analyzeBotBehavior example.platform
                 (@challengeRoutes.botInput example.platform
                    (example.headers "curl/8.0") example.curlBody)).
Proof.
  apply (proj2 (proj2 (proj2 (proj2
           (@curl_request_requires_interaction example.platform
              (example.headers "curl/8.0") example.curlBody eq_refl eq_refl eq_refl))))
           1000 "c-1" "tok-1" example.world
           {| prisma.id := "key1"; prisma.userId := "user1"; prisma.isActive := true |}).
  - apply cache_ok_empty.
  - reflexivity.
  - reflexivity.
  - reflexivity.
  - vm_compute. reflexivity.
  - reflexivity.
Defined.

(** ** The linearity check of the mouse trace *)

Lemma straightLines_bounds (m : list MousePoint) :
  0 <= BotDetector.straightLines m /\
  BotDetector.straightLines m + 2 <= Z.max 2 (Z.of_nat (length m)).
Proof.
  induction m as [|p0 m IH]; [cbn; lia|].
  destruct m as [|p1 [|p2 m]]; [cbn; lia|cbn; lia|].
  change (BotDetector.straightLines (p0 :: p1 :: p2 :: m))
    with ((if BotDetector.collinear p0 p1 p2 then 1 else 0)
          + BotDetector.straightLines (p1 :: p2 :: m)).
  cbn [length] in *. destruct (BotDetector.collinear p0 p1 p2); lia.
Qed.

(** The test of the source, [straightLines > movements.length * 0.7], on
    integers. *)
Lemma linear_test (n s : Z) :
  JS.Qltb (inject_Z n * 0.7) (inject_Z s) = true <-> 7 * n < 10 * s.
Proof.
  rewrite Qltb_lt. unfold Qlt. cbn. lia.
Qed.

Section MouseFacts.
Context `{Platform}.

(** From five points on, the analyzer adds the 10 points exactly when the
    number of collinear triples exceeds 70% of the number of points. *)
Lemma mouseStep_linear data a m :
  BotDetector.mouseMovements data = Some m -> (5 <= length m)%nat ->
  BotDetector.mouseStep data a
  = if bool_decide (7 * Z.of_nat (length m) < 10 * BotDetector.straightLines m)
    then BotDetector.bump a 10 ["linear_mouse_movement"] ["Mouse movements too linear"]
    else a.
Proof.
  intros Hm Hlen. unfold BotDetector.mouseStep. rewrite Hm.
  replace (length m =? 0)%nat with false by (symmetry; apply Nat.eqb_neq; lia).
  replace (length m <? 5)%nat with false by (symmetry; apply Nat.ltb_ge; lia).
  unfold BotDetector.lengthQ.
  destruct (JS.Qltb _ _) eqn:E.
  - apply linear_test in E. by rewrite bool_decide_eq_true_2.
  - rewrite bool_decide_eq_false_2; [done|]. intros Hlt.
    apply linear_test in Hlt. congruence.
Qed.

(** A trace of five or six points has at most three or four triples, fewer
    than 70% of its points: the linearity signal cannot fire for it. *)
Lemma short_trace_never_linear data a m :
  BotDetector.mouseMovements data = Some m ->
  (length m = 5 \/ length m = 6)%nat ->
  BotDetector.mouseStep data a = a.
Proof.
  intros Hm Hlen. rewrite (mouseStep_linear data a m Hm) by lia.
  pose proof (straightLines_bounds m) as [_ Hs].
  rewrite bool_decide_eq_false_2; [done|]. lia.
Qed.

End MouseFacts.

(** C6, at the input where the code departs from it.  The five points
    (0,0), (1,1), (2,2), (3,3), (4,4) form three consecutive triples, all
    three collinear, which is more than 70% of the triples; the analyzer
    adds nothing for them, because it compares the number of collinear
    triples with 70% of the number of points. *)
Theorem diagonal_trace_not_flagged `{Platform} :
  forall ua fp ip ks timings previous a,
    let data := {| BotDetector.in_userAgent := ua;
                   BotDetector.in_fingerprint := fp;
                   BotDetector.in_ipAddress := ip;
                   BotDetector.mouseMovements := Some example.diagonal;
                   BotDetector.keystrokes := ks;
                   BotDetector.requestTimings := timings;
                   BotDetector.previousChallenges := previous |} in
    length example.diagonal = 5%nat /\
    BotDetector.straightLines example.diagonal = 3 /\
    mostTriplesCollinear example.diagonal /\
    BotDetector.mouseStep data a = a.
Proof.
  intros ua fp ip ks timings previous a data.
  split; [reflexivity|]. split; [reflexivity|]. split; [reflexivity|].
  apply (short_trace_never_linear data a example.diagonal); [reflexivity|by left].
Qed.

(** ** The fingerprint *)

(** C7 as stated, refuted.  Two records that differ in the font list only,
    one font "a,b" against the fonts "a" and "b", have the same pre-hash
    string; so have two records that differ in user agent and language,
    because a component may contain the separator; and two records that
    differ in the address only, because the address is not hashed.  Equal
    pre-hash strings give equal digests under every hash. *)
Lemma fingerprint_collisions :
  (example.signals "UA" "en" "203.0.113.7" ["a,b"]
     ≠ example.signals "UA" "en" "203.0.113.7" ["a"; "b"] /\
   BotDetector.prehash (example.signals "UA" "en" "203.0.113.7" ["a,b"])
     = BotDetector.prehash (example.signals "UA" "en" "203.0.113.7" ["a"; "b"])) /\
  (BotDetector.components (example.signals "UA|x" "en" "203.0.113.7" [])
     ≠ BotDetector.components (example.signals "UA" "x|en" "203.0.113.7" []) /\
   BotDetector.prehash (example.signals "UA|x" "en" "203.0.113.7" [])
     = BotDetector.prehash (example.signals "UA" "x|en" "203.0.113.7" [])) /\
  (example.signals "UA" "en" "203.0.113.7" [] ≠ example.signals "UA" "en" "198.51.100.9" [] /\
   forall P : Platform,
     @BotDetector.generateFingerprint P (example.signals "UA" "en" "203.0.113.7" [])
     = @BotDetector.generateFingerprint P (example.signals "UA" "en" "198.51.100.9" [])).
Proof.
  split; [split; [discriminate|reflexivity]|].
  split; [split; [discriminate|reflexivity]|].
  split; [discriminate|reflexivity].
Qed.

(** C7, amended.  [generateFingerprint] is a function of the eight
    serialized components (user agent, accept-language, accept-encoding,
    screen resolution, time zone, canvas, WebGL, fonts joined by commas):
    records with the same components have the same digest.  Two records whose
    component lists differ in exactly one position have different pre-hash
    strings.  Nothing is claimed for records whose components differ in
    several positions. *)
Theorem fingerprint_deterministic_one_component `{Platform} :
  (forall d1 d2, BotDetector.components d1 = BotDetector.components d2 ->
     BotDetector.generateFingerprint d1 = BotDetector.generateFingerprint d2) /\
  (forall d1 d2 i,
     differ_only_at i (BotDetector.components d1) (BotDetector.components d2) ->
     BotDetector.prehash d1 ≠ BotDetector.prehash d2).
Proof.
  split.
  - intros d1 d2 Hc. unfold BotDetector.generateFingerprint, BotDetector.prehash.
    by rewrite Hc.
  - intros d1 d2 i Hd. by apply (join_differ_only_at "|" i).
Qed.

(** C7 amended, at a concrete input: two records that differ in the user
    agent only. *)
Lemma fingerprint_deterministic_one_component_witness :
  BotDetector.prehash (example.signals "UA-1" "en" "203.0.113.7" [])
  ≠ BotDetector.prehash (example.signals "UA-2" "en" "203.0.113.7" []).
Proof.
  apply (proj2 (@fingerprint_deterministic_one_component example.platform) _ _ 0%nat).
  split; [reflexivity|]. split; [discriminate|].
  intros [|[|[|[|[|[|[|[|j]]]]]]]] Hj; try reflexivity. contradiction.
Defined.

(** ** The blacklist check comes first *)

(** C8.  When the address or the fingerprint is blacklisted, by an
    unexpired cache entry or by a store entry that is permanent or expires
    in the future, [detectAbusePatterns] answers blocked with severity
    CRITICAL; no later check runs: the database is unchanged and the cache
    loses at most expired blacklist keys, so no counter moves.  When nothing
    is blacklisted, the three counters are below their limits and the abuse
    log of the last hour holds at most 10 severe entries, the answer is not
    blocked, severity LOW, no challenge. *)
Theorem detectAbusePatterns_blacklist_first :
  forall now ip fp siteKey w,
    (blacklisted now ip fp w ->
     let out := AbuseDetector.detectAbusePatterns now ip fp siteKey w in
     out.1 = {| AbuseDetector.blocked := true;
                AbuseDetector.reason := Some "IP or fingerprint is blacklisted";
                AbuseDetector.severity := CRITICAL;
                AbuseDetector.shouldChallenge := false |} /\
     db out.2 = db w /\
     forall k, cache out.2 !! k = cache w !! k \/
               ((k = "blacklist:ip:" ++ ip \/ k = "blacklist:fp:" ++ fp) /\
                cache out.2 !! k = None)) /\
    (¬ blacklisted now ip fp w ->
     redisClient.counterOf
       (cache w !! AbuseDetector.rateLimitKey now ("ip:" ++ ip) 60) < 30 ->
     redisClient.counterOf
       (cache w !! AbuseDetector.rateLimitKey now ("fp:" ++ fp) 60) < 20 ->
     redisClient.counterOf
       (cache w !! ("attack:" ++ JS.or_else siteKey "global")) < 100 ->
     AbuseDetector.getRecentAbuseCount now ip 3600 w <= 10 ->
     (AbuseDetector.detectAbusePatterns now ip fp siteKey w).1
     = {| AbuseDetector.blocked := false;
          AbuseDetector.reason := None;
          AbuseDetector.severity := LOW;
          AbuseDetector.shouldChallenge := false |}).
Proof.
  intros now ip fp siteKey w. split.
  - intros Hb out. subst out. rewrite detectAbusePatterns_blacklisted by done.
    cbn [fst snd]. split; [done|].
    destruct (isBlacklisted_cache now ip fp w) as [Hc Hdb].
    split; [done|]. intros k. rewrite Hc.
    destruct (exists_lookup now ("blacklist:fp:" ++ fp) k
                (redisClient.exists_ now ("blacklist:ip:" ++ ip) (cache w)).2)
      as [->|[-> Hn]]; [|by auto].
    destruct (exists_lookup now ("blacklist:ip:" ++ ip) k (cache w))
      as [->|[-> Hn]]; by auto.
  - apply detectAbusePatterns_clear.
Qed.

(** C8 at a concrete input: the store bans the fingerprint for good and the
    cache is empty. *)
Lemma detectAbusePatterns_blacklist_first_witness :
  let out := AbuseDetector.detectAbusePatterns 1000 "203.0.113.7" "fp-banned"
               (Some "pk_site") example.bannedWorld in
  out.1 = {| AbuseDetector.blocked := true;
             AbuseDetector.reason := Some "IP or fingerprint is blacklisted";
             AbuseDetector.severity := CRITICAL;
             AbuseDetector.shouldChallenge := false |} /\
  db out.2 = db example.bannedWorld /\
  forall k, cache out.2 !! k = cache example.bannedWorld !! k \/
            ((k = "blacklist:ip:" ++ "203.0.113.7" \/ k = "blacklist:fp:" ++ "fp-banned") /\
             cache out.2 !! k = None).
Proof.
  apply (proj1 (detectAbusePatterns_blacklist_first 1000 "203.0.113.7" "fp-banned"
                  (Some "pk_site") example.bannedWorld)).
  right. right. right. eexists. split; reflexivity.
Defined.

(** * Further properties of the code *)

(** ** The in-memory cache *)

Lemma expired_mono now now' item :
  now <= now' -> redisClient.expired now item = true -> redisClient.expired now' item = true.
Proof.
  unfold redisClient.expired. destruct (expiry item) as [e|]; [|done].
  intros Hle He. apply andb_true_iff in He as [Hz Hlt].
  apply andb_true_iff. split; [done|]. apply Z.ltb_lt in Hlt. apply Z.ltb_lt. lia.
Qed.

(** X1.  A value written by [setEx] at time [t0] with a time to live of
    [seconds] is read back by [get] up to and including the instant
    [t0 + seconds * 1000]; a [get] after that instant returns nothing and
    removes the key. *)
Theorem setEx_get_roundtrip :
  forall t0 t key seconds v c,
    t0 + seconds * 1000 ≠ 0 ->
    (t <= t0 + seconds * 1000 ->
     redisClient.get t key (redisClient.setEx t0 key seconds v c)
     = (Some v, redisClient.setEx t0 key seconds v c)) /\
    (t0 + seconds * 1000 < t ->
     redisClient.get t key (redisClient.setEx t0 key seconds v c) = (None, delete key c)).
Proof.
  intros t0 t key seconds v c Hnz. unfold redisClient.get, redisClient.setEx.
  rewrite lookup_insert_eq. unfold redisClient.expired. cbn [expiry value].
  apply Z.eqb_neq in Hnz. rewrite Hnz. cbn [negb andb]. split; intros Ht.
  - apply Z.ltb_ge in Ht. by rewrite Ht.
  - apply Z.ltb_lt in Ht. rewrite Ht. by rewrite delete_insert_eq.
Qed.

Lemma setEx_get_roundtrip_witness :
  redisClient.get 4000 "k" (redisClient.setEx 1000 "k" 3 (VStr "1") ∅)
  = (Some (VStr "1"), redisClient.setEx 1000 "k" 3 (VStr "1") ∅).
Proof.
  apply (proj1 (setEx_get_roundtrip 1000 4000 "k" 3 (VStr "1") ∅ ltac:(discriminate))).
  vm_compute. discriminate.
Defined.

(** X2.  [incr] does not look at the expiry.  A counter whose expiry has
    passed is absent for [exists] and [get], yet [incr] continues from its
    old value and leaves the old expiry in place, so the counter stays
    expired. *)
Theorem incr_ignores_expiry :
  forall now key c item n,
    c !! key = Some item ->
    value item = VNum n ->
    redisClient.expired now item = true ->
    (redisClient.exists_ now key c).1 = 0 /\
    (redisClient.get now key c).1 = None /\
    (redisClient.incr key c).1 = n + 1 /\
    exists item', (redisClient.incr key c).2 !! key = Some item' /\
      value item' = VNum (n + 1) /\ expiry item' = expiry item /\
      redisClient.expired now item' = true.
Proof.
  intros now key c item n Hk Hv He.
  unfold redisClient.exists_, redisClient.get, redisClient.incr. rewrite Hk, He.
  cbn [fst snd]. split; [done|]. split; [done|].
  assert (Hc : redisClient.counterOf (Some item) = n).
  { destruct item as [val e]. cbn in Hv. subst val. done. }
  rewrite Hc. split; [done|].
  eexists. rewrite lookup_insert_eq. split; [done|]. cbn [value expiry option_bind mbind].
  split; [done|]. split; [done|].
  unfold redisClient.expired in *. cbn [expiry option_bind mbind]. exact He.
Qed.

Lemma incr_ignores_expiry_witness :
  (redisClient.exists_ 5000 "attack:pk" {[ "attack:pk" := {| value := VNum 7; expiry := Some 2000 |} ]}).1 = 0 /\
  (redisClient.get 5000 "attack:pk" {[ "attack:pk" := {| value := VNum 7; expiry := Some 2000 |} ]}).1 = None /\
  (redisClient.incr "attack:pk" {[ "attack:pk" := {| value := VNum 7; expiry := Some 2000 |} ]}).1 = 7 + 1 /\
  exists item',
    (redisClient.incr "attack:pk" {[ "attack:pk" := {| value := VNum 7; expiry := Some 2000 |} ]}).2
      !! "attack:pk" = Some item' /\
    value item' = VNum (7 + 1) /\ expiry item' = Some 2000 /\
    redisClient.expired 5000 item' = true.
Proof.
  apply (incr_ignores_expiry 5000 "attack:pk"
           {[ "attack:pk" := {| value := VNum 7; expiry := Some 2000 |} ]}
           {| value := VNum 7; expiry := Some 2000 |} 7); reflexivity.
Defined.

(** X3.  The cleanup timer is invisible to readers: what [get] and [exists]
    return at a later time is the same whether or not the cleanup has run. *)
Theorem cleanup_invisible_to_reads :
  forall now now' key c,
    now <= now' ->
    (redisClient.get now' key (redisClient.cleanup now c)).1 = (redisClient.get now' key c).1 /\
    (redisClient.exists_ now' key (redisClient.cleanup now c)).1
      = (redisClient.exists_ now' key c).1.
Proof.
  intros now now' key c Hle. unfold redisClient.get, redisClient.exists_, redisClient.cleanup.
  destruct (c !! key) as [item|] eqn:Hk.
  - destruct (redisClient.expired now item) eqn:He.
    + rewrite map_lookup_filter_None_2 by (right; intros x Hx; cbn; congruence).
      rewrite (expired_mono now now' item Hle He). by cbn.
    + rewrite (map_lookup_filter_Some_2 _ _ _ item) by done.
      by destruct (redisClient.expired now' item).
  - rewrite map_lookup_filter_None_2 by by left. by cbn.
Qed.

Lemma cleanup_invisible_to_reads_witness :
  (redisClient.get 9000 "k"
     (redisClient.cleanup 5000 {[ "k" := {| value := VStr "1"; expiry := Some 2000 |} ]})).1
  = (redisClient.get 9000 "k" {[ "k" := {| value := VStr "1"; expiry := Some 2000 |} ]}).1 /\
  (redisClient.exists_ 9000 "k"
     (redisClient.cleanup 5000 {[ "k" := {| value := VStr "1"; expiry := Some 2000 |} ]})).1
  = (redisClient.exists_ 9000 "k" {[ "k" := {| value := VStr "1"; expiry := Some 2000 |} ]}).1.
Proof.
  apply (cleanup_invisible_to_reads 5000 9000 "k"). vm_compute. discriminate.
Defined.

(** ** The IP aggregator: caching, flags, levels, its own blacklist *)

Section IPIntelligenceMore.
Context `{Platform}.

(** X4.  On a cache hit [analyzeIP] returns the stored analysis as it is and
    leaves the cache alone.  On a miss it returns the computed analysis and
    stores it, so that every call within the next hour (3 600 000 ms) is a
    hit that returns the same analysis and changes nothing. *)
Theorem analyzeIP_cache :
  forall t0 t ip c,
    (forall a e, c !! ("ip:analysis:" ++ ip) = Some {| value := VJson a; expiry := e |} ->
       redisClient.expired t0 {| value := VJson a; expiry := e |} = false ->
       IPIntelligence.analyzeIP t0 ip c = (a, c)) /\
    ((redisClient.get t0 ("ip:analysis:" ++ ip) c).1 ≫= IPIntelligence.JSON_parse = None ->
     t <= t0 + 3600 * 1000 ->
     (IPIntelligence.analyzeIP t0 ip c).1 = IPIntelligence.computeAnalysis ip /\
     IPIntelligence.analyzeIP t ip (IPIntelligence.analyzeIP t0 ip c).2
     = (IPIntelligence.computeAnalysis ip, (IPIntelligence.analyzeIP t0 ip c).2)).
Proof.
  intros t0 t ip c. split.
  - intros a e Hk He. unfold IPIntelligence.analyzeIP, redisClient.get.
    rewrite Hk, He. reflexivity.
  - intros Hmiss Ht.
    assert (Hfirst : IPIntelligence.analyzeIP t0 ip c
                     = (IPIntelligence.computeAnalysis ip,
                        redisClient.setEx t0 ("ip:analysis:" ++ ip) 3600
                          (VJson (IPIntelligence.computeAnalysis ip))
                          (redisClient.get t0 ("ip:analysis:" ++ ip) c).2)).
    { unfold IPIntelligence.analyzeIP.
      destruct (redisClient.get t0 ("ip:analysis:" ++ ip) c) as [cached c1].
      cbn [fst] in Hmiss. by rewrite Hmiss. }
    rewrite Hfirst. cbn [fst snd]. split; [done|].
    unfold IPIntelligence.analyzeIP, redisClient.get, redisClient.setEx.
    rewrite lookup_insert_eq.
    assert (He : redisClient.expired t
                   {| value := VJson (IPIntelligence.computeAnalysis ip);
                      expiry := Some (t0 + 3600 * 1000) |} = false).
    { unfold redisClient.expired. cbn [expiry]. apply andb_false_iff. right.
      apply Z.ltb_ge. lia. }
    rewrite He. reflexivity.
Qed.

(** X5.  A computed analysis never sets the VPN, proxy or Tor flag, not
    even when a reputation provider reports one: the providers only add to
    the score and the reasons.  Without a configured provider every address
    gets the abuse score 0, the level low and no reason. *)
Theorem computeAnalysis_flags_never_set :
  forall ip,
    let a := IPIntelligence.computeAnalysis ip in
    vpnDetected a = false /\ proxyDetected a = false /\ torDetected a = false /\
    abuseScore a = Z.min 100 (IPIntelligence.checkIPReputation ip).1 /\
    (JS.truthy IPQUALITYSCORE_API_KEY = false -> JS.truthy IPINFO_TOKEN = false ->
     abuseScore a = 0 /\ ip_riskLevel a = low /\ ip_reasons a = []).
Proof.
  intros ip a. subst a. unfold IPIntelligence.computeAnalysis.
  cbn [vpnDetected proxyDetected torDetected abuseScore ip_riskLevel ip_reasons
       IPIntelligence.checkVPNDatabase IPIntelligence.checkHostingProvider
       IPIntelligence.isVPN IPIntelligence.isProxy IPIntelligence.isTor
       IPIntelligence.isHosting IPIntelligence.checkTorExitNode].
  repeat (split; [reflexivity|]).
  intros H1 H2. unfold IPIntelligence.checkIPReputation. rewrite H1, H2.
  repeat split.
Qed.

(** X6.  The level of a computed analysis is the level of the abuse score
    it returns: capping the score at 100 never moves it across one of the
    thresholds 25, 50 and 75. *)
Theorem computeAnalysis_level_matches_score :
  forall ip,
    let a := IPIntelligence.computeAnalysis ip in
    ip_riskLevel a = IPIntelligence.riskLevelOf (abuseScore a) /\
    (ip_riskLevel a = critical <-> 75 <= abuseScore a) /\
    (ip_riskLevel a = low <-> abuseScore a < 25).
Proof.
  intros ip a. subst a. unfold IPIntelligence.computeAnalysis.
  cbn [abuseScore ip_riskLevel]. set (s := _ + (IPIntelligence.checkIPReputation ip).1).
  unfold IPIntelligence.riskLevelOf.
  destruct (75 <=? s) eqn:E75.
  { apply Z.leb_le in E75.
    replace (75 <=? Z.min 100 s) with true by (symmetry; apply Z.leb_le; lia).
    split; [done|]. split; [split; [lia|done]|]. split; [discriminate|lia]. }
  apply Z.leb_gt in E75. rewrite Z.min_r by lia. rewrite (proj2 (Z.leb_gt 75 s)) by lia.
  split; [done|].
  destruct (50 <=? s) eqn:E50; [apply Z.leb_le in E50|apply Z.leb_gt in E50].
  { split; split; first [discriminate | lia]. }
  destruct (25 <=? s) eqn:E25; [apply Z.leb_le in E25|apply Z.leb_gt in E25].
  { split; split; first [discriminate | lia]. }
  split; split; first [discriminate | lia | done].
Qed.

End IPIntelligenceMore.

Lemma analyzeIP_cache_witness :
  (@IPIntelligence.analyzeIP example.platform 1000 "203.0.113.7" ∅).1
    = @IPIntelligence.computeAnalysis example.platform "203.0.113.7" /\
  @IPIntelligence.analyzeIP example.platform 2000000 "203.0.113.7"
    (@IPIntelligence.analyzeIP example.platform 1000 "203.0.113.7" ∅).2
  = (@IPIntelligence.computeAnalysis example.platform "203.0.113.7",
     (@IPIntelligence.analyzeIP example.platform 1000 "203.0.113.7" ∅).2).
Proof.
  apply (proj2 (@analyzeIP_cache example.platform 1000 2000000 "203.0.113.7" ∅)).
  - reflexivity.
  - vm_compute. discriminate.
Defined.

Lemma computeAnalysis_flags_never_set_witness :
  abuseScore (@IPIntelligence.computeAnalysis example.platform "203.0.113.7") = 0 /\
  ip_riskLevel (@IPIntelligence.computeAnalysis example.platform "203.0.113.7") = low /\
  ip_reasons (@IPIntelligence.computeAnalysis example.platform "203.0.113.7") = [].
Proof.
  apply (@computeAnalysis_flags_never_set example.platform "203.0.113.7"); reflexivity.
Defined.

Lemma blacklist_ip_key_inj ip ip' : "blacklist:ip:" ++ ip = "blacklist:ip:" ++ ip' -> ip = ip'.
Proof. apply append_inv_head. Qed.

(** X7.  [blacklistIP] and [isBlacklisted] of the IP aggregator: an address
    blacklisted at [t0] for [duration] seconds is reported blacklisted up to
    and including [t0 + duration * 1000] and no longer afterwards; other
    addresses are unaffected; and while the entry lives the abuse detector
    blocks the address, because both use the key [blacklist:ip:<address>]. *)
Theorem blacklistIP_roundtrip :
  forall t0 t ip duration c,
    (t <= t0 + duration * 1000 ->
     (IPIntelligence.isBlacklisted t ip (IPIntelligence.blacklistIP t0 ip duration c)).1 = true /\
     forall fp siteKey w, cache w = IPIntelligence.blacklistIP t0 ip duration c ->
       AbuseDetector.blocked (AbuseDetector.detectAbusePatterns t ip fp siteKey w).1 = true) /\
    (t0 + duration * 1000 < t -> t0 + duration * 1000 ≠ 0 ->
     (IPIntelligence.isBlacklisted t ip (IPIntelligence.blacklistIP t0 ip duration c)).1 = false) /\
    (forall ip', ip' ≠ ip ->
     (IPIntelligence.isBlacklisted t ip' (IPIntelligence.blacklistIP t0 ip duration c)).1
     = (IPIntelligence.isBlacklisted t ip' c).1).
Proof.
  intros t0 t ip duration c.
  unfold IPIntelligence.isBlacklisted, IPIntelligence.blacklistIP.
  split; [|split].
  - intros Ht.
    assert (Hc : cached t ("blacklist:ip:" ++ ip)
                   (redisClient.setEx t0 ("blacklist:ip:" ++ ip) duration (VStr "1") c)).
    { eexists. split; [apply lookup_insert_eq|].
      unfold redisClient.expired. cbn [expiry]. apply andb_false_iff. right.
      apply Z.ltb_ge. lia. }
    split.
    + destruct Hc as (item & Hk & He). rewrite (exists_hit _ _ _ _ Hk He). reflexivity.
    + intros fp siteKey w Hw. rewrite detectAbusePatterns_blacklisted; [done|].
      left. by rewrite Hw.
  - intros Ht Hnz. unfold redisClient.exists_, redisClient.setEx.
    rewrite lookup_insert_eq. unfold redisClient.expired. cbn [expiry].
    apply Z.eqb_neq in Hnz. rewrite Hnz. apply Z.ltb_lt in Ht. rewrite Ht. reflexivity.
  - intros ip' Hne. unfold redisClient.exists_, redisClient.setEx.
    rewrite lookup_insert_ne.
    + destruct (c !! ("blacklist:ip:" ++ ip')) as [item|]; [|done].
      by destruct (redisClient.expired t item).
    + intros Heq. apply blacklist_ip_key_inj in Heq. congruence.
Qed.

Lemma blacklistIP_roundtrip_witness :
  (IPIntelligence.isBlacklisted 5000 "203.0.113.7"
     (IPIntelligence.blacklistIP 1000 "203.0.113.7" 86400 ∅)).1 = true /\
  forall fp siteKey w, cache w = IPIntelligence.blacklistIP 1000 "203.0.113.7" 86400 ∅ ->
    AbuseDetector.blocked
      (AbuseDetector.detectAbusePatterns 5000 "203.0.113.7" fp siteKey w).1 = true.
Proof.
  apply (proj1 (blacklistIP_roundtrip 1000 5000 "203.0.113.7" 86400 ∅)).
  vm_compute. discriminate.
Defined.

(** ** The behavioral analyzer: levels, limits, uniform timing *)

Lemma Math_round_halves (q : Q) (z : Z) : (q == z # 2)%Q -> JS.Math_round q = (z + 1) / 2.
Proof.
  intros Hq. unfold JS.Math_round.
  assert (Hs : (q + (1 # 2) == (z + 1) # 2)%Q).
  { rewrite Hq. unfold Qeq, Qplus. cbn. lia. }
  rewrite (Qfloor_comp _ _ Hs). unfold Qfloor. reflexivity.
Qed.

Lemma Qgeb_halves (q : Q) (z n : Z) :
  (q == z # 2)%Q -> JS.Qgeb q (inject_Z n) = (2 * n <=? z).
Proof.
  intros Hq. destruct (2 * n <=? z) eqn:E.
  - apply Z.leb_le in E. apply Qgeb_le. rewrite Hq. unfold Qle. cbn. lia.
  - apply Z.leb_gt in E. apply Qgeb_false. rewrite Hq. unfold Qlt. cbn. lia.
Qed.

Section BotDetectorMore.
Context `{Platform}.

Lemma bot_confidence (ua : string) :
  BotDetector.isBot (BotDetector.analyzeUserAgent ua) = true ->
  (BotDetector.confidence (BotDetector.analyzeUserAgent ua) == 0.9)%Q \/
  (BotDetector.confidence (BotDetector.analyzeUserAgent ua) == 0.7)%Q.
Proof.
  unfold BotDetector.analyzeUserAgent.
  destruct (existsb _ BotDetector.botPatterns);
    destruct (negb (JS.truthy (browser_name (UAParser ua))) ||
              negb (JS.truthy (os_name (UAParser ua))));
    destruct (browser_version (UAParser ua)) as [version|];
    cbn [BotDetector.confidence BotDetector.isBot];
    try (destruct (negb (String.eqb version "")); [destruct (parseFloat version) as [f|];
         [destruct (JS.Qltb f 50)|]|]);
    cbn [BotDetector.confidence BotDetector.isBot]; intros Hb;
    first [discriminate Hb | left; vm_compute; reflexivity | right; vm_compute; reflexivity].
Qed.

Lemma halves_add (q p : Q) (z k : Z) :
  (q == z # 2)%Q -> (p == k # 2)%Q -> (q + p == (z + k) # 2)%Q.
Proof. intros -> ->. unfold Qeq, Qplus. cbn. lia. Qed.

(** Twice the unrounded score is an integer: the sum of 0, 35 or 45 for the
    user agent, of multiples of 10 for the samples and the geolocation, and
    of 0, 30 or 16 for the history. *)
Lemma rawScore_halves data :
  exists u m k t h g : Z,
    (BotDetector.acc_score (BotDetector.rawScore data) == (u + m + k + t + h + g) # 2)%Q /\
    (u = 0 \/ u = 35 \/ u = 45) /\
    (m = 0 \/ m = 40 \/ m = 30 \/ m = 20) /\
    (k = 0 \/ k = 20 \/ k = 30) /\
    (t = 0 \/ t = 30) /\
    (h = 0 \/ h = 30 \/ h = 16) /\
    (g = 0 \/ g = 10) /\
    (BotDetector.previousChallenges data = None -> h = 0).
Proof.
  unfold BotDetector.rawScore.
  set (a0 := {| BotDetector.acc_score := 0; BotDetector.acc_signals := [];
                BotDetector.acc_reasons := [] |}).
  assert (H1 : exists u, (BotDetector.acc_score (BotDetector.userAgentStep data a0) == u # 2)%Q
                         /\ (u = 0 \/ u = 35 \/ u = 45)).
  { unfold BotDetector.userAgentStep.
    destruct (BotDetector.isBot _) eqn:Hb; [|exists 0; split; [reflexivity|auto]].
    destruct (bot_confidence _ Hb) as [Hc|Hc]; cbn [BotDetector.bump BotDetector.acc_score a0].
    - exists 45. split; [rewrite Hc; reflexivity|auto].
    - exists 35. split; [rewrite Hc; reflexivity|auto]. }
  destruct H1 as (u & Hu & Hu').
  set (a1 := BotDetector.userAgentStep data a0) in *.
  assert (H2 : exists m, (BotDetector.acc_score (BotDetector.mouseStep data a1)
                          == BotDetector.acc_score a1 + (m # 2))%Q
                         /\ (m = 0 \/ m = 40 \/ m = 30 \/ m = 20)).
  { unfold BotDetector.mouseStep.
    destruct (BotDetector.mouseMovements data) as [mv|];
      [|exists 0; split; [cbn; lra|auto]].
    destruct (length mv =? 0)%nat; [exists 40; split; [cbn; lra|auto]|].
    destruct (length mv <? 5)%nat; [exists 30; split; [cbn; lra|auto]|].
    destruct (JS.Qltb _ _); [exists 20|exists 0]; (split; [cbn; lra|auto]). }
  destruct H2 as (m & Hm & Hm').
  set (a2 := BotDetector.mouseStep data a1) in *.
  assert (H3 : exists k, (BotDetector.acc_score (BotDetector.keystrokeStep data a2)
                          == BotDetector.acc_score a2 + (k # 2))%Q
                         /\ (k = 0 \/ k = 20 \/ k = 30)).
  { unfold BotDetector.keystrokeStep.
    destruct (BotDetector.keystrokes data) as [ks|];
      [|exists 0; split; [cbn; lra|auto]].
    destruct (length ks =? 0)%nat; [exists 20; split; [cbn; lra|auto]|].
    destruct (0 <? length _)%nat; [|exists 0; split; [cbn; lra|auto]].
    destruct (JS.Qltb _ _); [exists 30|exists 0]; (split; [cbn; lra|auto]). }
  destruct H3 as (k & Hk & Hk').
  set (a3 := BotDetector.keystrokeStep data a2) in *.
  assert (H4 : exists t, (BotDetector.acc_score (BotDetector.timingStep data a3)
                          == BotDetector.acc_score a3 + (t # 2))%Q
                         /\ (t = 0 \/ t = 30)).
  { unfold BotDetector.timingStep.
    destruct (BotDetector.requestTimings data) as [ts|];
      [|exists 0; split; [cbn; lra|auto]].
    destruct (2 <? length ts)%nat; [|exists 0; split; [cbn; lra|auto]].
    destruct (BotDetector.suspicious _); [exists 30|exists 0]; (split; [cbn; lra|auto]). }
  destruct H4 as (t & Ht & Ht').
  set (a4 := BotDetector.timingStep data a3) in *.
  assert (H5 : exists h, (BotDetector.acc_score (BotDetector.historyStep data a4)
                          == BotDetector.acc_score a4 + (h # 2))%Q
                         /\ (h = 0 \/ h = 30 \/ h = 16)
                         /\ (BotDetector.previousChallenges data = None -> h = 0)).
  { unfold BotDetector.historyStep.
    destruct (BotDetector.previousChallenges data) as [n|];
      [|exists 0; split; [cbn; lra|auto]].
    destruct (10 <? n); [exists 30; split; [cbn; lra|split; [auto|discriminate]]|].
    destruct (5 <? n); [exists 16|exists 0];
      (split; [cbn; lra|split; [auto|discriminate]]). }
  destruct H5 as (h & Hh & Hh' & Hh'').
  set (a5 := BotDetector.historyStep data a4) in *.
  assert (H6 : exists g, (BotDetector.acc_score (BotDetector.geoStep data a5)
                          == BotDetector.acc_score a5 + (g # 2))%Q
                         /\ (g = 0 \/ g = 10)).
  { unfold BotDetector.geoStep.
    destruct (geoip_lookup _); [exists 0|exists 10]; (split; [cbn; lra|auto]). }
  destruct H6 as (g & Hg & Hg').
  exists u, m, k, t, h, g. repeat split; try assumption.
  rewrite Hg, Hh, Ht, Hk, Hm.
  repeat (apply halves_add; [|reflexivity]). exact Hu.
Qed.

(** X8.  The risk level of the behavioral analysis is the level of the
    score it returns, under the thresholds 75, 50 and 25 that the IP
    aggregator uses: rounding the score never moves it across a threshold,
    although the level is computed before the rounding. *)
Theorem analyzeBotBehavior_level_matches_score :
  forall data,
    riskLevel (BotDetector.analyzeBotBehavior data)
    = IPIntelligence.riskLevelOf (score (BotDetector.analyzeBotBehavior data)).
Proof.
  intros data. cbn [BotDetector.analyzeBotBehavior riskLevel score].
  destruct (rawScore_halves data) as (u & m & k & t & h & g & Hq & Hu & Hm & Hk & Ht & Hh & Hg & _).
  rewrite (Math_round_halves _ _ Hq).
  unfold BotDetector.riskLevelOf, IPIntelligence.riskLevelOf.
  change 75%Q with (inject_Z 75). change 50%Q with (inject_Z 50).
  change 25%Q with (inject_Z 25).
  rewrite !(Qgeb_halves _ _ _ Hq).
  clear Hq.
  destruct Hu as [->|[->| ->]], Hm as [->|[->|[->| ->]]], Hk as [->|[->| ->]],
    Ht as [->| ->], Hh as [->|[->| ->]], Hg as [->| ->]; reflexivity.
Qed.

(** X9.  The cap [Math.min(100, ...)] of the analyzer is never reached: the
    score is at most 93, and at most 78 when no challenge history is given,
    as in the create handler, whose overall score is therefore at most 87
    and whose stored and returned score is at least 13. *)
Theorem analyzeBotBehavior_score_limits :
  (forall data, score (BotDetector.analyzeBotBehavior data) <= 93) /\
  (forall data, BotDetector.previousChallenges data = None ->
     score (BotDetector.analyzeBotBehavior data) <= 78) /\
  (forall now cid tok h body w r w',
     cache_ok (cache w) ->
     challengeRoutes.create now cid tok h body w = (challengeRoutes.CreateSuccess r, w') ->
     13 <= challengeRoutes.metadata_score r).
Proof.
  assert (Hgen : forall data, score (BotDetector.analyzeBotBehavior data) <= 93 /\
            (BotDetector.previousChallenges data = None ->
             score (BotDetector.analyzeBotBehavior data) <= 78)).
  { intros data. cbn [BotDetector.analyzeBotBehavior score].
    destruct (rawScore_halves data)
      as (u & m & k & t & h & g & Hq & Hu & Hm & Hk & Ht & Hh & Hg & Hnone).
    rewrite (Math_round_halves _ _ Hq). clear Hq.
    set (z := u + m + k + t + h + g).
    assert (Hz : z <= 185 /\ (h = 0 -> z <= 155)) by (subst z; lia).
    clearbody z. split; [|intros Hp; specialize (Hnone Hp)].
    - assert ((z + 1) / 2 <= 93) by (apply Z.div_le_upper_bound; lia). lia.
    - assert ((z + 1) / 2 <= 78) by (apply Z.div_le_upper_bound; lia). lia. }
  split; [intros data; apply Hgen|]. split; [intros data; apply Hgen|].
  intros now cid tok h body w r w' Hc Hcreate.
  apply create_success_inv in Hcreate. cbv zeta in Hcreate.
  destruct Hcreate as (_ & -> & _).
  pose proof (proj2 (Hgen (challengeRoutes.botInput h body)) eq_refl) as Hbot.
  pose proof (analyzeBotBehavior_score_bounds (challengeRoutes.botInput h body)) as [Hb0 _].
  pose proof (untouched_detectAbusePatterns now (challengeRoutes.clientAddress h)
                (challengeRoutes.fingerprintOf h body)
                (Some (JS.or_else (challengeRoutes.siteKey body) "")) w) as (_ & _ & Hok).
  pose proof (analyzeIP_bounds now (challengeRoutes.clientAddress h) _ (Hok Hc)) as [[Ha0 Ha1] _].
  cbn [challengeRoutes.metadata_score].
  set (b := score _) in *. set (a := abuseScore _) in *.
  assert (challengeRoutes.overallScoreOf b a <= 87); [|lia].
  unfold challengeRoutes.overallScoreOf. apply Math_round_upper.
  rewrite Zle_Qle in Hbot, Ha1.
  change (inject_Z 78) with 78%Q in Hbot. change (inject_Z 100) with 100%Q in Ha1.
  change (inject_Z 87) with 87%Q. lra.
Qed.

End BotDetectorMore.

Lemma analyzeBotBehavior_score_limits_witness :
  13 <= challengeRoutes.metadata_score
          {| challengeRoutes.challengeId := "c-1";
             challengeRoutes.c_token := "tok-1";
             challengeRoutes.requiresInteraction := true;
             challengeRoutes.expiresAt := 301000;
             challengeRoutes.metadata_score := 68;
             challengeRoutes.metadata_riskLevel := high |}.
Proof.
  eapply (proj2 (proj2 (@analyzeBotBehavior_score_limits example.platform)) 1000 "c-1" "tok-1"
            (example.headers "Mozilla/5.0") example.curlBody example.world).
  - apply cache_ok_empty.
  - vm_compute. reflexivity.
Defined.

(** ** Uniform timing *)

Lemma Qltb_proper (a a' b : Q) : (a == a')%Q -> JS.Qltb a b = JS.Qltb a' b.
Proof.
  intros Ha. destruct (JS.Qltb a' b) eqn:E.
  - apply Qltb_lt in E. apply Qltb_lt. now rewrite Ha.
  - apply not_true_is_false. intros E'. apply Qltb_lt in E'. rewrite Ha in E'.
    apply Qltb_lt in E'. congruence.
Qed.

Lemma varianceOf_singleton (x : Q) : (BotDetector.varianceOf [x] == 0)%Q.
Proof.
  unfold BotDetector.varianceOf, BotDetector.average, JS.sumQ.
  change (BotDetector.lengthQ [x]) with 1%Q. cbn [fold_left]. field.
Qed.

Lemma sumQ_shift (l : list Q) (a : Q) : (fold_left Qplus l a == a + JS.sumQ l)%Q.
Proof.
  unfold JS.sumQ. revert a. induction l as [|x l IH]; intros a; cbn [fold_left].
  - lra.
  - rewrite (IH (a + x)%Q), (IH (0 + x)%Q). lra.
Qed.

Lemma last_default_irrelevant {A} (x : A) (l : list A) (d d' : A) :
  List.last (x :: l) d = List.last (x :: l) d'.
Proof.
  revert x. induction l as [|y l IH]; intros x; [reflexivity|].
  change (List.last (y :: l) d = List.last (y :: l) d'). apply IH.
Qed.

(** The intervals telescope: their sum is the last timestamp minus the
    first. *)
Lemma sumQ_intervalsOf (first : Q) (rest : list Q) :
  (JS.sumQ (BotDetector.intervalsOf (first :: rest)) == List.last rest first - first)%Q.
Proof.
  revert first. induction rest as [|b rest IH]; intros first.
  - cbn. lra.
  - change (BotDetector.intervalsOf (first :: b :: rest))
      with ((b - first)%Q :: BotDetector.intervalsOf (b :: rest)).
    unfold JS.sumQ at 1. cbn [fold_left]. rewrite sumQ_shift, IH.
    destruct rest as [|c rest]; [cbn [List.last]; lra|].
    rewrite (last_default_irrelevant c rest b first).
    change (List.last (b :: c :: rest) first) with (List.last (c :: rest) first). lra.
Qed.

Lemma length_intervalsOf (first : Q) (rest : list Q) :
  length (BotDetector.intervalsOf (first :: rest)) = length rest.
Proof.
  revert first. induction rest as [|b rest IH]; intros first; [reflexivity|].
  change (S (length (BotDetector.intervalsOf (b :: rest))) = S (length rest)).
  now rewrite IH.
Qed.

Lemma average_intervalsOf (first : Q) (rest : list Q) (bound : Q) :
  rest <> [] ->
  JS.Qltb (BotDetector.average (BotDetector.intervalsOf (first :: rest))) bound = true
  <-> (List.last rest first - first < bound * BotDetector.lengthQ rest)%Q.
Proof.
  intros Hne. rewrite Qltb_lt. unfold BotDetector.average, BotDetector.lengthQ.
  rewrite length_intervalsOf, sumQ_intervalsOf.
  assert (Hn : (0 < inject_Z (Z.of_nat (length rest)))%Q).
  { change 0%Q with (inject_Z 0). rewrite <- Zlt_Qlt. destruct rest; [done|cbn; lia]. }
  set (n := inject_Z _) in *. set (d := (List.last rest first - first)%Q).
  split; intros Hlt.
  - assert (E : (d == d / n * n)%Q) by (field; lra). rewrite E.
    apply Qmult_lt_compat_r; assumption.
  - apply Qlt_shift_div_r; assumption.
Qed.





(** ** The abuse detector: what it writes, and how long a block lasts *)

(** The blacklist entry that a temporary block writes. *)
Lemma tempBlockIP_db now ip seconds w :
  prisma.blacklist (db (AbuseDetector.tempBlockIP now ip seconds w))
  = <[(prisma.IP, ip) :=
        {| prisma.bl_reason := "Temporary block due to abuse";
           prisma.permanent := false;
           prisma.bl_expiresAt := Some (now + seconds * 1000) |}]> (prisma.blacklist (db w)) /\
  prisma.abuseLog (db (AbuseDetector.tempBlockIP now ip seconds w)) = prisma.abuseLog (db w) /\
  prisma.usage (db (AbuseDetector.tempBlockIP now ip seconds w)) = prisma.usage (db w).
Proof. done. Qed.

(** The effect of the five checks on the tables: at most one log entry, of
    severity MEDIUM, and at most one blacklist entry, temporary, for the
    address, and only when the address was not blacklisted. *)
Lemma detectAbusePatterns_db now ip fp siteKey w :
  let d := AbuseDetector.detectAbusePatterns now ip fp siteKey w in
  prisma.usage (db d.2) = prisma.usage (db w) /\
  (exists extra, prisma.abuseLog (db d.2) = (prisma.abuseLog (db w) ++ extra)%list /\
     (length extra <= 1)%nat /\
     Forall (fun l => prisma.severity l = MEDIUM /\ prisma.al_ipAddress l = ip /\
                      prisma.createdAt l = now) extra) /\
  ((prisma.blacklist (db d.2) = prisma.blacklist (db w) /\
    (AbuseDetector.blocked d.1 = true -> blacklisted now ip fp w)) \/
   (¬ blacklisted now ip fp w /\ AbuseDetector.blocked d.1 = true /\
    exists seconds, 3600 <= seconds /\
      prisma.blacklist (db d.2)
      = <[(prisma.IP, ip) :=
            {| prisma.bl_reason := "Temporary block due to abuse";
               prisma.permanent := false;
               prisma.bl_expiresAt := Some (now + seconds * 1000) |}]>
          (prisma.blacklist (db w)))).
Proof.
  cbv zeta. unfold AbuseDetector.detectAbusePatterns.
  pose proof (isBlacklisted_true now ip fp w) as Hbl.
  pose proof (isBlacklisted_cache now ip fp w) as [_ Hdb].
  destruct (AbuseDetector.isBlacklisted now ip fp w) as [b w1].
  cbn [fst snd] in *.
  destruct b.
  { cbn [snd]. rewrite Hdb. split; [done|]. split; [|left; split; [done|tauto]].
    exists []. rewrite app_nil_r. split; [done|]. split; [cbn; lia|constructor]. }
  assert (Hnot : ¬ blacklisted now ip fp w) by (intros Hb; apply Hbl in Hb; discriminate).
  destruct (AbuseDetector.checkRateLimit now ("ip:" ++ ip) 60 30 (cache w1)) as [r1 c1].
  destruct (AbuseDetector.limited r1).
  { destruct (5 <? _); cbn [snd fst AbuseDetector.blocked];
      cbn [db prisma.usage prisma.abuseLog prisma.blacklist AbuseDetector.tempBlockIP
           AbuseDetector.logAbuse with_cache with_abuseLog with_blacklist];
      rewrite Hdb; (split; [done|]); (split;
        [eexists; split; [reflexivity|]; split; [cbn; lia|];
         constructor; [cbn; done|constructor]|]).
    - right. split; [done|]. split; [done|]. exists 3600. split; [lia|done].
    - left. split; [done|discriminate]. }
  cbn [cache with_cache].
  destruct (AbuseDetector.checkRateLimit now ("fp:" ++ fp) 60 20 c1) as [r2 c2].
  destruct (AbuseDetector.limited r2).
  { cbn [snd fst db prisma.usage prisma.abuseLog prisma.blacklist
         AbuseDetector.logAbuse with_cache with_abuseLog].
    rewrite Hdb. split; [done|]. split; [|left; split; [done|discriminate]].
    eexists; split; [reflexivity|]; split; [cbn; lia|].
    constructor; [cbn; done|constructor]. }
  cbn [cache with_cache].
  destruct (AbuseDetector.detectDistributedAttack now (JS.or_else siteKey "global") c2)
    as [detected c3].
  assert (Hnil : forall l : list prisma.AbuseLog, exists extra, l = (l ++ extra)%list /\
            (length extra <= 1)%nat /\
            Forall (fun l => prisma.severity l = MEDIUM /\ prisma.al_ipAddress l = ip /\
                             prisma.createdAt l = now) extra).
  { intros l. exists []. rewrite app_nil_r. split; [done|]. split; [cbn; lia|constructor]. }
  destruct detected.
  { cbn [snd db with_cache]. rewrite Hdb. split; [done|]. split; [apply Hnil|left; split; [done|discriminate]]. }
  destruct (10 <? _); cbn [snd fst AbuseDetector.blocked];
    cbn [db prisma.usage prisma.abuseLog prisma.blacklist AbuseDetector.tempBlockIP
         with_cache with_blacklist];
    rewrite Hdb; (split; [done|]); (split; [apply Hnil|]).
  - right. split; [done|]. split; [done|]. exists 7200. split; [lia|done].
  - left. split; [done|discriminate].
Qed.

Lemma verify_abuse_tables now h body w :
  prisma.blacklist (db (challengeRoutes.verify now h body w).2) = prisma.blacklist (db w) /\
  prisma.abuseLog (db (challengeRoutes.verify now h body w).2) = prisma.abuseLog (db w).
Proof.
  unfold challengeRoutes.verify.
  destruct (negb (JS.truthy (challengeRoutes.token body))); [done|].
  destruct (prisma.challenge (db w) !! _) as [ch|]; [|done].
  destruct (prisma.verified ch); [done|].
  destruct (prisma.expiresAt ch <? now); [done|].
  destruct (prisma.apiKey (db w) !! prisma.siteKey ch); done.
Qed.

Section AbuseTables.
Context `{Platform}.

(** Create changes the blacklist and the abuse log through the abuse
    detector only. *)
Lemma create_abuse_tables now cid tok h body w :
  let d := AbuseDetector.detectAbusePatterns now (challengeRoutes.clientAddress h)
             (challengeRoutes.fingerprintOf h body)
             (Some (JS.or_else (challengeRoutes.siteKey body) "")) w in
  let w' := (challengeRoutes.create now cid tok h body w).2 in
  (prisma.blacklist (db w') = prisma.blacklist (db w) /\
   prisma.abuseLog (db w') = prisma.abuseLog (db w)) \/
  (prisma.blacklist (db w') = prisma.blacklist (db d.2) /\
   prisma.abuseLog (db w') = prisma.abuseLog (db d.2)).
Proof.
  cbv zeta. unfold challengeRoutes.create.
  destruct (negb (JS.truthy (challengeRoutes.siteKey body))); [by left|].
  destruct (prisma.apiKey (db w) !! _) as [apiKey|]; [|by left].
  destruct (negb (prisma.isActive apiKey)); [by left|].
  destruct (AbuseDetector.detectAbusePatterns _ _ _ _ w) as [abuseCheck w1].
  cbn [snd].
  destruct (AbuseDetector.blocked abuseCheck); [by right|].
  destruct (IPIntelligence.analyzeIP _ _ (cache w1)) as [ipAnalysis c].
  cbn [db cache with_cache prisma.challenge].
  destruct (prisma.challenge (db w1) !! tok); by right.
Qed.

Lemma handle_abuseLog_medium w r :
  Forall (fun l => prisma.severity l = MEDIUM) (prisma.abuseLog (db w)) ->
  Forall (fun l => prisma.severity l = MEDIUM) (prisma.abuseLog (db (service.handle w r))).
Proof.
  intros Hm. destruct r as [now cid t h body|now h body|k u|t v why|now]; cbn [service.handle].
  - destruct (create_abuse_tables now cid t h body w) as [[_ ->]|[_ ->]]; [done|].
    destruct (detectAbusePatterns_db now (challengeRoutes.clientAddress h)
                (challengeRoutes.fingerprintOf h body)
                (Some (JS.or_else (challengeRoutes.siteKey body) "")) w)
      as (_ & (extra & -> & _ & Hextra) & _).
    apply Forall_app. split; [done|].
    eapply Forall_impl; [exact Hextra|]. by intros l (Hl & _).
  - by destruct (verify_abuse_tables now h body w) as [_ ->].
  - done.
  - done.
  - done.
Qed.

Lemma serve_abuseLog_medium requests w :
  Forall (fun l => prisma.severity l = MEDIUM) (prisma.abuseLog (db w)) ->
  Forall (fun l => prisma.severity l = MEDIUM) (prisma.abuseLog (db (service.serve w requests))).
Proof.
  revert w. induction requests as [|r requests IH]; intros w Hm; [done|].
  cbn. apply IH. by apply handle_abuseLog_medium.
Qed.

Lemma getRecentAbuseCount_medium now ip seconds w :
  Forall (fun l => prisma.severity l = MEDIUM) (prisma.abuseLog (db w)) ->
  AbuseDetector.getRecentAbuseCount now ip seconds w = 0.
Proof.
  unfold AbuseDetector.getRecentAbuseCount, AbuseDetector.countZ.
  induction (prisma.abuseLog (db w)) as [|l log IH]; intros Hm; [done|].
  inversion Hm as [|? ? Hl Hlog]; subst. cbn [List.filter]. rewrite Hl.
  rewrite andb_false_r. by apply IH.
Qed.

(** X12.  The abuse log is written with severity MEDIUM only, while the
    fifth check of the detector counts entries of severity HIGH or
    CRITICAL.  Starting from a log without such entries, whatever requests
    the service handles, that count is zero and the detector never answers
    'Repeated abuse detected'. *)
Theorem repeated_abuse_never_detected :
  forall requests w,
    Forall (fun l => prisma.severity l = MEDIUM) (prisma.abuseLog (db w)) ->
    forall now ip fp siteKey,
      AbuseDetector.getRecentAbuseCount now ip 3600 (service.serve w requests) = 0 /\
      AbuseDetector.reason
        (AbuseDetector.detectAbusePatterns now ip fp siteKey (service.serve w requests)).1
      ≠ Some "Repeated abuse detected".
Proof.
  intros requests w Hm now ip fp siteKey.
  apply (serve_abuseLog_medium requests) in Hm.
  set (w0 := service.serve w requests) in *. clearbody w0.
  split; [by apply getRecentAbuseCount_medium|].
  unfold AbuseDetector.detectAbusePatterns.
  pose proof (isBlacklisted_cache now ip fp w0) as [_ Hdb].
  destruct (AbuseDetector.isBlacklisted now ip fp w0) as [b w1]. cbn [snd] in Hdb.
  destruct b; [done|].
  destruct (AbuseDetector.checkRateLimit now ("ip:" ++ ip) 60 30 (cache w1)) as [r1 c1].
  destruct (AbuseDetector.limited r1); [by destruct (5 <? _)|].
  cbn [cache with_cache].
  destruct (AbuseDetector.checkRateLimit now ("fp:" ++ fp) 60 20 c1) as [r2 c2].
  destruct (AbuseDetector.limited r2); [done|].
  cbn [cache with_cache].
  destruct (AbuseDetector.detectDistributedAttack now (JS.or_else siteKey "global") c2)
    as [detected c3].
  destruct detected; [done|].
  rewrite getRecentAbuseCount_medium; [done|].
  cbn [db with_cache]. by rewrite Hdb.
Qed.

Lemma handle_blacklist_lasts w r t v e T :
  prisma.blacklist (db w) !! (t, v) = Some e ->
  (forall now, now < T -> AbuseDetector.standing now e = true) ->
  exists e', prisma.blacklist (db (service.handle w r)) !! (t, v) = Some e' /\
    (forall now, now < T -> AbuseDetector.standing now e' = true).
Proof.
  intros Hl Hs.
  destruct r as [now cid tok h body|now h body|k u|t' v' why|now]; cbn [service.handle].
  - destruct (create_abuse_tables now cid tok h body w) as [[-> _]|[-> _]]; [eauto|].
    destruct (detectAbusePatterns_db now (challengeRoutes.clientAddress h)
                (challengeRoutes.fingerprintOf h body)
                (Some (JS.or_else (challengeRoutes.siteKey body) "")) w)
      as (_ & _ & [[-> _]|(Hnot & _ & seconds & Hsec & ->)]); [eauto|].
    destruct (decide ((prisma.IP, challengeRoutes.clientAddress h) = (t, v)))
      as [[= <- <-]|Hne].
    + rewrite lookup_insert_eq. eexists. split; [done|].
      intros now' Hnow'. unfold AbuseDetector.standing. cbn.
      destruct (Z.lt_ge_cases now T) as [Hlt|Hge].
      * exfalso. apply Hnot. right. right. left. exists e. split; [done|by apply Hs].
      * apply Z.ltb_lt. lia.
    + rewrite lookup_insert_ne by done. eauto.
  - destruct (verify_abuse_tables now h body w) as [-> _]. eauto.
  - eauto.
  - unfold AbuseDetector.addToBlacklist.
    cbn [db with_cache with_blacklist prisma.blacklist].
    destruct (decide ((t', v') = (t, v))) as [[= <- <-]|Hne].
    + rewrite lookup_insert_eq, Hl. eexists. split; [done|]. done.
    + rewrite lookup_insert_ne by done. eauto.
  - eauto.
Qed.

Lemma serve_blacklist_lasts requests w t v e T :
  prisma.blacklist (db w) !! (t, v) = Some e ->
  (forall now, now < T -> AbuseDetector.standing now e = true) ->
  exists e', prisma.blacklist (db (service.serve w requests)) !! (t, v) = Some e' /\
    (forall now, now < T -> AbuseDetector.standing now e' = true).
Proof.
  revert w e. induction requests as [|r requests IH]; intros w e Hl Hs; [eauto|].
  cbn. destruct (handle_blacklist_lasts w r t v e T Hl Hs) as (e1 & Hl1 & Hs1).
  by apply (IH _ e1).
Qed.


(** X14.  A block is a block for at least an hour.  When the detector
    answers [blocked] for an address that was not blacklisted, every
    request from that address during the next hour is rejected by the
    blacklist check, whatever fingerprint or site key it carries and
    whatever the service has handled in between. *)
Theorem temporary_block_lasts :
  forall now ip fp siteKey w,
    ¬ blacklisted now ip fp w ->
    AbuseDetector.blocked (AbuseDetector.detectAbusePatterns now ip fp siteKey w).1 = true ->
    forall requests now' fp' siteKey',
      now' < now + 3600 * 1000 ->
      (AbuseDetector.detectAbusePatterns now' ip fp' siteKey'
         (service.serve (AbuseDetector.detectAbusePatterns now ip fp siteKey w).2 requests)).1
      = {| AbuseDetector.blocked := true;
           AbuseDetector.reason := Some "IP or fingerprint is blacklisted";
           AbuseDetector.severity := CRITICAL;
           AbuseDetector.shouldChallenge := false |}.
Proof.
  intros now ip fp siteKey w Hnot Hblocked requests now' fp' siteKey' Hnow'.
  destruct (detectAbusePatterns_db now ip fp siteKey w)
    as (_ & _ & [[_ Hb]|(_ & _ & seconds & Hsec & Hbl)]); [by apply Hb in Hblocked|].
  destruct (serve_blacklist_lasts requests
              (AbuseDetector.detectAbusePatterns now ip fp siteKey w).2
              prisma.IP ip _ (now + 3600 * 1000)
              ltac:(rewrite Hbl; apply lookup_insert_eq)) as (e' & Hl' & Hs').
  { intros t Ht. unfold AbuseDetector.standing. cbn. apply Z.ltb_lt. lia. }
  rewrite detectAbusePatterns_blacklisted; [done|].
  right. right. left. exists e'. auto.
Qed.

End AbuseTables.

Lemma countZ_snoc {A} (p : A -> bool) (l : list A) (x : A) :
  AbuseDetector.countZ p (l ++ [x]) = AbuseDetector.countZ p l + (if p x then 1 else 0).
Proof.
  unfold AbuseDetector.countZ. rewrite List.filter_app, length_app. cbn [List.filter].
  destruct (p x); cbn [length]; lia.
Qed.

(** X15.  The rate-limit branch.  For an address that is not blacklisted
    and whose counter of the current minute has reached 30, the detector
    appends exactly one log entry (MEDIUM, with the new counter value),
    blocks the address exactly when the log already held five or more
    entries of that address from the last five minutes, asks for a
    challenge otherwise, and does not touch the fingerprint and attack
    counters. *)
Theorem rate_limit_violation :
  forall now ip fp siteKey w,
    ¬ blacklisted now ip fp w ->
    30 <= redisClient.counterOf (cache w !! AbuseDetector.rateLimitKey now ("ip:" ++ ip) 60) ->
    let d := AbuseDetector.detectAbusePatterns now ip fp siteKey w in
    prisma.abuseLog (db d.2)
    = (prisma.abuseLog (db w) ++
       [ {| prisma.al_ipAddress := ip;
            prisma.al_fingerprint := Some fp;
            prisma.al_siteKey := siteKey;
            prisma.al_reason := "Rate limit exceeded";
            prisma.severity := MEDIUM;
            prisma.requestCount :=
              redisClient.counterOf
                (cache w !! AbuseDetector.rateLimitKey now ("ip:" ++ ip) 60) + 1;
            prisma.createdAt := now |} ])%list /\
    AbuseDetector.blocked d.1 = (5 <=? AbuseDetector.getViolationCount now ip 300 w) /\
    AbuseDetector.shouldChallenge d.1 = negb (AbuseDetector.blocked d.1) /\
    cache d.2 !! AbuseDetector.rateLimitKey now ("fp:" ++ fp) 60
    = cache w !! AbuseDetector.rateLimitKey now ("fp:" ++ fp) 60 /\
    cache d.2 !! ("attack:" ++ JS.or_else siteKey "global")
    = cache w !! ("attack:" ++ JS.or_else siteKey "global").
Proof.
  intros now ip fp siteKey w Hb Hip. cbv zeta.
  unfold AbuseDetector.detectAbusePatterns.
  pose proof (isBlacklisted_true now ip fp w) as Hbl.
  pose proof (isBlacklisted_cache now ip fp w) as [_ Hdb].
  pose proof (isBlacklisted_other now ip fp w) as Hother.
  destruct (AbuseDetector.isBlacklisted now ip fp w) as [b w1].
  cbn [fst snd] in *.
  destruct b; [tauto|]. clear Hbl.
  set (ipKey := AbuseDetector.rateLimitKey now ("ip:" ++ ip) 60) in *.
  set (fpKey := AbuseDetector.rateLimitKey now ("fp:" ++ fp) 60) in *.
  set (attackKey := "attack:" ++ JS.or_else siteKey "global") in *.
  pose proof (checkRateLimit_result now ("ip:" ++ ip) 60 30 (cache w1)) as Hr1.
  pose proof (checkRateLimit_other now ("ip:" ++ ip) 60 30 (cache w1)) as Ho1.
  destruct (AbuseDetector.checkRateLimit now ("ip:" ++ ip) 60 30 (cache w1)) as [r1 c1].
  cbn [fst snd] in *. fold ipKey in Hr1, Ho1.
  rewrite (Hother ipKey) in Hr1
    by (apply (ratelimit_not_blacklist now ("ip:" ++ ip) 60 "ip:")
        || apply (ratelimit_not_blacklist now ("ip:" ++ ip) 60 "fp:")).
  subst r1. cbn [AbuseDetector.limited AbuseDetector.current].
  replace (30 <? redisClient.counterOf (cache w !! ipKey) + 1) with true
    by (symmetry; apply Z.ltb_lt; lia).
  set (entry := {| prisma.al_ipAddress := ip; prisma.al_fingerprint := Some fp;
                   prisma.al_siteKey := siteKey; prisma.al_reason := "Rate limit exceeded";
                   prisma.severity := MEDIUM;
                   prisma.requestCount := redisClient.counterOf (cache w !! ipKey) + 1;
                   prisma.createdAt := now |}).
  assert (Hcount : AbuseDetector.getViolationCount now ip 300
                     (AbuseDetector.logAbuse now ip (Some fp) siteKey "Rate limit exceeded"
                        MEDIUM (redisClient.counterOf (cache w !! ipKey) + 1)
                        (with_cache w1 c1))
                   = AbuseDetector.getViolationCount now ip 300 w + 1).
  { unfold AbuseDetector.getViolationCount, AbuseDetector.logAbuse.
    cbn [db with_cache with_abuseLog prisma.abuseLog]. rewrite Hdb, countZ_snoc.
    cbn [prisma.al_ipAddress prisma.createdAt]. rewrite String.eqb_refl.
    replace (now - 300 * 1000 <=? now) with true by (symmetry; apply Z.leb_le; lia).
    reflexivity. }
  rewrite Hcount.
  assert (Hfp : c1 !! fpKey = cache w !! fpKey).
  { rewrite (Ho1 fpKey) by apply ratelimit_ip_not_fp.
    apply Hother; [apply (ratelimit_not_blacklist now ("fp:" ++ fp) 60 "ip:")
                  |apply (ratelimit_not_blacklist now ("fp:" ++ fp) 60 "fp:")]. }
  assert (Hatt : c1 !! attackKey = cache w !! attackKey).
  { rewrite (Ho1 attackKey) by apply attack_not_ratelimit.
    apply Hother; [apply (attack_not_blacklist "ip:")|apply (attack_not_blacklist "fp:")]. }
  destruct (5 <? AbuseDetector.getViolationCount now ip 300 w + 1) eqn:Hv;
    cbn [fst snd AbuseDetector.blocked AbuseDetector.shouldChallenge negb];
    cbn [db cache prisma.abuseLog AbuseDetector.tempBlockIP AbuseDetector.logAbuse
         with_cache with_abuseLog with_blacklist]; rewrite Hdb.
  - apply Z.ltb_lt in Hv. split; [done|].
    split; [symmetry; apply Z.leb_le; lia|]. split; [done|].
    unfold redisClient.setEx.
    rewrite !lookup_insert_ne
      by (apply (ratelimit_not_blacklist now ("fp:" ++ fp) 60 "ip:")
          || apply (attack_not_blacklist "ip:")).
    done.
  - apply Z.ltb_ge in Hv. split; [done|].
    split; [symmetry; apply Z.leb_gt; lia|]. done.
Qed.

Lemma attack_counter_more siteKey times c n e :
  c !! ("attack:" ++ siteKey) = Some {| value := VNum n; expiry := Some e |} ->
  1 <= n ->
  fold_left (fun c now => (AbuseDetector.detectDistributedAttack now siteKey c).2)
            times c !! ("attack:" ++ siteKey)
  = Some {| value := VNum (n + Z.of_nat (length times)); expiry := Some e |}.
Proof.
  revert c n. induction times as [|t times IH]; intros c n Hc Hn.
  - cbn [fold_left length]. rewrite Hc. do 3 f_equal. lia.
  - cbn [fold_left length].
    rewrite (IH _ (n + 1)); [do 3 f_equal; lia| |lia].
    unfold AbuseDetector.detectDistributedAttack, redisClient.incr.
    rewrite Hc. cbn [redisClient.counterOf value option_bind mbind expiry].
    replace (n + 1 =? 1) with false by (symmetry; apply Z.eqb_neq; lia).
    cbn [snd]. by rewrite lookup_insert_eq.
Qed.

(** The counter of the attack detector after a first call at [t0] and any
    further calls: the expiry is the one set by the first call. *)
Lemma attack_counter siteKey t0 times c :
  c !! ("attack:" ++ siteKey) = None ->
  fold_left (fun c now => (AbuseDetector.detectDistributedAttack now siteKey c).2)
            (t0 :: times) c !! ("attack:" ++ siteKey)
  = Some {| value := VNum (1 + Z.of_nat (length times));
            expiry := Some (t0 + 10 * 1000) |}.
Proof.
  intros Hnone. cbn [fold_left]. apply attack_counter_more; [|lia].
  unfold AbuseDetector.detectDistributedAttack, redisClient.incr.
  rewrite Hnone. cbn [redisClient.counterOf snd].
  change (0 + 1 =? 1) with true. cbv iota.
  unfold redisClient.expire. rewrite lookup_insert_eq. cbn [value].
  by rewrite lookup_insert_eq.
Qed.

(** X16.  The attack detector never looks at the time.  After a first call
    at [t0] for a site key without a counter, the k-th call reports an
    attack exactly when k exceeds 100, however much time lies between the
    calls; the ten-second window ends only when the cleanup timer runs
    after [t0 + 10 s] and removes the counter. *)
Theorem attack_window_ends_at_cleanup :
  forall siteKey t0 times c,
    c !! ("attack:" ++ siteKey) = None ->
    let c' := fold_left (fun c now => (AbuseDetector.detectDistributedAttack now siteKey c).2)
                        (t0 :: times) c in
    (forall now, (AbuseDetector.detectDistributedAttack now siteKey c').1
                 = (100 <? Z.of_nat (length times) + 2)) /\
    (forall now now', 0 < t0 -> t0 + 10 * 1000 < now ->
       (AbuseDetector.detectDistributedAttack now' siteKey (redisClient.cleanup now c')).1
       = false).
Proof.
  intros siteKey t0 times c Hnone c'.
  pose proof (attack_counter siteKey t0 times c Hnone) as Hc'. fold c' in Hc'.
  split.
  - intros now. rewrite detectDistributedAttack_result, Hc'. cbn [redisClient.counterOf].
    f_equal. lia.
  - intros now now' Hpos Hlate. rewrite detectDistributedAttack_result.
    unfold redisClient.cleanup.
    rewrite map_lookup_filter_None_2; [done|].
    right. intros item Hitem. rewrite Hc' in Hitem. injection Hitem as <-.
    cbn. unfold redisClient.expired. cbn [expiry].
    replace (t0 + 10 * 1000 =? 0) with false by (symmetry; apply Z.eqb_neq; lia).
    replace (t0 + 10 * 1000 <? now) with true by (symmetry; apply Z.ltb_lt; lia).
    done.
Qed.

Lemma repeated_abuse_never_detected_witness :
  AbuseDetector.getRecentAbuseCount 2000 "203.0.113.7" 3600
    (@service.serve example.platform example.world
       [service.Create 1000 "c-1" "tok-1" (example.headers "curl/8.0") example.curlBody]) = 0 /\
  AbuseDetector.reason
    (AbuseDetector.detectAbusePatterns 2000 "203.0.113.7" "fp-browser-1" (Some "pk_site")
       (@service.serve example.platform example.world
          [service.Create 1000 "c-1" "tok-1" (example.headers "curl/8.0") example.curlBody])).1
  ≠ Some "Repeated abuse detected".
Proof.
  apply (@repeated_abuse_never_detected example.platform). constructor.
Defined.


Lemma temporary_block_lasts_witness :
  (AbuseDetector.detectAbusePatterns 3000000 "203.0.113.7" "fp-other" None
     (@service.serve example.platform
        (AbuseDetector.detectAbusePatterns 1000 "203.0.113.7" "fp-browser-1"
           (Some "pk_site") scenario.throttledWorld).2
        [service.CacheCleanup 2000000])).1
  = {| AbuseDetector.blocked := true;
       AbuseDetector.reason := Some "IP or fingerprint is blacklisted";
       AbuseDetector.severity := CRITICAL;
       AbuseDetector.shouldChallenge := false |}.
Proof.
  apply (@temporary_block_lasts example.platform).
  - intros Hb. apply isBlacklisted_true in Hb. vm_compute in Hb. discriminate.
  - vm_compute. reflexivity.
  - lia.
Defined.

Lemma rate_limit_violation_witness :
  AbuseDetector.blocked
    (AbuseDetector.detectAbusePatterns 1000 "203.0.113.7" "fp-browser-1"
       (Some "pk_site") scenario.throttledWorld).1
  = (5 <=? AbuseDetector.getViolationCount 1000 "203.0.113.7" 300 scenario.throttledWorld).
Proof.
  apply (rate_limit_violation 1000 "203.0.113.7" "fp-browser-1" (Some "pk_site")
           scenario.throttledWorld).
  - intros Hb. apply isBlacklisted_true in Hb. vm_compute in Hb. discriminate.
  - vm_compute. discriminate.
Defined.

Lemma attack_window_ends_at_cleanup_witness :
  (AbuseDetector.detectDistributedAttack 950000 "pk_site"
     (fold_left (fun c now => (AbuseDetector.detectDistributedAttack now "pk_site" c).2)
                [1000; 2000; 900000] ∅)).1
  = (100 <? Z.of_nat (length [2000; 900000]) + 2).
Proof.
  exact (proj1 (attack_window_ends_at_cleanup "pk_site" 1000 [2000; 900000] ∅
                  (lookup_empty _)) 950000).
Defined.

(** ** The challenge routes: round trip, records, failures *)

Lemma mismatch_same fp ch :
  fp = None \/ fp = Some (prisma.fingerprint ch) -> mismatch fp ch = false.
Proof.
  unfold mismatch. intros [->| ->]; [done|]. cbn.
  destruct (String.eqb (prisma.fingerprint ch) "") eqn:E; [done|].
  cbn. by rewrite String.eqb_refl.
Qed.

Section RouteFacts.
Context `{Platform}.

Lemma create_apiKey now cid tok h body w :
  prisma.apiKey (db (challengeRoutes.create now cid tok h body w).2) = prisma.apiKey (db w).
Proof.
  unfold challengeRoutes.create.
  destruct (negb (JS.truthy (challengeRoutes.siteKey body))); [done|].
  destruct (prisma.apiKey (db w) !! _) as [apiKey|]; [|done].
  destruct (negb (prisma.isActive apiKey)); [done|].
  pose proof (untouched_detectAbusePatterns now (challengeRoutes.clientAddress h)
                (challengeRoutes.fingerprintOf h body)
                (Some (JS.or_else (challengeRoutes.siteKey body) "")) w) as (_ & Hk & _).
  destruct (AbuseDetector.detectAbusePatterns _ _ _ _ w) as [abuseCheck w1].
  cbn [snd] in Hk.
  destruct (AbuseDetector.blocked abuseCheck); [done|].
  destruct (IPIntelligence.analyzeIP _ _ (cache w1)) as [ipAnalysis c].
  cbn [db cache with_cache prisma.challenge].
  destruct (prisma.challenge (db w1) !! tok); done.
Qed.

(** A successful create has found the API key of the site. *)
Lemma create_success_key now cid tok h body w r w' :
  challengeRoutes.create now cid tok h body w = (challengeRoutes.CreateSuccess r, w') ->
  is_Some (prisma.apiKey (db w') !! JS.or_else (challengeRoutes.siteKey body) "").
Proof.
  intros Hc. pose proof (create_apiKey now cid tok h body w) as Hk.
  rewrite Hc in Hk. cbn [snd] in Hk. rewrite Hk. clear Hk.
  unfold challengeRoutes.create in Hc.
  destruct (negb (JS.truthy (challengeRoutes.siteKey body))); [discriminate|].
  destruct (prisma.apiKey (db w) !! _) as [apiKey|]; [eauto|discriminate].
Qed.

(** X17.  Round trip.  The token of a successful create, presented to
    verify up to and including the instant [expiresAt] with the
    fingerprint that create has stored, or with none, is accepted, and
    verify returns the score and (in upper case) the risk level that
    create returned. *)
Theorem create_verify_roundtrip :
  forall now cid tok h body w r w' now' h' fp,
    challengeRoutes.create now cid tok h body w = (challengeRoutes.CreateSuccess r, w') ->
    tok ≠ "" ->
    now' <= challengeRoutes.expiresAt r ->
    fp = None \/ fp = Some (challengeRoutes.fingerprintOf h body) ->
    exists ok w'',
      challengeRoutes.verify now' h' (verifyRequest tok fp) w'
      = (challengeRoutes.VerifySuccess ok, w'') /\
      challengeRoutes.v_score ok = challengeRoutes.metadata_score r /\
      challengeRoutes.v_riskLevel ok = toUpperCase (challengeRoutes.metadata_riskLevel r).
Proof.
  intros now cid tok h body w r w' now' h' fp Hc Htok Hnow Hfp.
  destruct (create_success_key _ _ _ _ _ _ _ _ Hc) as [apiKey Hkey].
  apply create_success_inv in Hc. cbv zeta in Hc.
  destruct Hc as (_ & -> & _ & ch & Hl & Hscore & _ & _ & Hlevel & Hfinger & Hsk & Hv & He).
  cbn [challengeRoutes.expiresAt challengeRoutes.metadata_score
       challengeRoutes.metadata_riskLevel] in *.
  rewrite <- Hsk in Hkey. rewrite <- He in Hnow. rewrite <- Hfinger in Hfp.
  destruct (verify_success now' h' (verifyRequest tok fp) w' tok ch apiKey
              eq_refl Htok Hl Hv Hnow Hkey) as (w'' & Heq & _).
  eexists _, w''. split; [exact Heq|].
  cbn [challengeRoutes.v_score challengeRoutes.v_riskLevel verifyRequest
       challengeRoutes.v_fingerprint verifiedRecord prisma.score prisma.riskLevel].
  rewrite (mismatch_same fp ch Hfp). by rewrite Hscore, Hlevel.
Qed.

(** What one request does to a stored challenge record. *)
Lemma handle_record w r tok ch :
  prisma.challenge (db w) !! tok = Some ch ->
  prisma.challenge (db (service.handle w r)) !! tok = Some ch \/
  exists fp, prisma.verified ch = false /\
    prisma.challenge (db (service.handle w r)) !! tok = Some (verifiedRecord fp ch).
Proof.
  intros Hl. destruct r as [now cid t h body|now h body|k u|t v why|now]; cbn [service.handle].
  - left. by apply create_tables.
  - destruct (verify_tables now h body w) as (_ & _ & Ht).
    destruct (Ht tok) as [->|(ch0 & Hl0 & Hv0 & ->)]; [by left|].
    right. exists (challengeRoutes.v_fingerprint body). split; congruence.
  - by left.
  - by left.
  - by left.
Qed.

Lemma laterRecord_refl ch : laterRecord ch ch.
Proof. repeat split; auto. Qed.

Lemma laterRecord_update ch a s l : laterRecord ch a -> laterRecord ch (verifyLoop.update a s l).
Proof.
  intros (H1 & H2 & H3 & H4 & H5 & H6 & H7).
  repeat split; cbn; try done.
Qed.

Lemma update_as_verifiedRecord fp ch : 
  verifyLoop.update ch (prisma.score (verifiedRecord fp ch))
                    (prisma.riskLevel (verifiedRecord fp ch)) = verifiedRecord fp ch.
Proof. reflexivity. Qed.

Lemma update_update a s l s' l' :
  verifyLoop.update (verifyLoop.update a s l) s' l' = verifyLoop.update a s' l'.
Proof. reflexivity. Qed.

(** What one segment does to the challenge table. *)
Lemma segment_table now call w :
  let out := verifyLoop.segment now call w in
  prisma.challenge (db out.2) = prisma.challenge (db w) \/
  exists h t c s l k current,
    call = verifyLoop.AwaitUpdate h t c s l k /\
    prisma.challenge (db w) !! t = Some current /\
    prisma.challenge (db out.2) = <[t := verifyLoop.update current s l]> (prisma.challenge (db w)).
Proof.
  destruct call as [h body|h t fp|h t c s l|h t c s l k|h c v k|r]; cbn [verifyLoop.segment].
  - left. by destruct (negb _).
  - left. destruct (prisma.challenge (db w) !! t) as [c|]; [|done].
    destruct (prisma.verified c); [done|]. by destruct (_ <? _).
  - left. by destruct (prisma.apiKey (db w) !! _).
  - destruct (prisma.challenge (db w) !! t) as [current|] eqn:Hl; [|by left].
    right. by eexists h, t, c, s, l, k, current.
  - by left.
  - by left.
Qed.

Lemma step_laterRecord e calls w tok ch a :
  laterRecord ch a ->
  prisma.challenge (db w) !! tok = Some a ->
  exists b, prisma.challenge (db (verifyLoop.step e (calls, w)).2) !! tok = Some b /\
            laterRecord ch b.
Proof.
  intros HR Hl. destruct e as [i now|r]; cbn [verifyLoop.step fst snd].
  - destruct (calls !! i) as [call|]; [|by exists a].
    cbn [snd].
    destruct (segment_table now call w) as [->|(h & t & c & s & l & k & cur & _ & Hc & ->)];
      [by exists a|].
    destruct (decide (t = tok)) as [->|Hne].
    + rewrite lookup_insert_eq. eexists. split; [done|].
      apply laterRecord_update. rewrite Hl in Hc. by injection Hc as <-.
    + rewrite lookup_insert_ne by done. by exists a.
  - destruct (handle_record w r tok a Hl) as [->|(fp & Hv & ->)]; [by exists a|].
    eexists. split; [done|].
    change (verifiedRecord fp a) with
      (verifyLoop.update a (prisma.score (verifiedRecord fp a))
                         (prisma.riskLevel (verifiedRecord fp a))).
    by apply laterRecord_update.
Qed.

Lemma run_laterRecord schedule calls w tok ch a :
  laterRecord ch a ->
  prisma.challenge (db w) !! tok = Some a ->
  exists b, prisma.challenge (db (verifyLoop.run schedule (calls, w)).2) !! tok = Some b /\
            laterRecord ch b.
Proof.
  revert calls w a. induction schedule as [|e schedule IH]; intros calls w a HR Hl.
  - by exists a.
  - cbn [verifyLoop.run fold_left].
    destruct (step_laterRecord e calls w tok ch a HR Hl) as (b & Hb & HRb).
    destruct (verifyLoop.step e (calls, w)) as [calls' w'] eqn:E.
    apply (IH calls' w' b HRb Hb).
Qed.

Lemma segment_verifiedFrom now call w tok ch :
  (prisma.challenge (db w) !! tok = Some ch \/
   prisma.verified ch = false /\
   exists fp, prisma.challenge (db w) !! tok = Some (verifiedRecord fp ch)) ->
  holdsScoresOf tok ch call ->
  let out := verifyLoop.segment now call w in
  (prisma.challenge (db out.2) !! tok = Some ch \/
   prisma.verified ch = false /\
   exists fp, prisma.challenge (db out.2) !! tok = Some (verifiedRecord fp ch)) /\
  holdsScoresOf tok ch out.1.
Proof.
  intros Hrow Hcall.
  destruct call as [h body|h t fp|h t c s l|h t c s l k|h c v k|r]; cbn [verifyLoop.segment].
  - by destruct (negb _).
  - destruct (prisma.challenge (db w) !! t) as [c|] eqn:Hl; [|done].
    destruct (prisma.verified c) eqn:Hv; [done|]. destruct (_ <? _); [done|].
    cbn [fst snd holdsScoresOf]. split; [done|]. intros ->.
    destruct Hrow as [Hrow|(_ & fp' & Hrow)]; rewrite Hl in Hrow; 
      injection Hrow as ->; [|discriminate].
    split; [done|]. by exists fp.
  - destruct (prisma.apiKey (db w) !! _); [|done]. done.
  - destruct (prisma.challenge (db w) !! t) as [current|] eqn:Hl; [|done].
    cbn [fst snd holdsScoresOf with_challenge db prisma.challenge]. split; [|done].
    destruct (decide (t = tok)) as [->|Hne].
    + rewrite lookup_insert_eq. cbn [holdsScoresOf] in Hcall.
      destruct (Hcall eq_refl) as (Hv & fp & -> & ->).
      right. split; [done|]. exists fp. f_equal.
      destruct Hrow as [Hrow|(_ & fp' & Hrow)]; rewrite Hl in Hrow; injection Hrow as ->;
        reflexivity.
    + by rewrite lookup_insert_ne.
  - done.
  - done.
Qed.

Lemma step_verifiedFrom e s tok ch :
  verifiedFrom tok ch s -> verifiedFrom tok ch (verifyLoop.step e s).
Proof.
  destruct s as [calls w]. intros [Hrow Hcalls]. cbn [fst snd] in *.
  destruct e as [i now|r]; cbn [verifyLoop.step fst snd].
  - destruct (calls !! i) as [call|] eqn:Hi; [|done].
    destruct (segment_verifiedFrom now call w tok ch Hrow) as [Hrow' Hcall'].
    { by eapply Forall_lookup_1. }
    split; [exact Hrow'|]. cbn [fst]. by apply Forall_insert.
  - split; [|done]. cbn [snd].
    destruct Hrow as [Hrow|(Hv & fp & Hrow)].
    + destruct (handle_record w r tok ch Hrow) as [->|(fp & Hv & ->)]; [by left|].
      right. eauto.
    + right. split; [done|]. exists fp. by apply handle_keeps_verified.
Qed.

Lemma run_verifiedFrom schedule s tok ch :
  verifiedFrom tok ch s -> verifiedFrom tok ch (verifyLoop.run schedule s).
Proof.
  revert s. induction schedule as [|e schedule IH]; intros s Hs; [done|].
  cbn [verifyLoop.run fold_left]. apply IH. by apply step_verifiedFrom.
Qed.


(** Create leaves the challenge table as it is, or, on success, adds one
    record under the new token. *)
Lemma create_challenge now cid tok h body w :
  prisma.challenge (db (challengeRoutes.create now cid tok h body w).2)
  = prisma.challenge (db w) \/
  exists r ch,
    (challengeRoutes.create now cid tok h body w).1 = challengeRoutes.CreateSuccess r /\
    prisma.challenge (db w) !! tok = None /\
    prisma.challenge (db (challengeRoutes.create now cid tok h body w).2)
    = <[tok := ch]> (prisma.challenge (db w)).
Proof.
  unfold challengeRoutes.create.
  destruct (negb (JS.truthy (challengeRoutes.siteKey body))); [by left|].
  destruct (prisma.apiKey (db w) !! _) as [apiKey|]; [|by left].
  destruct (negb (prisma.isActive apiKey)); [by left|].
  pose proof (untouched_detectAbusePatterns now (challengeRoutes.clientAddress h)
                (challengeRoutes.fingerprintOf h body)
                (Some (JS.or_else (challengeRoutes.siteKey body) "")) w) as (Hch & _ & _).
  destruct (AbuseDetector.detectAbusePatterns _ _ _ _ w) as [abuseCheck w1].
  cbn [snd] in Hch.
  destruct (AbuseDetector.blocked abuseCheck); [by left|].
  destruct (IPIntelligence.analyzeIP _ _ (cache w1)) as [ipAnalysis c].
  cbn [db cache with_cache prisma.challenge].
  destruct (prisma.challenge (db w1) !! tok) eqn:Hfree; [by left|].
  right. eexists _, _. split; [reflexivity|]. split; [congruence|].
  cbn [snd db prisma.challenge with_usage with_challenge with_cache]. by rewrite Hch.
Qed.

(** X19.  Stored scores stay within 0 and 100.  From a state whose cached
    analyses are sound and whose stored challenges have their score in
    range, every state the service reaches has all stored scores in
    range. *)
Theorem stored_scores_in_range :
  forall requests w,
    cache_ok (cache w) ->
    (forall tok ch, prisma.challenge (db w) !! tok = Some ch ->
       0 <= prisma.score ch <= 100) ->
    forall tok ch,
      prisma.challenge (db (service.serve w requests)) !! tok = Some ch ->
      0 <= prisma.score ch <= 100.
Proof.
  intros requests. induction requests as [|r requests IH]; intros w Hc Hrange; [done|].
  cbn [service.serve fold_left]. apply IH; [by apply handle_cache_ok|].
  clear IH requests. intros tok ch Hl.
  destruct r as [now cid t h body|now h body|k u|t v why|now]; cbn [service.handle] in Hl;
    try (by apply (Hrange tok ch)).
  - destruct (create_challenge now cid t h body w) as [Heq|(r & ch1 & Hr & Hfree & Heq)];
      rewrite Heq in Hl; [by apply (Hrange tok ch)|].
    destruct (decide (t = tok)) as [->|Hne];
      [|rewrite lookup_insert_ne in Hl by done; by apply (Hrange tok ch)].
    rewrite lookup_insert_eq in Hl. injection Hl as ->.
    destruct (challengeRoutes.create now cid tok h body w) as [resp w1] eqn:Hcreate.
    cbn [fst snd] in *. subst resp.
    pose proof (create_success_inv _ _ _ _ _ _ _ _ Hcreate) as Hinv. cbv zeta in Hinv.
    destruct Hinv as (_ & _ & _ & ch1 & Hl1 & Hscore & _).
    rewrite Heq, lookup_insert_eq in Hl1. injection Hl1 as <-. rewrite Hscore.
    pose proof (analyzeBotBehavior_score_bounds (challengeRoutes.botInput h body)) as Hb.
    pose proof (untouched_detectAbusePatterns now (challengeRoutes.clientAddress h)
                  (challengeRoutes.fingerprintOf h body)
                  (Some (JS.or_else (challengeRoutes.siteKey body) "")) w) as (_ & _ & Hok).
    pose proof (analyzeIP_bounds now (challengeRoutes.clientAddress h) _ (Hok Hc))
      as [Ha _].
    pose proof (overallScoreOf_bounds _ _ Hb Ha). lia.
  - destruct (verify_tables now h body w) as (_ & _ & Ht).
    destruct (Ht tok) as [Heq|(ch0 & Hl0 & Hv0 & Heq)]; rewrite Heq in Hl.
    + by apply (Hrange tok).
    + injection Hl as <-. specialize (Hrange tok ch0 Hl0).
      cbn [verifiedRecord prisma.score]. destruct (mismatch _ ch0); lia.
Qed.

End RouteFacts.

Section UsageFacts.
Context `{Platform}.

(** X20.  The usage table counts the successes.  A create or verify that is
    answered with success appends exactly one usage row (status 200); any
    other answer appends none: a rejected create stores no challenge, and a
    rejected verify changes nothing at all. *)
Theorem usage_counts_successes :
  (forall now cid tok h body w,
     let out := challengeRoutes.create now cid tok h body w in
     match out.1 with
     | challengeRoutes.CreateSuccess _ =>
         exists row, prisma.usage (db out.2) = (prisma.usage (db w) ++ [row])%list /\
           prisma.endpoint row = "/challenge/create" /\ prisma.statusCode row = 200
     | _ => prisma.usage (db out.2) = prisma.usage (db w) /\
            prisma.challenge (db out.2) = prisma.challenge (db w)
     end) /\
  (forall now h body w,
     let out := challengeRoutes.verify now h body w in
     match out.1 with
     | challengeRoutes.VerifySuccess _ =>
         exists row, prisma.usage (db out.2) = (prisma.usage (db w) ++ [row])%list /\
           prisma.endpoint row = "/challenge/verify" /\ prisma.statusCode row = 200
     | _ => out.2 = w
     end).
Proof.
  split.
  - intros now cid tok h body w. cbv zeta. unfold challengeRoutes.create.
    destruct (negb (JS.truthy (challengeRoutes.siteKey body))); [done|].
    destruct (prisma.apiKey (db w) !! _) as [apiKey|]; [|done].
    destruct (negb (prisma.isActive apiKey)); [done|].
    pose proof (untouched_detectAbusePatterns now (challengeRoutes.clientAddress h)
                  (challengeRoutes.fingerprintOf h body)
                  (Some (JS.or_else (challengeRoutes.siteKey body) "")) w) as (Hch & _ & _).
    pose proof (detectAbusePatterns_db now (challengeRoutes.clientAddress h)
                  (challengeRoutes.fingerprintOf h body)
                  (Some (JS.or_else (challengeRoutes.siteKey body) "")) w) as (Hu & _).
    destruct (AbuseDetector.detectAbusePatterns _ _ _ _ w) as [abuseCheck w1].
    cbn [snd] in Hch, Hu.
    destruct (AbuseDetector.blocked abuseCheck); [done|].
    destruct (IPIntelligence.analyzeIP _ _ (cache w1)) as [ipAnalysis c].
    cbn [db cache with_cache prisma.challenge].
    destruct (prisma.challenge (db w1) !! tok); [done|].
    cbn [fst snd db prisma.usage with_usage with_challenge with_cache].
    rewrite Hu. eexists. split; [reflexivity|]. done.
  - intros now h body w. cbv zeta. unfold challengeRoutes.verify.
    destruct (negb (JS.truthy (challengeRoutes.token body))); [done|].
    destruct (prisma.challenge (db w) !! _) as [ch|]; [|done].
    destruct (prisma.verified ch); [done|].
    destruct (prisma.expiresAt ch <? now); [done|].
    destruct (prisma.apiKey (db w) !! prisma.siteKey ch); [|done].
    cbn [fst snd db prisma.usage with_usage with_challenge].
    eexists. split; [reflexivity|]. done.
Qed.

End UsageFacts.

Lemma create_verify_roundtrip_witness :
  let r := {| challengeRoutes.challengeId := "c-1";
              challengeRoutes.c_token := "tok-1";
              challengeRoutes.requiresInteraction := true;
              challengeRoutes.expiresAt := 301000;
              challengeRoutes.metadata_score := 68;
              challengeRoutes.metadata_riskLevel := high |} in
  exists ok w'',
    challengeRoutes.verify 301000 (example.headers "Mozilla/5.0")
      (verifyRequest "tok-1" None) example.createdWorld
    = (challengeRoutes.VerifySuccess ok, w'') /\
    challengeRoutes.v_score ok = challengeRoutes.metadata_score r /\
    challengeRoutes.v_riskLevel ok = toUpperCase (challengeRoutes.metadata_riskLevel r).
Proof.
  intros r.
  apply (@create_verify_roundtrip example.platform 1000 "c-1" "tok-1"
           (example.headers "Mozilla/5.0") example.curlBody example.world r
           example.createdWorld 301000 (example.headers "Mozilla/5.0") None).
  - vm_compute. reflexivity.
  - discriminate.
  - vm_compute. discriminate.
  - by left.
Defined.


Lemma stored_scores_in_range_witness :
  0 <= prisma.score (example.challenge 90 false 5000) <= 100.
Proof.
  apply (@stored_scores_in_range example.platform
           [service.CacheCleanup 2000; service.DeleteApiKey "key1" "user1"]
           (example.worldWith (example.challenge 90 false 5000))
           cache_ok_empty) with (tok := "tok-1").
  - intros tok ch Hl.
    change (({[ "tok-1" := example.challenge 90 false 5000 ]}
               : gmap string prisma.Challenge) !! tok = Some ch) in Hl.
    apply lookup_singleton_Some in Hl as [_ <-]. cbn. lia.
  - reflexivity.
Defined.

(** ** The monthly limit of a tier *)

Lemma limitOf_unknown limits tier :
  tier ≠ "FREE" -> tier ≠ "BASIC" -> tier ≠ "PRO" -> tier ≠ "ENTERPRISE" ->
  rateLimiter.limitOf limits tier = None.
Proof.
  intros H1 H2 H3 H4. unfold rateLimiter.limitOf.
  apply String.eqb_neq in H1, H2, H3, H4. by rewrite H1, H2, H3, H4.
Qed.

(** X21.  The fallback [tierLimits.free] does not exist: the table has the
    upper-case keys only.  A user whose tier is not one of FREE, BASIC, PRO
    and ENTERPRISE (for instance 'free') has no limit: the request passes
    whatever the usage, and is still counted. *)
Theorem tierRateLimiter_unknown_tier :
  forall limits now year month user c,
    rateLimiter.tier user ≠ "FREE" -> rateLimiter.tier user ≠ "BASIC" ->
    rateLimiter.tier user ≠ "PRO" -> rateLimiter.tier user ≠ "ENTERPRISE" ->
    let key := rateLimiter.monthKey (rateLimiter.id user) year month in
    let out := rateLimiter.tierRateLimiter limits now year month (Some user) c in
    out.1 = rateLimiter.Next /\
    redisClient.counterOf (out.2 !! key)
    = redisClient.counterOf ((redisClient.get now key c).2 !! key) + 1.
Proof.
  intros limits now year month user c H1 H2 H3 H4. cbv zeta.
  unfold rateLimiter.tierRateLimiter.
  rewrite (limitOf_unknown limits _ H1 H2 H3 H4).
  destruct (redisClient.get now _ c) as [count c1].
  unfold redisClient.incr. cbv beta iota zeta. cbn [fst snd].
  split; [done|]. unfold redisClient.expire.
  rewrite lookup_insert_eq. cbn [value]. by rewrite lookup_insert_eq.
Qed.

(** One call for a tier with a limit, when the counter of the month stands
    at [n] and has not expired. *)
Lemma tierRateLimiter_step limits now year month user c l n e :
  rateLimiter.limitOf limits (rateLimiter.tier user) = Some l ->
  c !! rateLimiter.monthKey (rateLimiter.id user) year month
  = Some {| value := VNum n; expiry := Some e |} ->
  now <= e ->
  let out := rateLimiter.tierRateLimiter limits now year month (Some user) c in
  if l <=? n then out = (rateLimiter.LimitExceeded (rateLimiter.tier user) l n, c)
  else out.1 = rateLimiter.Next /\
       out.2 !! rateLimiter.monthKey (rateLimiter.id user) year month
       = Some {| value := VNum (n + 1); expiry := Some (now + 60 * 60 * 24 * 32 * 1000) |}.
Proof.
  intros Hl Hc He. cbv zeta. unfold rateLimiter.tierRateLimiter, redisClient.get.
  rewrite Hl, Hc. unfold redisClient.expired. cbn [expiry value].
  replace (e <? now) with false by (symmetry; apply Z.ltb_ge; lia).
  rewrite andb_false_r. cbn [rateLimiter.usageOf default].
  destruct (l <=? n); [done|].
  unfold redisClient.incr. cbv beta iota zeta. cbn [fst snd].
  split; [done|]. unfold redisClient.expire.
  rewrite lookup_insert_eq, Hc. cbn [value redisClient.counterOf].
  by rewrite lookup_insert_eq.
Qed.

Lemma tierRateLimiter_first limits now year month user c l :
  rateLimiter.limitOf limits (rateLimiter.tier user) = Some l ->
  0 < l ->
  c !! rateLimiter.monthKey (rateLimiter.id user) year month = None ->
  let out := rateLimiter.tierRateLimiter limits now year month (Some user) c in
  out.1 = rateLimiter.Next /\
  out.2 !! rateLimiter.monthKey (rateLimiter.id user) year month
  = Some {| value := VNum 1; expiry := Some (now + 60 * 60 * 24 * 32 * 1000) |}.
Proof.
  intros Hl Hpos Hc. cbv zeta. unfold rateLimiter.tierRateLimiter, redisClient.get.
  rewrite Hl, Hc. cbn [rateLimiter.usageOf default].
  replace (l <=? 0) with false by (symmetry; apply Z.leb_gt; lia).
  unfold redisClient.incr. cbv beta iota zeta. cbn [fst snd].
  split; [done|]. unfold redisClient.expire.
  rewrite lookup_insert_eq, Hc. cbn [value redisClient.counterOf].
  by rewrite lookup_insert_eq.
Qed.

Lemma tierRateLimiter_run limits year month user l T0 times c n e :
  rateLimiter.limitOf limits (rateLimiter.tier user) = Some l ->
  c !! rateLimiter.monthKey (rateLimiter.id user) year month
  = Some {| value := VNum n; expiry := Some e |} ->
  T0 + 60 * 60 * 24 * 32 * 1000 <= e ->
  n <= l ->
  Forall (fun t => T0 <= t <= T0 + 60 * 60 * 24 * 32 * 1000) times ->
  (sequentially (fun t c => rateLimiter.tierRateLimiter limits t year month (Some user) c)
                times c).1
  = (replicate (Nat.min (length times) (Z.to_nat (l - n))) rateLimiter.Next ++
     replicate (length times - Z.to_nat (l - n))
       (rateLimiter.LimitExceeded (rateLimiter.tier user) l l))%list.
Proof.
  intros Hl. revert c n e. induction times as [|t times IH]; intros c n e Hc He Hn Ht.
  - reflexivity.
  - inversion Ht as [|? ? Ht0 Ht']; subst.
    pose proof (tierRateLimiter_step limits t year month user c l n e Hl Hc ltac:(lia))
      as Hstep. cbv zeta in Hstep.
    cbn [sequentially fst snd length].
    destruct (l <=? n) eqn:Hln.
    + apply Z.leb_le in Hln. assert (n = l) as -> by lia.
      rewrite Hstep. cbn [fst snd].
      rewrite (IH c l e Hc He ltac:(lia) Ht').
      replace (Z.to_nat (l - l)) with 0%nat by lia.
      rewrite !Nat.min_0_r, !Nat.sub_0_r. reflexivity.
    + apply Z.leb_gt in Hln. destruct Hstep as [-> Hc'].
      rewrite (IH _ (n + 1) _ Hc' ltac:(lia) ltac:(lia) Ht').
      replace (Z.to_nat (l - n)) with (S (Z.to_nat (l - (n + 1)))) by lia.
      reflexivity.
Qed.

(** X22.  A tier with a limit lets exactly [limit] requests of a month
    pass.  From a cache without a counter for the month, requests handled
    one after the other within 32 days are passed on until [limit] of them
    have been counted, and every further one is answered 429 with
    [current = limit]. *)
Theorem tierRateLimiter_exactly_limit :
  forall limits year month user l T0 times c,
    rateLimiter.limitOf limits (rateLimiter.tier user) = Some l ->
    0 < l ->
    c !! rateLimiter.monthKey (rateLimiter.id user) year month = None ->
    Forall (fun t => T0 <= t <= T0 + 60 * 60 * 24 * 32 * 1000) times ->
    (sequentially (fun t c => rateLimiter.tierRateLimiter limits t year month (Some user) c)
                  times c).1
    = (replicate (Nat.min (length times) (Z.to_nat l)) rateLimiter.Next ++
       replicate (length times - Z.to_nat l)
         (rateLimiter.LimitExceeded (rateLimiter.tier user) l l))%list.
Proof.
  intros limits year month user l T0 times c Hl Hpos Hc Ht.
  destruct times as [|t times]; [reflexivity|].
  inversion Ht as [|? ? Ht0 Ht']; subst.
  destruct (tierRateLimiter_first limits t year month user c l Hl Hpos Hc) as [H1 Hc'].
  cbn [sequentially fst snd length]. rewrite H1.
  rewrite (tierRateLimiter_run limits year month user l T0 times _ 1 _ Hl Hc'
             ltac:(lia) ltac:(lia) Ht').
  replace (Z.to_nat l) with (S (Z.to_nat (l - 1))) by lia. reflexivity.
Qed.

Lemma tierRateLimiter_unknown_tier_witness :
  (rateLimiter.tierRateLimiter rateLimiter.defaultLimits 1000 2026 10
     (Some {| rateLimiter.id := "u1"; rateLimiter.tier := "free" |})
     {[ rateLimiter.monthKey "u1" 2026 10 := {| value := VNum 5000; expiry := None |} ]}).1
  = rateLimiter.Next.
Proof.
  apply (tierRateLimiter_unknown_tier rateLimiter.defaultLimits 1000 2026 10
           {| rateLimiter.id := "u1"; rateLimiter.tier := "free" |}); discriminate.
Defined.

Lemma tierRateLimiter_exactly_limit_witness :
  (sequentially
     (fun t c => rateLimiter.tierRateLimiter
                   {| rateLimiter.FREE := 2; rateLimiter.BASIC := 10000;
                      rateLimiter.PRO := 100000; rateLimiter.ENTERPRISE := 1000000 |}
                   t 2026 10
                   (Some {| rateLimiter.id := "u1"; rateLimiter.tier := "FREE" |}) c)
     [1000; 2000; 3000] ∅).1
  = (replicate (Nat.min (length [1000; 2000; 3000]) (Z.to_nat 2)) rateLimiter.Next ++
     replicate (length [1000; 2000; 3000] - Z.to_nat 2)
       (rateLimiter.LimitExceeded "FREE" 2 2))%list.
Proof.
  apply (tierRateLimiter_exactly_limit
           {| rateLimiter.FREE := 2; rateLimiter.BASIC := 10000;
              rateLimiter.PRO := 100000; rateLimiter.ENTERPRISE := 1000000 |}
           2026 10 {| rateLimiter.id := "u1"; rateLimiter.tier := "FREE" |} 2 1000
           [1000; 2000; 3000] ∅).
  - reflexivity.
  - lia.
  - reflexivity.
  - repeat constructor; lia.
Defined.

(** ** The standalone server *)

Lemma Qltb_false_ge (a b : Q) : JS.Qltb a b = false <-> (b <= a)%Q.
Proof.
  split.
  - intros Hf. apply Qnot_lt_le. intros Hlt. apply Qltb_lt in Hlt. congruence.
  - intros Hle. apply not_true_is_false. intros Ht. apply Qltb_lt in Ht. lra.
Qed.

(** X23.  The random term never decides whether interaction is required.
    The create handler answers [requiresInteraction: riskScore > 0.7]; this
    holds exactly when all three checks of [calculateRiskScore] add their
    points (short fingerprint, fewer than five mouse samples, suspicious
    timing), whatever [Math.random()] returns.  A client that sends no
    request timings is never asked to interact. *)
Theorem requiresInteraction_ignores_random :
  forall data random,
    (0 <= random)%Q -> (random < 1)%Q ->
    JS.Qltb 0.7 (standalone.calculateRiskScore random data)
    = JS.Qltb 0 (standalone.fingerprintPoints data) &&
      JS.Qltb 0 (standalone.mousePoints data) &&
      JS.Qltb 0 (standalone.timingPoints data) /\
    (standalone.requestTimings data = None ->
     JS.Qltb 0.7 (standalone.calculateRiskScore random data) = false).
Proof.
  intros data random H0 H1.
  pose proof (calculateRiskScore_sum random data H0 H1) as Hsum.
  assert (Hf : (standalone.fingerprintPoints data == 0 \/
                standalone.fingerprintPoints data == 0.3)%Q).
  { unfold standalone.fingerprintPoints.
    destruct (standalone.fingerprint data) as [f|]; [destruct (_ || _)|];
      (by left) || (by right). }
  assert (Hm : (standalone.mousePoints data == 0 \/ standalone.mousePoints data == 0.2)%Q).
  { unfold standalone.mousePoints.
    destruct (standalone.mouseMovements data) as [m|]; [destruct (_ <? _)%nat|];
      (by left) || (by right). }
  assert (Ht : (standalone.timingPoints data == 0 \/
                standalone.timingPoints data == 0.25)%Q /\
               (standalone.requestTimings data = None ->
                (standalone.timingPoints data == 0)%Q)).
  { unfold standalone.timingPoints.
    destruct (standalone.requestTimings data) as [t|]; [|split; [by left|done]].
    split; [|discriminate].
    destruct (_ <? _)%nat; [destruct (_ || _)|]; (by left) || (by right). }
  destruct Ht as [Ht Hnone].
  assert (Hmain : JS.Qltb 0.7 (standalone.calculateRiskScore random data)
          = JS.Qltb 0 (standalone.fingerprintPoints data) &&
            JS.Qltb 0 (standalone.mousePoints data) &&
            JS.Qltb 0 (standalone.timingPoints data)).
  { destruct Hf as [Hf|Hf], Hm as [Hm|Hm], Ht as [Ht|Ht];
      repeat match goal with
        | |- context [JS.Qltb 0 ?p] =>
            first [ replace (JS.Qltb 0 p) with true by (symmetry; apply Qltb_lt; lra)
                  | replace (JS.Qltb 0 p) with false by (symmetry; apply Qltb_false_ge; lra) ]
        end;
      cbn [andb];
      first [ apply Qltb_lt; lra | apply Qltb_false_ge; lra ]. }
  split; [exact Hmain|].
  intros Hn. rewrite Hmain.
  replace (JS.Qltb 0 (standalone.timingPoints data)) with false
    by (symmetry; apply Qltb_false_ge; rewrite (Hnone Hn); lra).
  apply andb_false_r.
Qed.

Lemma requiresInteraction_ignores_random_witness :
  JS.Qltb 0.7 (standalone.calculateRiskScore 0.99 example.riskData) = false.
Proof.
  apply (requiresInteraction_ignores_random example.riskData 0.99).
  - vm_compute. discriminate.
  - reflexivity.
  - reflexivity.
Defined.

(** The record of the address during a window that began at [t0]. *)
Lemma server_checkRateLimit_run windowMs maxRequests ip t0 times db n last :
  server.rate_limits db !! ip
  = Some {| server.count := n; server.firstRequest := t0; server.lastRequest := last |} ->
  n <= maxRequests ->
  Forall (fun t => t - t0 <= windowMs) times ->
  let out := sequentially (fun t db => server.checkRateLimit windowMs maxRequests t ip db)
                          times db in
  out.1 = (replicate (Nat.min (length times) (Z.to_nat (maxRequests - n))) true ++
           replicate (length times - Z.to_nat (maxRequests - n)) false)%list /\
  exists n' last',
    server.rate_limits out.2 !! ip
    = Some {| server.count := n'; server.firstRequest := t0; server.lastRequest := last' |}.
Proof.
  cbv zeta. revert db n last. induction times as [|t times IH]; intros db n last Hr Hn Ht.
  - cbn. eauto.
  - inversion Ht as [|? ? Ht0 Ht']; subst.
    assert (Hcall : server.checkRateLimit windowMs maxRequests t ip db
                    = if maxRequests <=? n then (false, db)
                      else (true, server.with_rate_limits db
                              (<[ip := {| server.count := n + 1; server.firstRequest := t0;
                                          server.lastRequest := t |}]>
                                 (server.rate_limits db)))).
    { unfold server.checkRateLimit. rewrite Hr. cbn [server.firstRequest server.count].
      by replace (windowMs <? t - t0) with false by (symmetry; apply Z.ltb_ge; lia). }
    cbn [sequentially length]. rewrite Hcall. clear Hcall.
    destruct (maxRequests <=? n) eqn:Hmax.
    + apply Z.leb_le in Hmax. assert (n = maxRequests) as -> by lia.
      cbn [fst snd].
      destruct (IH db maxRequests last Hr ltac:(lia) Ht') as [-> Hex].
      replace (Z.to_nat (maxRequests - maxRequests)) with 0%nat by lia.
      rewrite !Nat.min_0_r, !Nat.sub_0_r. split; [reflexivity|exact Hex].
    + apply Z.leb_gt in Hmax. cbn [fst snd].
      edestruct (IH (server.with_rate_limits db
                       (<[ip := {| server.count := n + 1; server.firstRequest := t0;
                                   server.lastRequest := t |}]> (server.rate_limits db)))
                    (n + 1) t) as [-> Hex]; [apply lookup_insert_eq|lia|exact Ht'|].
      replace (Z.to_nat (maxRequests - n)) with (S (Z.to_nat (maxRequests - (n + 1)))) by lia.
      split; [reflexivity|exact Hex].
Qed.

(** X24.  The standalone rate limit is a fixed window that starts with the
    first request of an address.  Of the requests of one address handled
    within [windowMs] of the first one, exactly the first [maxRequests]
    are allowed; a request made after the window is allowed again. *)
Theorem server_checkRateLimit_exactly_max :
  forall windowMs maxRequests ip t0 times db,
    server.rate_limits db !! ip = None ->
    0 < maxRequests ->
    Forall (fun t => t - t0 <= windowMs) times ->
    let out := sequentially (fun t db => server.checkRateLimit windowMs maxRequests t ip db)
                            (t0 :: times) db in
    out.1 = (replicate (Nat.min (S (length times)) (Z.to_nat maxRequests)) true ++
             replicate (S (length times) - Z.to_nat maxRequests) false)%list /\
    (forall t, windowMs < t - t0 ->
       (server.checkRateLimit windowMs maxRequests t ip out.2).1 = true).
Proof.
  intros windowMs maxRequests ip t0 times db Hnone Hpos Ht. cbv zeta.
  assert (Hcall : server.checkRateLimit windowMs maxRequests t0 ip db
                  = (true, server.with_rate_limits db
                             (<[ip := {| server.count := 1; server.firstRequest := t0;
                                         server.lastRequest := t0 |}]>
                                (server.rate_limits db)))).
  { unfold server.checkRateLimit. by rewrite Hnone. }
  cbn [sequentially]. rewrite Hcall. clear Hcall. cbn [fst snd].
  edestruct (server_checkRateLimit_run windowMs maxRequests ip t0 times
               (server.with_rate_limits db
                  (<[ip := {| server.count := 1; server.firstRequest := t0;
                              server.lastRequest := t0 |}]> (server.rate_limits db)))
               1 t0) as [Hout (n' & last' & Hrec)];
    [apply lookup_insert_eq|lia|exact Ht|].
  cbv zeta in Hout, Hrec. rewrite Hout.
  set (final := sequentially _ times _) in *. clearbody final. split.
  - replace (Z.to_nat maxRequests) with (S (Z.to_nat (maxRequests - 1))) by lia.
    reflexivity.
  - intros t Hlate. unfold server.checkRateLimit. rewrite Hrec.
    cbn [server.firstRequest].
    by replace (windowMs <? t - t0) with true by (symmetry; apply Z.ltb_lt; lia).
Qed.

Lemma server_checkRateLimit_exactly_max_witness :
  (sequentially (fun t db => server.checkRateLimit 60000 2 t "203.0.113.7" db)
                [1000; 2000; 3000]
                {| server.challenges := ∅; server.rate_limits := ∅;
                   server.abuse_logs := [] |}).1
  = (replicate (Nat.min (S (length [2000; 3000])) (Z.to_nat 2)) true ++
     replicate (S (length [2000; 3000]) - Z.to_nat 2) false)%list.
Proof.
  apply (server_checkRateLimit_exactly_max 60000 2 "203.0.113.7" 1000 [2000; 3000]
           {| server.challenges := ∅; server.rate_limits := ∅; server.abuse_logs := [] |}).
  - reflexivity.
  - lia.
  - repeat constructor; lia.
Defined.

Section ServerVerify.
Variable jwt_verify : string -> Z -> option server.Payload.

(** X25.  The standalone verification is single use, and the validation for
    the site's server holds only after the verification.  For a stored,
    unverified challenge and a token that decodes to it, the first verify
    with the fingerprint of the token succeeds and every later one before
    the expiry is answered 400 'already verified'; /api/verify with the
    site key of the token answers 400 'not verified' before the
    verification and returns the score and the fingerprint afterwards, as
    often as it is asked. *)
Theorem server_verify_once :
  forall now ip token fp db decoded ch,
    token ≠ "" -> fp ≠ "" ->
    jwt_verify token now = Some decoded ->
    server.p_fingerprint decoded = fp ->
    server.challenges db !! server.p_challengeId decoded = Some ch ->
    server.verified ch = false ->
    now <= server.expiresAt ch ->
    let out := server.verify jwt_verify now ip (Some token) (Some fp) db in
    out.1 = server.Verified (server.riskScore ch) /\
    (forall now' ip',
       jwt_verify token now' = Some decoded ->
       now' <= server.expiresAt ch ->
       server.verify jwt_verify now' ip' (Some token) (Some fp) out.2
       = (server.Failure 400 "Challenge already verified", out.2)) /\
    (forall now' siteKey,
       siteKey ≠ "" ->
       jwt_verify token now' = Some decoded ->
       server.p_siteKey decoded = siteKey ->
       server.apiVerify jwt_verify now' (Some token) (Some siteKey) db
       = server.Failure 400 "Challenge not verified" /\
       (now' <= server.expiresAt ch ->
        server.apiVerify jwt_verify now' (Some token) (Some siteKey) out.2
        = server.Valid (server.riskScore ch) (server.fingerprint ch))).
Proof.
  intros now ip token fp db decoded ch Htok Hfp Hjwt Hdec Hl Hv He. cbv zeta.
  assert (Hout : server.verify jwt_verify now ip (Some token) (Some fp) db
                 = (server.Verified (server.riskScore ch),
                    {| server.challenges :=
                         <[server.p_challengeId decoded :=
                             {| server.fingerprint := server.fingerprint ch;
                                server.siteKey := server.siteKey ch;
                                server.riskScore := server.riskScore ch;
                                server.verified := true;
                                server.createdAt := server.createdAt ch;
                                server.expiresAt := server.expiresAt ch |}]>
                           (server.challenges db);
                       server.rate_limits := server.rate_limits db;
                       server.abuse_logs := server.abuse_logs db |})).
  { unfold server.verify.
    rewrite !truthy_Some, !or_else_Some by done. cbn [negb orb].
    rewrite Hjwt, Hdec, String.eqb_refl. cbn [negb]. rewrite Hl, Hv.
    by replace (server.expiresAt ch <? now) with false by (symmetry; apply Z.ltb_ge; lia). }
  rewrite Hout. cbn [fst snd]. split; [done|]. split.
  - intros now' ip' Hjwt' He'. unfold server.verify.
    rewrite !truthy_Some, !or_else_Some by done. cbn [negb orb].
    rewrite Hjwt', Hdec, String.eqb_refl. cbn [negb server.challenges].
    rewrite lookup_insert_eq. cbn [server.expiresAt server.verified].
    by replace (server.expiresAt ch <? now') with false by (symmetry; apply Z.ltb_ge; lia).
  - intros now' siteKey Hsk Hjwt' Hdsk. unfold server.apiVerify.
    rewrite !truthy_Some, !or_else_Some by done. cbn [negb orb].
    rewrite Hjwt', Hdsk, String.eqb_refl. cbn [negb server.challenges].
    rewrite Hl, Hv, lookup_insert_eq.
    cbn [negb server.expiresAt server.verified server.riskScore server.fingerprint].
    split; [done|]. intros He'.
    by replace (server.expiresAt ch <? now') with false by (symmetry; apply Z.ltb_ge; lia).
Qed.

End ServerVerify.

Lemma server_verify_once_witness :
  (server.verify scenario.jwt_verify 2000 "203.0.113.7" (Some "jwt-1")
     (Some "0123456789abcdef") scenario.serverDb).1
  = server.Verified (server.riskScore scenario.serverChallenge).
Proof.
  apply (server_verify_once scenario.jwt_verify 2000 "203.0.113.7" "jwt-1"
           "0123456789abcdef" scenario.serverDb
           {| server.p_challengeId := "id-1"; server.p_fingerprint := "0123456789abcdef";
              server.p_siteKey := "pk_site" |} scenario.serverChallenge);
    try reflexivity; try discriminate.
Defined.

(** ** The widget *)

Lemma toInt32_spec z : exists k, widget.toInt32 z = z + k * 2 ^ 32.
Proof.
  exists (- ((z + 2 ^ 31) / 2 ^ 32)). unfold widget.toInt32.
  change (2 ^ 32) with 4294967296. change (2 ^ 31) with 2147483648.
  pose proof (Z.div_mod (z + 2147483648) 4294967296 ltac:(lia)). lia.
Qed.

Lemma toInt32_shift z k : widget.toInt32 (z + k * 2 ^ 32) = widget.toInt32 z.
Proof.
  unfold widget.toInt32.
  replace (z + k * 2 ^ 32 + 2 ^ 31) with (z + 2 ^ 31 + k * 2 ^ 32) by lia.
  by rewrite Z_mod_plus_full.
Qed.

Lemma toInt32_range z : - 2 ^ 31 <= widget.toInt32 z < 2 ^ 31.
Proof.
  unfold widget.toInt32. change (2 ^ 32) with 4294967296. change (2 ^ 31) with 2147483648.
  pose proof (Z.mod_pos_bound (z + 2147483648) 4294967296 ltac:(lia)). lia.
Qed.

Lemma round_poly h c : widget.round h c = widget.toInt32 (31 * h + c).
Proof.
  unfold widget.round. destruct (toInt32_spec (Z.shiftl h 5)) as [k ->].
  rewrite Z.shiftl_mul_pow2 by lia. change (2 ^ 5) with 32.
  replace (h * 32 + k * 2 ^ 32 - h + c) with (31 * h + c + k * 2 ^ 32) by lia.
  apply toInt32_shift.
Qed.

Lemma hashLoop_from codes h p :
  h = widget.toInt32 p ->
  fold_left widget.round codes h
  = widget.toInt32 (fold_left (fun h c => 31 * h + c) codes p).
Proof.
  revert h p. induction codes as [|c codes IH]; intros h p Hh; [done|].
  cbn [fold_left]. apply IH. rewrite round_poly, Hh.
  destruct (toInt32_spec p) as [k ->].
  replace (31 * (p + k * 2 ^ 32) + c) with (31 * p + c + (31 * k) * 2 ^ 32) by lia.
  apply toInt32_shift.
Qed.

Lemma poly_app codes1 codes2 p :
  fold_left (fun h c => 31 * h + c) (codes1 ++ codes2) p
  = fold_left (fun h c => 31 * h + c) codes2 (fold_left (fun h c => 31 * h + c) codes1 p).
Proof. apply fold_left_app. Qed.

(** X26.  The string hash of the widget is the 32-bit wrap-around of the
    base-31 polynomial of the code units; the number printed in base 36 is
    its absolute value, between 0 and 2^31.  It therefore collides as that
    polynomial does: raising one code unit by one and lowering the next by
    31 leaves the hash unchanged, whatever comes before and after. *)
Theorem hashString_polynomial :
  forall codes,
    widget.hashLoop codes = widget.toInt32 (fold_left (fun h c => 31 * h + c) codes 0) /\
    0 <= widget.hashNumber codes <= 2 ^ 31 /\
    forall before a b after,
      widget.hashLoop (before ++ [a; b] ++ after)
      = widget.hashLoop (before ++ [a + 1; b - 31] ++ after).
Proof.
  assert (Hpoly : forall codes,
            widget.hashLoop codes
            = widget.toInt32 (fold_left (fun h c => 31 * h + c) codes 0)).
  { intros codes. unfold widget.hashLoop. by apply hashLoop_from. }
  intros codes. split; [apply Hpoly|]. split.
  - unfold widget.hashNumber. rewrite Hpoly.
    pose proof (toInt32_range (fold_left (fun h c => 31 * h + c) codes 0)). lia.
  - intros before a b after. rewrite !Hpoly, !poly_app. cbn [fold_left].
    do 2 f_equal. lia.
Qed.

Lemma track_drop {A} (limit : nat) (buffer : list A) (x : A) :
  (length buffer <= limit)%nat ->
  widget.track limit buffer x
  = drop (length (buffer ++ [x]) - limit) (buffer ++ [x]).
Proof.
  intros Hlen. unfold widget.track. rewrite length_app. cbn [length].
  destruct (limit <? length buffer + 1)%nat eqn:E.
  - apply Nat.ltb_lt in E.
    replace (length buffer + 1 - limit)%nat with 1%nat by lia.
    by destruct (buffer ++ [x])%list.
  - apply Nat.ltb_ge in E.
    by replace (length buffer + 1 - limit)%nat with 0%nat by lia.
Qed.

Lemma track_fold {A} (limit : nat) (events buffer : list A) :
  (length buffer <= limit)%nat ->
  fold_left (widget.track limit) events buffer
  = drop (length (buffer ++ events) - limit) (buffer ++ events).
Proof.
  revert buffer. induction events as [|x events IH]; intros buffer Hlen.
  - cbn [fold_left]. rewrite app_nil_r.
    by replace (length buffer - limit)%nat with 0%nat by lia.
  - cbn [fold_left]. rewrite track_drop by done.
    assert (Hbx : length (buffer ++ [x]) = S (length buffer))
      by (rewrite length_app; cbn [length]; lia).
    rewrite Hbx.
    rewrite IH by (rewrite length_drop, Hbx; lia).
    rewrite <- drop_app_le by (rewrite Hbx; lia).
    rewrite drop_drop, <- app_assoc. cbn [app].
    f_equal. rewrite !length_app, length_drop, !length_app. cbn [length]. lia.
Qed.

(** X27.  The sample buffers of the widget hold the most recent events:
    after any sequence of events the mouse buffer is the last 50 of them
    and the keystroke buffer the last 30, in order; they never grow
    beyond that. *)
Theorem buffers_hold_latest :
  (forall events,
     fold_left widget.trackMouseMovement events []
     = drop (length events - 50) events /\
     (length (fold_left widget.trackMouseMovement events []) <= 50)%nat) /\
  (forall events,
     fold_left widget.trackKeystroke events []
     = drop (length events - 30) events /\
     (length (fold_left widget.trackKeystroke events []) <= 30)%nat).
Proof.
  split; intros events.
  - assert (E : fold_left widget.trackMouseMovement events []
                = drop (length events - 50) events).
    { exact (track_fold 50 events [] ltac:(cbn; lia)). }
    split; [exact E|]. rewrite E, length_drop. lia.
  - assert (E : fold_left widget.trackKeystroke events []
                = drop (length events - 30) events).
    { exact (track_fold 30 events [] ltac:(cbn; lia)). }
    split; [exact E|]. rewrite E, length_drop. lia.
Qed.
